(** * ApkTranslator: the batch translation pipeline and the workflow gate

    A shallow embedding of [ApkTranslator.py]: the retrying adapter
    [translate_text_with_ai], the batch loop of [_worker_translate] with
    [_get_translatable_strings] and [_update_tags_from_response], and the
    button gate of [_update_ui_for_state] with the handlers of the
    buttons, the workers they start on threads of their own and the
    callbacks the workers hand to the main loop.

    Python [str] values are modelled as [string] (a sequence of bytes, the
    UTF-8 encoding of the text).  Every pattern the program searches for
    is ASCII, so searching the bytes agrees with searching the code
    points.  White space and letter case are those of ASCII: [strip] and
    [lower] leave the bytes of other characters alone. *)

From Stdlib Require Import String Ascii Bool Arith Lia.
From stdpp Require Import base list.

Local Open Scope string_scope.
Local Open Scope bool_scope.
Local Open Scope nat_scope.

(** ** Python string primitives *)

Module PyStr.

(** [pat in s] *)
Fixpoint contains (pat s : string) : bool :=
  String.prefix pat s ||
  match s with
  | EmptyString => false
  | String _ s' => contains pat s'
  end.

(** [sep.join(parts)] *)
Fixpoint join (sep : string) (parts : list string) : string :=
  match parts with
  | [] => ""
  | [p] => p
  | p :: rest => p ++ sep ++ join sep rest
  end.

(** [s.split(sep)] for a non-empty [sep]: a left-to-right scan for
    non-overlapping occurrences.  [skip] counts the characters of an
    occurrence that are still to be passed over; the head of the result is
    the piece being read. *)
Fixpoint split_go (sep : string) (skip : nat) (s : string) : list string :=
  match s with
  | EmptyString => [""]
  | String c s' =>
      match skip with
      | S k => split_go sep k s'
      | O =>
          if String.prefix sep s
          then "" :: split_go sep (String.length sep - 1) s'
          else match split_go sep 0 s' with
               | piece :: pieces => String c piece :: pieces
               | [] => [String c ""]
               end
      end
  end.

Definition split (sep s : string) : list string := split_go sep 0 s.

(** The characters [str.isspace] accepts among the ASCII ones: space,
    tab, line feed, vertical tab, form feed, carriage return and the four
    separators 0x1c-0x1f. *)
Definition is_space (c : ascii) : bool :=
  let n := nat_of_ascii c in
  ((n =? 32) || ((9 <=? n) && (n <=? 13)) || ((28 <=? n) && (n <=? 31)))%nat.

Fixpoint lstrip (s : string) : string :=
  match s with
  | EmptyString => ""
  | String c s' => if is_space c then lstrip s' else s
  end.

Fixpoint rstrip (s : string) : string :=
  match s with
  | EmptyString => ""
  | String c s' =>
      match rstrip s' with
      | EmptyString => if is_space c then "" else String c ""
      | r => String c r
      end
  end.

(** [s.strip()] *)
Definition strip (s : string) : string := rstrip (lstrip s).

(** [s.isspace()]: non-empty and all white space. *)
Definition isspace (s : string) : bool :=
  negb (s =? "")%string && (lstrip s =? "")%string.

Definition lower_char (c : ascii) : ascii :=
  let n := nat_of_ascii c in
  if ((65 <=? n) && (n <=? 90))%nat then ascii_of_nat (n + 32) else c.

(** [s.lower()] on the ASCII letters. *)
Fixpoint lower (s : string) : string :=
  match s with
  | EmptyString => ""
  | String c s' => String (lower_char c) (lower s')
  end.

(** [s.endswith(suffix)] *)
Fixpoint endswith (s suffix : string) : bool :=
  (s =? suffix)%string ||
  match s with
  | EmptyString => false
  | String _ s' => endswith s' suffix
  end.

(** [str(x)] of an optional string, as an f-string renders it. *)
Definition str_of_opt (o : option string) : string :=
  match o with
  | Some s => s
  | None => "None"
  end.

(** The truth value of an optional string: [None] and the empty string
    are false. *)
Definition truthy (o : option string) : bool :=
  match o with
  | Some (String _ _) => true
  | _ => false
  end.

End PyStr.

(** ** Constants *)

Definition BATCH_SIZE : nat := 100.
Definition LF : string := String (ascii_of_nat 10) "".
Definition XML_SEPARATOR : string := Eval cbv in LF ++ "---" ++ LF.
Definition API_MAX_RETRIES : nat := 3.
Definition API_RATE_LIMIT_WAIT_SEC : nat := 60.

(** The separator without its last character. *)
Definition separator_head : string := Eval cbv in LF ++ "---".

(** An occurrence of the separator starts inside [f] when the separator
    follows [f]. *)
Definition separator_starts_inside (f : string) : bool :=
  PyStr.contains XML_SEPARATOR (f ++ separator_head).

(** ** The string table

    An element as [xml.etree.ElementTree] holds it: its tag, its
    attributes in document order, the text before its first child, the
    text after its end tag, and its child elements.  A [<string>] with
    markup inside it ([<b>], [<xliff:g>]) has that markup as children: the
    words inside a child are the child's [text], the words after it the
    child's [tail]. *)

#[warnings="-register-all"]
Inductive Element := mkElement {
  tag : string;
  attrib : list (string * string);
  text : option string;
  tail : option string;
  children : list Element
}.

(** [e.text = t] *)
Definition set_text (e : Element) (t : option string) : Element :=
  {| tag := tag e; attrib := attrib e; text := t; tail := tail e;
     children := children e |}.

(** The two library calls the pipeline makes: [ET.tostring(e,
    encoding='unicode')] and [ET.fromstring(s)], the latter with [None]
    for [ET.ParseError]. *)
Class ElementTree := {
  tostring : Element -> string;
  fromstring : string -> option Element
}.

(** ** The remote model

    What one call of [model.generate_content] does: it returns a response
    with some text, raises [ReadTimeout] or [ConnectionError], or raises
    anything else; the exceptions carry their [str(e)]. *)
Inductive ApiOutcome :=
| Returns (response_text : string)
| RaisesNetwork (str_e : string)
| Raises (str_e : string).

(** The remote side is a script: the outcome of the n-th call made in
    the session, given the batch text placed at the end of the prompt (the
    fixed instructions before it are left out). *)
Definition Api := nat -> string -> ApiOutcome.

(** What [translate_text_with_ai] returns, with the number of calls it
    made and the seconds it slept. *)
Record AdapterRun := mkAdapterRun {
  returned : string;
  attempts : nat;
  slept : nat
}.

(** The test on [error_str = str(e).lower()] in the last handler. *)
Definition is_rate_limit (str_e : string) : bool :=
  let error_str := PyStr.lower str_e in
  PyStr.contains "resource_exhausted" error_str
  || PyStr.contains "rate limit" error_str.

(** The outcomes after which the loop sleeps and goes round again (when
    an attempt is left). *)
Definition retried (o : ApiOutcome) : bool :=
  match o with
  | Returns _ => false
  | RaisesNetwork _ => true
  | Raises str_e => is_rate_limit str_e
  end.

(** The body of [for attempt in range(API_MAX_RETRIES)]; [todo] holds the
    values of [attempt] still to come, [calls] numbers the calls made in
    the session before this one. *)
Fixpoint attempt_loop (api : Api) (calls : nat) (xml_snippets_text : string)
    (made waited : nat) (todo : list nat) : AdapterRun :=
  match todo with
  | [] => mkAdapterRun "ERROR_MAX_RETRIES_REACHED" made waited
  | attempt :: todo' =>
      match api (calls + made) xml_snippets_text with
      | Returns response_text =>
          mkAdapterRun (PyStr.strip response_text) (S made) waited
      | RaisesNetwork str_e =>
          if attempt <? API_MAX_RETRIES - 1
          then attempt_loop api calls xml_snippets_text (S made)
                 (waited + API_RATE_LIMIT_WAIT_SEC) todo'
          else mkAdapterRun ("ERROR_TIMEOUT: " ++ str_e) (S made) waited
      | Raises str_e =>
          if is_rate_limit str_e
          then
            if attempt <? API_MAX_RETRIES - 1
            then attempt_loop api calls xml_snippets_text (S made)
                   (waited + API_RATE_LIMIT_WAIT_SEC) todo'
            else mkAdapterRun "ERROR_RATE_LIMIT" (S made) waited
          else mkAdapterRun ("ERROR_UNEXPECTED: " ++ str_e) (S made) waited
      end
  end.

(** The four strings the adapter returns when it gives up. *)
Inductive TerminalFailure : string -> Prop :=
| Timeout (str_e : string) : TerminalFailure ("ERROR_TIMEOUT: " ++ str_e)
| RateLimit : TerminalFailure "ERROR_RATE_LIMIT"
| Unexpected (str_e : string) : TerminalFailure ("ERROR_UNEXPECTED: " ++ str_e)
| MaxRetries : TerminalFailure "ERROR_MAX_RETRIES_REACHED".

Definition translate_text_with_ai (api : Api) (calls : nat)
    (xml_snippets_text : string) : AdapterRun :=
  if (xml_snippets_text =? "")%string || PyStr.isspace xml_snippets_text
  then mkAdapterRun "" 0 0
  else attempt_loop api calls xml_snippets_text 0 0 (seq 0 API_MAX_RETRIES).

(** ** The batch pipeline

    [xml_root] is the list of the root's children.  The program keeps
    references to the elements it will translate and assigns to their
    [text] in place; here a reference is the element's position under the
    root, and an assignment is an [alter] of the list at that position. *)

Section Pipeline.
Context `{ET : ElementTree}.

Definition element_at (xml_root : list Element) (i : nat) : Element :=
  default (mkElement "" [] None None []) (xml_root !! i).

(** [xml_root.findall(name)]: the children with that tag, in document
    order. *)
Definition findall (name : string) (xml_root : list Element) : list nat :=
  List.filter (fun i => (tag (element_at xml_root i) =? name)%string)
    (seq 0 (length xml_root)).

(** The condition of the comprehension in [_get_translatable_strings]:
    [tag.text and not ('%' in tag.text and ('s' in tag.text or 'd' in
    tag.text))]. *)
Definition keeps (t : option string) : bool :=
  match t with
  | None => false
  | Some s =>
      negb (s =? "")%string &&
      negb (PyStr.contains "%" s && (PyStr.contains "s" s || PyStr.contains "d" s))
  end.

Definition _get_translatable_strings (xml_root : list Element) : list nat :=
  List.filter (fun i => keeps (text (element_at xml_root i)))
    (findall "string" xml_root).

(** One turn of the loop of [_update_tags_from_response]. *)
Definition update_tag (translated_xml : string) (original_tag : Element) : Element :=
  match fromstring (PyStr.strip translated_xml) with
  | Some translated_tag => set_text original_tag (text translated_tag)
  | None =>
      set_text original_tag
        (Some ("TRANSLATION_ERROR: " ++ PyStr.str_of_opt (text original_tag)))
  end.

Definition update_zipped (xml_root : list Element)
    (pairs : list (nat * string)) : list Element :=
  foldl (fun r p => alter (update_tag p.2) p.1 r) xml_root pairs.

Definition _update_tags_from_response (xml_root : list Element)
    (original_tags : list nat) (translated_xml_response : string)
    : bool * list Element :=
  let split_translations := PyStr.split XML_SEPARATOR translated_xml_response in
  if negb (length split_translations =? length original_tags)
  then (false, xml_root)
  else (true, update_zipped xml_root (zip original_tags split_translations)).

(** [range(0, stop, step)] *)
Definition range_step (stop step : nat) : list nat :=
  map (fun k => k * step) (seq 0 ((stop + step - 1) / step)).

(** [l[i:i + BATCH_SIZE]] *)
Definition batch_slice {A} (l : list A) (i : nat) : list A :=
  take BATCH_SIZE (drop i l).

(** What a run of the loop has done so far. *)
Record Run := mkRun {
  run_root : list Element;      (* the tree, as mutated so far *)
  run_calls : nat;              (* calls of the remote model so far *)
  run_slept : nat;              (* seconds of cooldown *)
  run_sent : list string;       (* batch texts given to the adapter, in order *)
  translated_count : nat;
  progress : list (nat * nat)   (* the "v / t" shown, in order *)
}.

(** How [_worker_translate] leaves: by the last line, by one of its two
    early returns inside the loop (with the loop variable [i]), or by the
    return before the loop. *)
Inductive Ending :=
| Completed
| NoStrings
| ApiError (i : nat) (combined_translation : string)
| Mismatch (i : nat).

Fixpoint batch_loop (api : Api) (strings_to_translate : list nat)
    (all_xml_snippets : list string) (total_strings : nat)
    (starts : list nat) (r : Run) : Run * Ending :=
  match starts with
  | [] => (r, Completed)
  | i :: starts' =>
      let batch_tags := batch_slice strings_to_translate i in
      let batch_xml_snippets := batch_slice all_xml_snippets i in
      let combined_text := PyStr.join XML_SEPARATOR batch_xml_snippets in
      let a := translate_text_with_ai api (run_calls r) combined_text in
      let combined_translation := returned a in
      let r1 := mkRun (run_root r) (run_calls r + attempts a)
                  (run_slept r + slept a) (run_sent r ++ [combined_text])
                  (translated_count r) (progress r) in
      if PyStr.contains "ERROR_" combined_translation
      then (r1, ApiError i combined_translation)
      else
        match _update_tags_from_response (run_root r1) batch_tags
                combined_translation with
        | (false, _) => (r1, Mismatch i)
        | (true, root') =>
            let count := translated_count r1 + length batch_tags in
            batch_loop api strings_to_translate all_xml_snippets total_strings
              starts'
              (mkRun root' (run_calls r1) (run_slept r1) (run_sent r1) count
                 (progress r1 ++ [(count, total_strings)]))
        end
  end.

(** [[ET.tostring(tag, encoding='unicode').strip() for tag in
    strings_to_translate]] *)
Definition all_xml_snippets (xml_root : list Element)
    (strings_to_translate : list nat) : list string :=
  map (fun i => PyStr.strip (tostring (element_at xml_root i)))
    strings_to_translate.

(** The run as the loop finds it: nothing sent, "0 / t" shown. *)
Definition start_run (xml_root : list Element) (calls total_strings : nat) : Run :=
  mkRun xml_root calls 0 [] 0 [(0, total_strings)].

(** The body of [_worker_translate] up to its last two lines. *)
Definition translate_run (api : Api) (calls : nat) (xml_root : list Element)
    : Run * Ending :=
  let strings_to_translate := _get_translatable_strings xml_root in
  match strings_to_translate with
  | [] => (mkRun xml_root calls 0 [] 0 [], NoStrings)
  | _ =>
      let total_strings := length strings_to_translate in
      batch_loop api strings_to_translate
        (all_xml_snippets xml_root strings_to_translate) total_strings
        (range_step total_strings BATCH_SIZE)
        (start_run xml_root calls total_strings)
  end.

End Pipeline.

(** ** A small ElementTree

    The library's serializer, and its parser on flat elements: a start
    tag with double-quoted attributes, character data without markup or
    entity references, and the matching end tag (or an empty-element
    tag).  The parser refuses everything else, nested markup too, so it
    agrees with the library only on flat input; the theorems below hold
    for any [ElementTree], and this one serves to run the pipeline on
    concrete string tables whose answers are flat. *)

Module FlatXml.

Definition DQ : string := String (ascii_of_nat 34) EmptyString.

Fixpoint escape (table : list (ascii * string)) (s : string) : string :=
  match s with
  | EmptyString => EmptyString
  | String c s' =>
      match List.find (fun p => Ascii.eqb (fst p) c) table with
      | Some p => snd p ++ escape table s'
      | None => String c (escape table s')
      end
  end.

Definition cdata_table : list (ascii * string) :=
  [("&"%char, "&amp;"); ("<"%char, "&lt;"); (">"%char, "&gt;")].

Definition attrib_table : list (ascii * string) :=
  cdata_table ++
  [(ascii_of_nat 34, "&quot;"); (ascii_of_nat 13, "&#13;");
   (ascii_of_nat 10, "&#10;"); (ascii_of_nat 9, "&#09;")]%list.

Definition write_attrib (kv : string * string) : string :=
  " " ++ fst kv ++ "=" ++ DQ ++ escape attrib_table (snd kv) ++ DQ.

(** [_serialize_xml]: the start tag, the text, the children each with
    its tail, the end tag, and the tail of the element itself. *)
Fixpoint flat_tostring (e : Element) : string :=
  "<" ++ tag e ++ String.concat EmptyString (map write_attrib (attrib e)) ++
  (if PyStr.truthy (text e) || negb (bool_decide (length (children e) = 0))
   then ">" ++
        (if PyStr.truthy (text e)
         then escape cdata_table (PyStr.str_of_opt (text e)) else EmptyString) ++
        String.concat EmptyString (map flat_tostring (children e)) ++
        "</" ++ tag e ++ ">"
   else " />") ++
  (if PyStr.truthy (tail e) then escape cdata_table (PyStr.str_of_opt (tail e))
   else EmptyString).

Fixpoint span (p : ascii -> bool) (s : string) : string * string :=
  match s with
  | EmptyString => (EmptyString, EmptyString)
  | String c s' =>
      if p c then (String c (fst (span p s')), snd (span p s'))
      else (EmptyString, s)
  end.

Definition is_name_char (c : ascii) : bool :=
  let n := nat_of_ascii c in
  ((97 <=? n) && (n <=? 122)) || ((65 <=? n) && (n <=? 90)) ||
  ((48 <=? n) && (n <=? 58)) || (n =? 95) || (n =? 45) || (n =? 46).

Definition is_value_char (c : ascii) : bool :=
  let n := nat_of_ascii c in
  negb ((n =? 34) || (n =? 60) || (n =? 38)).

Definition is_data_char (c : ascii) : bool :=
  let n := nat_of_ascii c in
  negb ((n =? 60) || (n =? 38)).

(** The attributes of a start tag, up to its closing [>] or [/>]. *)
Fixpoint parse_attribs (fuel : nat) (s : string)
    : option (list (string * string) * string) :=
  match fuel with
  | O => None
  | S fuel' =>
      let s1 := PyStr.lstrip s in
      match s1 with
      | String ">" _ => Some ([], s1)
      | String "/" _ => Some ([], s1)
      | _ =>
          let k := fst (span is_name_char s1) in
          match k, snd (span is_name_char s1) with
          | String _ _, String "=" (String q r) =>
              if Ascii.eqb q (ascii_of_nat 34) then
                let v := fst (span is_value_char r) in
                match snd (span is_value_char r) with
                | String q' r' =>
                    if Ascii.eqb q' (ascii_of_nat 34) then
                      match parse_attribs fuel' r' with
                      | Some (kvs, rest) => Some ((k, v) :: kvs, rest)
                      | None => None
                      end
                    else None
                | EmptyString => None
                end
              else None
          | _, _ => None
          end
      end
  end.

Definition flat_fromstring (s : string) : option Element :=
  match s with
  | String "<" s1 =>
      let name := fst (span is_name_char s1) in
      let s2 := snd (span is_name_char s1) in
      match name, parse_attribs (S (String.length s2)) s2 with
      | String _ _, Some (kvs, String ">" s3) =>
          let data := fst (span is_data_char s3) in
          if (snd (span is_data_char s3) =? "</" ++ name ++ ">")%string
          then Some (mkElement name kvs
                       (if PyStr.truthy (Some data) then Some data else None) None [])
          else None
      | String _ _, Some (kvs, "/>") => Some (mkElement name kvs None None [])
      | _, _ => None
      end
  | _ => None
  end.

#[export] Instance flat : ElementTree :=
  {| tostring := flat_tostring; fromstring := flat_fromstring |}.

(** [<string name="key">txt</string>] followed by the indentation of the
    next line. *)
Definition string_tag (key txt : string) : Element :=
  mkElement "string" [("name", key)] (Some txt) (Some (LF ++ "    ")) [].

End FlatXml.

(** ** The workflow gate *)

Inductive AppState :=
| INITIAL
| APK_SELECTED
| DECOMPILED
| STRINGS_EXTRACTED
| TRANSLATION_COMPLETE
| SAVED
| RECOMPILED.

(** The workflow buttons made by [_setup_gui]. *)
Inductive Button :=
| step1_btn
| step2_btn
| step2b_btn
| step3_btn
| step4a_btn
| step5_btn
| step6_btn
| step7_btn.

Inductive TkState := NORMAL | DISABLED.

Inductive Stage :=
| Select
| Decompile
| Extract
| Translate
| Save
| Recompile
| Sign.

#[export] Instance Button_eq_dec : EqDecision Button.
Proof. solve_decision. Defined.

#[export] Instance AppState_eq_dec : EqDecision AppState.
Proof. solve_decision. Defined.

#[export] Instance Stage_eq_dec : EqDecision Stage.
Proof. solve_decision. Defined.

(** The [command=] each button was given. *)
Definition command (b : Button) : Stage :=
  match b with
  | step1_btn => Select
  | step2_btn => Decompile
  | step2b_btn => Decompile
  | step3_btn => Extract
  | step4a_btn => Translate
  | step5_btn => Save
  | step6_btn => Recompile
  | step7_btn => Sign
  end.

(** What the program has done to the world outside it, in order: the
    calls that returned of [shutil.copy], [run_command], the remote model,
    the writing of the table and [shutil.rmtree].  [RemovedWorkDir] is
    [shutil.rmtree(self.work_dir)], which the first stage makes before it
    copies and the last stage after it has signed; [RemovedDecompiledDir]
    is [shutil.rmtree(self.decompiled_dir)] of the decompile worker.  The
    making of directories is not recorded. *)
Inductive Effect :=
| CopiedApk (source_apk_path : string)
| RanApktoolDecode
| RanApktoolBuild
| RanApksigner
| CalledModel (made : nat)
| WroteStrings (save_path : string)
| RemovedWorkDir
| RemovedDecompiledDir.

(** The fields of [APKTranslatorApp] the stages read and write.  A path
    field is [None] until it is assigned; the tree is kept as the list of
    the root's children. *)
Record App := mkApp {
  current_state : option AppState;
  expert_mode : bool;
  overwrite_original : bool;
  btn : Button -> TkState;
  dependencies_ok : bool;
  apk_path : option string;
  decompiled_dir : option string;
  original_strings_xml_path : option string;
  unsigned_apk_path : option string;
  xml_root : option (list Element);
  calls_made : nat;
  effects : list Effect
}.

(** What the world answers while one stage runs. *)
Record World := mkWorld {
  chosen_file : string;                   (* the file dialog; empty when cancelled *)
  workdir_exists : bool;                  (* the work directory is there *)
  rmtree_ok : bool;                       (* shutil.rmtree returned, where it is called *)
  workdir_ok : bool;                      (* os.makedirs(self.work_dir) returned *)
  copy_ok : bool;                         (* the file could be copied into it *)
  work_path : string;                     (* the path the stage derives for its output *)
  is_dir : bool;                          (* os.path.isdir(self.decompiled_dir) *)
  command_ok : bool;                      (* run_command returned True *)
  strings_xml : option (option (list Element));
    (* no such file / a file ET.parse refuses / the parsed children *)
  credentials_ok : bool;                  (* an API key and a model are entered *)
  model_api : Api;
  write_ok : bool;                        (* the save path could be written *)
  unsigned_exists : bool;
  keystore_exists : bool
}.

Definition with_btn (app : App) (f : Button -> TkState) : App :=
  mkApp (current_state app) (expert_mode app) (overwrite_original app) f
    (dependencies_ok app) (apk_path app) (decompiled_dir app)
    (original_strings_xml_path app) (unsigned_apk_path app) (xml_root app)
    (calls_made app) (effects app).

Definition with_state (app : App) (s : AppState) : App :=
  mkApp (Some s) (expert_mode app) (overwrite_original app) (btn app)
    (dependencies_ok app) (apk_path app) (decompiled_dir app)
    (original_strings_xml_path app) (unsigned_apk_path app) (xml_root app)
    (calls_made app) (effects app).

Definition did (app : App) (e : Effect) : App :=
  mkApp (current_state app) (expert_mode app) (overwrite_original app) (btn app)
    (dependencies_ok app) (apk_path app) (decompiled_dir app)
    (original_strings_xml_path app) (unsigned_apk_path app) (xml_root app)
    (calls_made app) (effects app ++ [e]).

(** [b.config(state=s)] *)
Definition config (s : TkState) (f : Button -> TkState) (b : Button)
    : Button -> TkState :=
  fun b' => if decide (b' = b) then s else f b'.

Definition config_all (s : TkState) (bs : list Button)
    (f : Button -> TkState) : Button -> TkState :=
  foldl (config s) f bs.

Definition buttons : list Button :=
  [step2_btn; step2b_btn; step3_btn; step4a_btn; step5_btn; step6_btn; step7_btn].

Definition state_map (s : AppState) : list Button :=
  match s with
  | INITIAL => []
  | APK_SELECTED => [step2_btn; step2b_btn]
  | DECOMPILED => [step3_btn]
  | STRINGS_EXTRACTED => [step4a_btn]
  | TRANSLATION_COMPLETE => [step5_btn]
  | SAVED => [step6_btn]
  | RECOMPILED => [step7_btn]
  end.

Definition _update_ui_for_state (app : App) : App :=
  let off := config_all DISABLED buttons (btn app) in
  if expert_mode app then with_btn app (config_all NORMAL buttons off)
  else
    match current_state app with
    | Some s => with_btn app (config_all NORMAL (state_map s) off)
    | None => with_btn app off
    end.

Definition set_state (app : App) (new_state : AppState) : App :=
  _update_ui_for_state (with_state app new_state).

Definition set_apk_path (app : App) (p : string) : App :=
  mkApp (current_state app) (expert_mode app) (overwrite_original app) (btn app)
    (dependencies_ok app) (Some p) (decompiled_dir app)
    (original_strings_xml_path app) (unsigned_apk_path app) (xml_root app)
    (calls_made app) (effects app).

Definition set_decompiled_dir (app : App) (p : string) : App :=
  mkApp (current_state app) (expert_mode app) (overwrite_original app) (btn app)
    (dependencies_ok app) (apk_path app) (Some p)
    (original_strings_xml_path app) (unsigned_apk_path app) (xml_root app)
    (calls_made app) (effects app).

Definition set_original_strings_xml_path (app : App) (p : string) : App :=
  mkApp (current_state app) (expert_mode app) (overwrite_original app) (btn app)
    (dependencies_ok app) (apk_path app) (decompiled_dir app)
    (Some p) (unsigned_apk_path app) (xml_root app)
    (calls_made app) (effects app).

Definition set_unsigned_apk_path (app : App) (p : string) : App :=
  mkApp (current_state app) (expert_mode app) (overwrite_original app) (btn app)
    (dependencies_ok app) (apk_path app) (decompiled_dir app)
    (original_strings_xml_path app) (Some p) (xml_root app)
    (calls_made app) (effects app).

Definition set_xml_root (app : App) (root : list Element) (calls : nat) : App :=
  mkApp (current_state app) (expert_mode app) (overwrite_original app) (btn app)
    (dependencies_ok app) (apk_path app) (decompiled_dir app)
    (original_strings_xml_path app) (unsigned_apk_path app) (Some root)
    calls (effects app).

(** ** The seven stages, one at a time

    The handler of a button with the worker it starts.  A worker runs on
    a thread of its own and hands [set_state] to the main loop with
    [root.after(0, ...)]; in this section the worker has run and the main
    loop has taken the hand-over before anything else happens, as when
    the user waits for a stage to end before the next click.  What
    happens when other events come in between is the subject of the next
    section. *)

Section Stages.
Context `{ET : ElementTree}.

Definition run_step1_select_apk (w : World) (app : App) : App :=
  if (chosen_file w =? "")%string then app
  else if workdir_exists w && negb (rmtree_ok w) then app
  else
    let app0 := if workdir_exists w then did app RemovedWorkDir else app in
    if negb (workdir_ok w) then app0
    else
      let app1 := set_apk_path app0 (work_path w) in
      if copy_ok w
      then set_state (did app1 (CopiedApk (chosen_file w))) APK_SELECTED
      else app1.

Definition _worker_decompile (w : World) (app : App) : App :=
  let app1 := set_decompiled_dir app (work_path w) in
  if is_dir w && negb (rmtree_ok w) then app1
  else
    let app2 := if is_dir w then did app1 RemovedDecompiledDir else app1 in
    let app3 := did app2 RanApktoolDecode in
    if command_ok w then set_state app3 DECOMPILED else app3.

Definition run_step2_decompile (w : World) (app : App) : App :=
  if negb (dependencies_ok app) then app
  else if negb (PyStr.truthy (apk_path app)) then app
  else _worker_decompile w app.

Definition _worker_extract_strings (w : World) (app : App) : App :=
  let app1 :=
    set_original_strings_xml_path app
      (PyStr.str_of_opt (decompiled_dir app) ++ "/res/values/strings.xml") in
  match strings_xml w with
  | None => app1
  | Some None => app1
  | Some (Some root) => set_state (set_xml_root app1 root (calls_made app1)) STRINGS_EXTRACTED
  end.

Definition run_step3_extract_strings (w : World) (app : App) : App :=
  if negb (PyStr.truthy (decompiled_dir app)) || negb (is_dir w) then app
  else _worker_extract_strings w app.

Definition _worker_translate (w : World) (app : App) (root : list Element) : App :=
  match translate_run (model_api w) (calls_made app) root with
  | (r, NoStrings) => with_btn app (config NORMAL (btn app) step4a_btn)
  | (r, ApiError _ _) =>
      _update_ui_for_state
        (did (set_xml_root app (run_root r) (run_calls r)) (CalledModel (run_calls r)))
  | (r, Mismatch _) =>
      _update_ui_for_state
        (did (set_xml_root app (run_root r) (run_calls r)) (CalledModel (run_calls r)))
  | (r, Completed) =>
      set_state
        (did (set_xml_root app (run_root r) (run_calls r)) (CalledModel (run_calls r)))
        TRANSLATION_COMPLETE
  end.

Definition run_step4_translate (w : World) (app : App) : App :=
  match xml_root app with
  | None => app
  | Some root =>
      if negb (credentials_ok w) then app
      else _worker_translate w (with_btn app (config DISABLED (btn app) step4a_btn)) root
  end.

Definition _worker_save_translated (w : World) (app : App) : App :=
  if overwrite_original app then
    match original_strings_xml_path app with
    | Some (String c p) =>
        if write_ok w then set_state (did app (WroteStrings (String c p))) SAVED
        else app
    | _ => app
    end
  else
    if write_ok w
    then set_state
           (did app (WroteStrings
              (PyStr.str_of_opt (decompiled_dir app) ++ "/res/values-he-rIL/strings.xml")))
           SAVED
    else app.

Definition run_step5_save_translated (w : World) (app : App) : App :=
  if negb (PyStr.truthy (decompiled_dir app)) then app
  else _worker_save_translated w app.

Definition _worker_recompile (w : World) (app : App) : App :=
  let app1 := did (set_unsigned_apk_path app (work_path w)) RanApktoolBuild in
  if command_ok w then set_state app1 RECOMPILED else app1.

Definition run_step6_recompile (w : World) (app : App) : App :=
  if negb (dependencies_ok app) then app
  else if negb (PyStr.truthy (decompiled_dir app)) then app
  else _worker_recompile w app.

Definition _worker_sign (w : World) (app : App) : App :=
  if negb (keystore_exists w) then app
  else
    let app1 := did app RanApksigner in
    if command_ok w then
      if workdir_exists w && negb (rmtree_ok w) then app1
      else set_state (if workdir_exists w then did app1 RemovedWorkDir else app1)
             INITIAL
    else app1.

Definition run_step7_sign (w : World) (app : App) : App :=
  if negb (dependencies_ok app) then app
  else if negb (PyStr.truthy (unsigned_apk_path app)) || negb (unsigned_exists w) then app
  else _worker_sign w app.

Definition run_stage (s : Stage) : World -> App -> App :=
  match s with
  | Select => run_step1_select_apk
  | Decompile => run_step2_decompile
  | Extract => run_step3_extract_strings
  | Translate => run_step4_translate
  | Save => run_step5_save_translated
  | Recompile => run_step6_recompile
  | Sign => run_step7_sign
  end.

(** A click with the stage it starts run to its end: Tk calls the
    command of a button only while the button is not disabled. *)
Definition click (b : Button) (w : World) (app : App) : App :=
  match btn app b with
  | DISABLED => app
  | NORMAL => run_stage (command b) w app
  end.

(** The check box of the expert mode, with its command
    [toggle_expert_mode]. *)
Definition toggle_expert_mode (app : App) : App :=
  _update_ui_for_state
    (mkApp (current_state app) (negb (expert_mode app)) (overwrite_original app)
       (btn app) (dependencies_ok app) (apk_path app) (decompiled_dir app)
       (original_strings_xml_path app) (unsigned_apk_path app) (xml_root app)
       (calls_made app) (effects app)).

(** The check box beside the save button; it has no command. *)
Definition toggle_overwrite (app : App) : App :=
  mkApp (current_state app) (expert_mode app) (negb (overwrite_original app))
    (btn app) (dependencies_ok app) (apk_path app) (decompiled_dir app)
    (original_strings_xml_path app) (unsigned_apk_path app) (xml_root app)
    (calls_made app) (effects app).

(** [check_dependencies_silently], which the main loop runs a moment
    after the start; [found] tells whether the three files are there. *)
Definition check_dependencies_silently (found : bool) (app : App) : App :=
  mkApp (current_state app) (expert_mode app) (overwrite_original app)
    (btn app) found (apk_path app) (decompiled_dir app)
    (original_strings_xml_path app) (unsigned_apk_path app) (xml_root app)
    (calls_made app) (effects app).

(** The application as [__init__] leaves it: every button as Tk makes it,
    then [set_state(AppState.INITIAL)]; [deps] is [False] at that moment,
    and what the check of the dependencies found once it has run. *)
Definition initial_app (deps : bool) : App :=
  set_state
    (mkApp None false false (fun _ => NORMAL) deps None None None None None 0 [])
    INITIAL.

(** ** Threads and the main loop

    [run_in_thread] starts the worker on a daemon thread and the handler
    returns; the main loop goes on serving clicks while the worker runs.
    What a worker wants done to the state or to a button it hands to the
    main loop with [root.after(0, ...)], which runs it later, in its turn.
    Here the handler is one step, the statements of a worker on its
    thread another, and each callback handed over a third; other events
    may come between them. *)

(** The callbacks that touch the state or a button. *)
Inductive Callback :=
| cb_set_state (new_state : AppState)   (* lambda: self.set_state(new_state) *)
| cb_update_ui                          (* self._update_ui_for_state *)
| cb_enable_translate.                  (* self.step4a_btn.config, {'state': tk.NORMAL} *)

Definition run_callback (c : Callback) (app : App) : App :=
  match c with
  | cb_set_state new_state => set_state app new_state
  | cb_update_ui => _update_ui_for_state app
  | cb_enable_translate => with_btn app (config NORMAL (btn app) step4a_btn)
  end.

(** The handler of a stage, on the main loop: the new fields, and whether
    it called [run_in_thread].  The first stage does all its work here. *)
Definition handler (st : Stage) (w : World) (app : App) : App * bool :=
  match st with
  | Select => (run_step1_select_apk w app, false)
  | Decompile =>
      if negb (dependencies_ok app) then (app, false)
      else if negb (PyStr.truthy (apk_path app)) then (app, false)
      else (app, true)
  | Extract =>
      if negb (PyStr.truthy (decompiled_dir app)) || negb (is_dir w)
      then (app, false) else (app, true)
  | Translate =>
      match xml_root app with
      | None => (app, false)
      | Some _ =>
          if negb (credentials_ok w) then (app, false)
          else (with_btn app (config DISABLED (btn app) step4a_btn), true)
      end
  | Save =>
      if negb (PyStr.truthy (decompiled_dir app)) then (app, false) else (app, true)
  | Recompile =>
      if negb (dependencies_ok app) then (app, false)
      else if negb (PyStr.truthy (decompiled_dir app)) then (app, false)
      else (app, true)
  | Sign =>
      if negb (dependencies_ok app) then (app, false)
      else if negb (PyStr.truthy (unsigned_apk_path app)) || negb (unsigned_exists w)
      then (app, false) else (app, true)
  end.

(** The worker of a stage, on its thread: the fields it assigns and what
    it does outside, and the callback it hands to the main loop.  Where
    [shutil.rmtree] raises, the thread ends in [safe_api_call] and hands
    nothing over.  The translate worker reads [self.xml_root] when it
    runs; were there none, [findall] would raise in the same way. *)
Definition on_thread (st : Stage) (w : World) (app : App) : App * option Callback :=
  match st with
  | Select => (app, None)
  | Decompile =>
      let app1 := set_decompiled_dir app (work_path w) in
      if is_dir w && negb (rmtree_ok w) then (app1, None)
      else
        (did (if is_dir w then did app1 RemovedDecompiledDir else app1)
           RanApktoolDecode,
         if command_ok w then Some (cb_set_state DECOMPILED) else None)
  | Extract =>
      let app1 :=
        set_original_strings_xml_path app
          (PyStr.str_of_opt (decompiled_dir app) ++ "/res/values/strings.xml") in
      match strings_xml w with
      | Some (Some root) =>
          (set_xml_root app1 root (calls_made app1),
           Some (cb_set_state STRINGS_EXTRACTED))
      | _ => (app1, None)
      end
  | Translate =>
      match xml_root app with
      | None => (app, None)
      | Some root =>
          match translate_run (model_api w) (calls_made app) root with
          | (r, NoStrings) => (app, Some cb_enable_translate)
          | (r, Completed) =>
              (did (set_xml_root app (run_root r) (run_calls r))
                 (CalledModel (run_calls r)),
               Some (cb_set_state TRANSLATION_COMPLETE))
          | (r, _) =>
              (did (set_xml_root app (run_root r) (run_calls r))
                 (CalledModel (run_calls r)),
               Some cb_update_ui)
          end
      end
  | Save =>
      if overwrite_original app then
        match original_strings_xml_path app with
        | Some (String c p) =>
            if write_ok w
            then (did app (WroteStrings (String c p)), Some (cb_set_state SAVED))
            else (app, None)
        | _ => (app, None)
        end
      else
        if write_ok w
        then (did app (WroteStrings
                (PyStr.str_of_opt (decompiled_dir app)
                 ++ "/res/values-he-rIL/strings.xml")),
              Some (cb_set_state SAVED))
        else (app, None)
  | Recompile =>
      (did (set_unsigned_apk_path app (work_path w)) RanApktoolBuild,
       if command_ok w then Some (cb_set_state RECOMPILED) else None)
  | Sign =>
      if negb (keystore_exists w) then (app, None)
      else
        let app1 := did app RanApksigner in
        if command_ok w then
          if workdir_exists w && negb (rmtree_ok w) then (app1, None)
          else (if workdir_exists w then did app1 RemovedWorkDir else app1,
                Some (cb_set_state INITIAL))
        else (app1, None)
  end.

(** The application with the workers that were started and have not run
    yet, and the callbacks that were handed over and have not run yet. *)
Record Session := mkSession {
  session_app : App;
  threads : list Stage;
  callbacks : list Callback
}.

(** A click on a button. *)
Definition press (b : Button) (w : World) (s : Session) : Session :=
  match btn (session_app s) b with
  | DISABLED => s
  | NORMAL =>
      let h := handler (command b) w (session_app s) in
      mkSession h.1 (if h.2 then threads s ++ [command b] else threads s)
        (callbacks s)
  end.

(** The [k]-th of the waiting workers runs. *)
Definition work (k : nat) (w : World) (s : Session) : Session :=
  match threads s !! k with
  | None => s
  | Some st =>
      let t := on_thread st w (session_app s) in
      mkSession t.1 (delete k (threads s)) (callbacks s ++ option_list t.2)
  end.

(** The main loop runs the callback that has waited longest. *)
Definition main_loop (s : Session) : Session :=
  match callbacks s with
  | [] => s
  | c :: rest => mkSession (run_callback c (session_app s)) (threads s) rest
  end.

(** A session in which nothing waits. *)
Definition quiet (app : App) : Session := mkSession app [] [].

(** A click and the wait for its stage to end: the handler, then the
    worker it started, then the callback the worker handed over. *)
Definition click_and_wait (b : Button) (w : World) (s : Session) : Session :=
  main_loop (work 0 w (press b w s)).

End Stages.

(** ** Sessions, permitting states and failures *)

(** The state under which [state_map] lists the button or buttons of a
    stage; the button of the first stage is in no list. *)
Definition permitting_state (st : Stage) : option AppState :=
  match st with
  | Select => None
  | Decompile => Some APK_SELECTED
  | Extract => Some DECOMPILED
  | Translate => Some STRINGS_EXTRACTED
  | Save => Some TRANSLATION_COMPLETE
  | Recompile => Some SAVED
  | Sign => Some RECOMPILED
  end.

(** The stages whose worker is one call of [run_command]. *)
Definition runs_tool (st : Stage) : bool :=
  match st with
  | Decompile | Recompile | Sign => true
  | _ => false
  end.

(** What [_update_ui_for_state] decides for a button of its list: the
    expert mode is on, or the state's entry in [state_map] lists it. *)
Definition gated_on (app : App) (b : Button) : bool :=
  expert_mode app ||
  match current_state app with
  | Some s => bool_decide (b ∈ state_map s)
  | None => false
  end.

(** The gate holds in [app]: no button but the first is enabled unless
    [_update_ui_for_state] would enable it. *)
Definition gate_ok (app : App) : Prop :=
  forall b, b <> step1_btn -> btn app b = NORMAL -> gated_on app b = true.

(** The gate holds in [app] for the buttons that nothing but
    [_update_ui_for_state] configures: all but the first, which is never
    configured, and the translate button, which its handler disables and
    a callback of its worker enables. *)
Definition gate_ok_but_translate (app : App) : Prop :=
  forall b, command b <> Select -> command b <> Translate ->
    btn app b = NORMAL -> gated_on app b = true.

Section Sessions.
Context `{ET : ElementTree}.

(** What a user who waits for each stage to end can bring about: the
    application as it starts, then clicks on the workflow buttons, each
    with its stage run to the end, and on the two check boxes; the check
    of the dependencies may come at any time. *)
Inductive Reachable : App -> Prop :=
| reach_start (deps : bool) : Reachable (initial_app deps)
| reach_click (b : Button) (w : World) (app : App) :
    Reachable app -> Reachable (click b w app)
| reach_toggle (app : App) :
    Reachable app -> Reachable (toggle_expert_mode app)
| reach_overwrite (app : App) :
    Reachable app -> Reachable (toggle_overwrite app)
| reach_dependencies (found : bool) (app : App) :
    Reachable app -> Reachable (check_dependencies_silently found app).

(** What a user can bring about at all: clicks and check boxes at any
    time, also while workers run and callbacks wait. *)
Inductive Interleaved : Session -> Prop :=
| il_start (deps : bool) : Interleaved (quiet (initial_app deps))
| il_press (b : Button) (w : World) (s : Session) :
    Interleaved s -> Interleaved (press b w s)
| il_work (k : nat) (w : World) (s : Session) :
    Interleaved s -> Interleaved (work k w s)
| il_main_loop (s : Session) :
    Interleaved s -> Interleaved (main_loop s)
| il_toggle (s : Session) :
    Interleaved s ->
    Interleaved (mkSession (toggle_expert_mode (session_app s)) (threads s)
                   (callbacks s))
| il_overwrite (s : Session) :
    Interleaved s ->
    Interleaved (mkSession (toggle_overwrite (session_app s)) (threads s)
                   (callbacks s))
| il_dependencies (found : bool) (s : Session) :
    Interleaved s ->
    Interleaved (mkSession (check_dependencies_silently found (session_app s))
                   (threads s) (callbacks s)).

(** The ways a stage fails, read off the branches of the workers that log
    an error or return early. *)
Inductive StageFailure : Stage -> World -> App -> Prop :=
| clear_fails (w : World) (app : App) :
    chosen_file w <> "" -> workdir_exists w = true -> rmtree_ok w = false ->
    StageFailure Select w app
| copy_fails (w : World) (app : App) :
    chosen_file w <> "" -> workdir_ok w = false \/ copy_ok w = false ->
    StageFailure Select w app
| dependency_missing (st : Stage) (w : World) (app : App) :
    runs_tool st = true -> dependencies_ok app = false ->
    StageFailure st w app
| tool_fails (st : Stage) (w : World) (app : App) :
    runs_tool st = true -> command_ok w = false ->
    StageFailure st w app
| strings_file_missing (w : World) (app : App) :
    strings_xml w = None -> StageFailure Extract w app
| strings_file_malformed (w : World) (app : App) :
    strings_xml w = Some None -> StageFailure Extract w app
| translation_failure (w : World) (app : App) (root : list Element)
    (r : Run) (i : nat) (combined_translation : string) :
    xml_root app = Some root ->
    translate_run (model_api w) (calls_made app) root
      = (r, ApiError i combined_translation) ->
    StageFailure Translate w app
| cardinality_mismatch (w : World) (app : App) (root : list Element)
    (r : Run) (i : nat) :
    xml_root app = Some root ->
    translate_run (model_api w) (calls_made app) root = (r, Mismatch i) ->
    StageFailure Translate w app
| write_fails (w : World) (app : App) :
    write_ok w = false -> StageFailure Save w app
| keystore_missing (w : World) (app : App) :
    keystore_exists w = false -> StageFailure Sign w app
| cleanup_fails (w : World) (app : App) :
    workdir_exists w = true -> rmtree_ok w = false -> StageFailure Sign w app.

End Sessions.

(** ** Sample string tables and remote scripts *)

Module Samples.
Import FlatXml.

(** A remote side that sends every batch back untouched. *)
Definition echo : Api := fun _ batch => Returns batch.

(** A table of three entries; the second holds a placeholder. *)
Definition table3 : list Element :=
  [string_tag "hello" "Hello"; string_tag "fmt" "%1$s"; string_tag "bye" "Bye"].

(** Two translated fragments whose [name] attributes are those of the
    other request record. *)
Definition swapped_keys : string :=
  "<string name=" ++ DQ ++ "bye" ++ DQ ++ ">Shalom</string>" ++ XML_SEPARATOR ++
  "<string name=" ++ DQ ++ "hello" ++ DQ ++ ">Lehitraot</string>".

(** A table of 101 translatable entries: two batches. *)
Definition table101 : list Element :=
  map (fun _ => string_tag "item" "Hi") (seq 0 101).

(** The first call echoes its batch, every later call raises an error
    that is neither a network error nor a rate limit. *)
Definition fails_after_first : Api :=
  fun n batch => if n =? 0 then Returns batch else Raises "boom".

(** The run over [table101] after its first batch. *)
Definition after_first_batch : Run :=
  let strs := _get_translatable_strings table101 in
  fst (batch_loop fails_after_first strs (all_xml_snippets table101 strs) 101 [0]
         (start_run table101 0 101)).

(** Two translatable entries. *)
Definition table2 : list Element :=
  [string_tag "hello" "Hello"; string_tag "bye" "Bye"].

(** The same with markup in the first: [Hello <b>World</b>!]. *)
Definition marked_up : list Element :=
  [mkElement "string" [("name", "hello")] (Some "Hello ") (Some (LF ++ "    "))
     [mkElement "b" [] (Some "World") (Some "!") []];
   string_tag "bye" "Bye"].

Definition good_bye : string :=
  "<string name=" ++ DQ ++ "bye" ++ DQ ++ ">Lehitraot</string>".

(** A response whose first fragment lacks its end tag. *)
Definition one_broken : string :=
  "<string name=" ++ DQ ++ "hello" ++ DQ ++ ">Shalom" ++ XML_SEPARATOR ++ good_bye.

(** The same with a first fragment that holds the adapter's marker. *)
Definition one_broken_with_marker : string :=
  "<string>ERROR_" ++ XML_SEPARATOR ++ good_bye.

Definition always (response_text : string) : Api :=
  fun _ _ => Returns response_text.

(** An entry whose text holds a line of three dashes. *)
Definition ruled_note : Element :=
  string_tag "note" ("above" ++ XML_SEPARATOR ++ "below").

(** An entry of blanks before an ordinary one. *)
Definition blank_first : list Element :=
  [string_tag "blank" "   "; string_tag "hello" "Hello"].

Definition good_hello : string :=
  "<string name=" ++ DQ ++ "hello" ++ DQ ++ ">Shalom</string>".

(** A first call that raises an error of no special kind, then a remote
    side in good order. *)
Definition fails_once : Api :=
  fun n batch => if n =? 0 then Raises "boom" else Returns batch.

(** The network is down for two calls, the quota is exhausted at the
    third. *)
Definition down_then_quota : Api :=
  fun n batch =>
    if n <? 2 then RaisesNetwork "read timed out"
    else Raises "429 RESOURCE_EXHAUSTED".

(** An entry whose text is an error code, to be left as it is. *)
Definition error_code : list Element :=
  [string_tag "net_error" "ERROR_NETWORK"; string_tag "hello" "Hello"].

(** The answer that translates the second entry and keeps the code. *)
Definition error_code_translated : string :=
  "<string name=" ++ DQ ++ "net_error" ++ DQ ++ ">ERROR_NETWORK</string>" ++
  XML_SEPARATOR ++ good_hello.

(** A world in good order: the work directory is there and can be
    cleared, the tools succeed, the string table parses to [table2], the
    remote side echoes. *)
Definition good_world : World :=
  mkWorld "demo.apk" true true true true "work/demo" true true
    (Some (Some table2)) true echo true true true.

(** The same before the first run: no work directory yet and nothing
    decompiled. *)
Definition fresh_disk : World :=
  mkWorld "demo.apk" false true true true "work/demo" false true
    (Some (Some table2)) true echo true true true.

(** The same with a decompiler that fails, and with a remote side that
    fails. *)
Definition tool_down : World :=
  mkWorld "demo.apk" true true true true "work/demo" true false
    (Some (Some table2)) true echo true true true.

Definition remote_down : World :=
  mkWorld "demo.apk" true true true true "work/demo" true true
    (Some (Some table2)) true (fun _ _ => Raises "boom") true true true.

(** A session after the first stage, and after the first three. *)
Definition selected : App := click step1_btn fresh_disk (initial_app true).

Definition extracted : App :=
  click step3_btn good_world (click step2_btn fresh_disk selected).

End Samples.

(** ** The model list

    [fetch_models] and [update_model_dropdown]: the names the remote side
    lists, those that support [generateContent], the labels of the menu
    and the model selected.  [saved] is what [config.get('API',
    'SelectedModel')] finds, [None] when the option is not there. *)

#[local] Instance string_eq_dec : EqDecision string := String.string_dec.

(** [model.split('/')[-1]] *)
Definition friendly_name (model : string) : string :=
  List.last (PyStr.split "/" model) "".

(** The text shown when no model is offered. *)
Definition NO_MODELS_FOUND : string := "לא נמצאו מודלים".

Record Dropdown := mkDropdown {
  menu_labels : list string;
  menu_values : list string;
  selected_model : string
}.

Definition update_model_dropdown (saved : option string) (models : list string)
    : Dropdown :=
  let previous_model := default (default "" (head models)) saved in
  mkDropdown (map friendly_name models) models
    (if bool_decide (previous_model ∈ models) then previous_model
     else match models with
          | first :: _ => first
          | [] => NO_MODELS_FOUND
          end).

(** [listing] is what [genai.list_models()] yields, each model with its
    [supported_generation_methods]; [None] when the call raises. *)
Definition fetch_models (listing : option (list (string * list string)))
    (saved : option string) (shown : Dropdown) : Dropdown :=
  match listing with
  | None => shown
  | Some listed =>
      let models :=
        map fst (List.filter
                   (fun m => bool_decide ("generateContent" ∈ snd m)) listed) in
      match models with
      | [] => shown
      | _ => update_model_dropdown saved models
      end
  end.

(** ** Parts of the tree and of a run *)

(** The parts of an element other than its text. *)
Definition frame (e : Element)
    : string * list (string * string) * option string * list Element :=
  (tag e, attrib e, tail e, children e).

(** The text given to the adapter for the batch that starts at [i]:
    [XML_SEPARATOR.join(all_xml_snippets[i:i + BATCH_SIZE])]. *)
Definition payload (snips : list string) (i : nat) : string :=
  PyStr.join XML_SEPARATOR (batch_slice snips i).

(** ** The order of the states *)

(** The state each state's stage sets when it succeeds: the next member
    of [AppState], and [INITIAL] again after the signing. *)
Definition next_state (s : AppState) : AppState :=
  match s with
  | INITIAL => APK_SELECTED
  | APK_SELECTED => DECOMPILED
  | DECOMPILED => STRINGS_EXTRACTED
  | STRINGS_EXTRACTED => TRANSLATION_COMPLETE
  | TRANSLATION_COMPLETE => SAVED
  | SAVED => RECOMPILED
  | RECOMPILED => INITIAL
  end.

(** The fields a state vouches for: the ones its stage assigned before
    it called [set_state]. *)
Definition holds_its_data (app : App) : Prop :=
  match current_state app with
  | None => False
  | Some INITIAL => True
  | Some APK_SELECTED => is_Some (apk_path app)
  | Some DECOMPILED => is_Some (decompiled_dir app)
  | Some STRINGS_EXTRACTED =>
      is_Some (xml_root app) /\ is_Some (original_strings_xml_path app)
  | Some TRANSLATION_COMPLETE => is_Some (xml_root app)
  | Some SAVED => is_Some (decompiled_dir app)
  | Some RECOMPILED => is_Some (unsigned_apk_path app)
  end.

(** The same of a session: the state is backed by its data, so is the
    state that each waiting callback will set, and a save worker that
    waits was started with the directory known. *)
Definition session_holds_its_data (s : Session) : Prop :=
  holds_its_data (session_app s) /\
  (forall new_state, cb_set_state new_state ∈ callbacks s ->
     holds_its_data (with_state (session_app s) new_state)) /\
  (Save ∈ threads s -> is_Some (decompiled_dir (session_app s))).

(** No field that was assigned is unset. *)
Definition fields_grow (app app' : App) : Prop :=
  (is_Some (apk_path app) -> is_Some (apk_path app')) /\
  (is_Some (decompiled_dir app) -> is_Some (decompiled_dir app')) /\
  (is_Some (xml_root app) -> is_Some (xml_root app')) /\
  (is_Some (original_strings_xml_path app) ->
   is_Some (original_strings_xml_path app')) /\
  (is_Some (unsigned_apk_path app) -> is_Some (unsigned_apk_path app')).

(** ** More sample tables *)

Module MoreSamples.
Import FlatXml.

(** A table whose two texts both hold a placeholder. *)
Definition placeholders_only : list Element :=
  [string_tag "greeting" "Hello, %1$s!"; string_tag "count" "%d items"].

(** A session that has extracted [placeholders_only]. *)
Definition extracted_placeholders : App :=
  let w := mkWorld "demo.apk" true true true true "work/demo" true true
             (Some (Some placeholders_only)) true Samples.echo true true true in
  click step3_btn w
    (click step2_btn Samples.fresh_disk
       (click step1_btn Samples.fresh_disk (initial_app true))).

End MoreSamples.

(** * Properties *)

(** ** The string primitives on small inputs *)

Example split_three :
  PyStr.split XML_SEPARATOR ("a" ++ XML_SEPARATOR ++ "b" ++ XML_SEPARATOR)
  = ["a"; "b"; ""].
Proof. reflexivity. Qed.

Example split_empty : PyStr.split XML_SEPARATOR "" = [""].
Proof. reflexivity. Qed.

Example split_overlap : PyStr.split "aa" "aaa" = [""; "a"].
Proof. reflexivity. Qed.

Example strip_both_ends : PyStr.strip ("  a b " ++ LF) = "a b".
Proof. reflexivity. Qed.

Example lower_ascii : is_rate_limit "429 Rate LIMIT exceeded" = true.
Proof. reflexivity. Qed.

Example keeps_placeholder_free :
  map (fun e => text e) (map (element_at Samples.table3)
                          (_get_translatable_strings Samples.table3))
  = [Some "Hello"; Some "Bye"].
Proof. reflexivity. Qed.

Example tostring_keeps_markup :
  PyStr.strip (FlatXml.flat_tostring (element_at Samples.marked_up 0))
  = "<string name=" ++ FlatXml.DQ ++ "hello" ++ FlatXml.DQ ++ ">Hello <b>World</b>!</string>".
Proof. reflexivity. Qed.

Example flat_round_trip :
  FlatXml.flat_fromstring
    (PyStr.strip (FlatXml.flat_tostring (FlatXml.string_tag "hello" "Hello")))
  = Some (mkElement "string" [("name", "hello")] (Some "Hello") None []).
Proof. reflexivity. Qed.

(** ** Lists, slices and in-place updates *)

Section ListFacts.
Context {A : Type}.

Lemma concat_batch_slices (l : list A) (c : nat) :
  concat (map (batch_slice l) (map (fun k => k * BATCH_SIZE) (seq 0 c)))
  = take (c * BATCH_SIZE) l.
Proof.
  induction c as [|c IH].
  - reflexivity.
  - rewrite seq_S, !map_app, concat_app, IH.
    cbn [map concat Nat.add]. rewrite app_nil_r. unfold batch_slice.
    rewrite take_take_drop. f_equal. lia.
Qed.

Lemma batch_count_covers (n : nat) :
  n <= (n + BATCH_SIZE - 1) / BATCH_SIZE * BATCH_SIZE.
Proof.
  unfold BATCH_SIZE.
  pose proof (Nat.div_mod_eq (n + 100 - 1) 100) as E.
  assert (B : (n + 100 - 1) mod 100 < 100) by (apply Nat.mod_upper_bound; lia).
  lia.
Qed.

Lemma concat_batches (l : list A) :
  concat (map (batch_slice l) (range_step (length l) BATCH_SIZE)) = l.
Proof.
  unfold range_step. rewrite concat_batch_slices.
  apply take_ge, batch_count_covers.
Qed.

Lemma batch_slice_length (l : list A) (i : nat) :
  length (batch_slice l i) <= BATCH_SIZE.
Proof. unfold batch_slice. rewrite length_take. lia. Qed.

Lemma range_step_bound (n i : nat) :
  i ∈ range_step n BATCH_SIZE -> i < n.
Proof.
  unfold range_step. intros Hi.
  apply list_elem_of_fmap in Hi as (k & -> & Hk).
  apply elem_of_seq in Hk.
  pose proof (Nat.div_mod_eq (n + BATCH_SIZE - 1) BATCH_SIZE) as E.
  unfold BATCH_SIZE in *.
  assert (B : (n + 100 - 1) mod 100 < 100) by (apply Nat.mod_upper_bound; lia).
  assert (S k <= (n + 100 - 1) / 100) by lia.
  assert (S k * 100 <= (n + 100 - 1) / 100 * 100) by nia.
  lia.
Qed.

Lemma batch_slice_nonempty (l : list A) (i : nat) :
  i < length l -> batch_slice l i <> [].
Proof.
  intros Hi E. apply (f_equal length) in E.
  unfold batch_slice in E. rewrite length_take, length_drop in E.
  unfold BATCH_SIZE in E. change (length (@nil A)) with 0 in E. lia.
Qed.

End ListFacts.

Lemma sublist_List_filter {A} (f : A -> bool) (l : list A) :
  List.filter f l `sublist_of` l.
Proof.
  induction l as [|x l IH]; simpl.
  - constructor.
  - destruct (f x); [by apply sublist_skip | by apply sublist_cons].
Qed.

Lemma elem_of_List_filter {A} (f : A -> bool) (l : list A) (x : A) :
  x ∈ List.filter f l <-> x ∈ l /\ f x = true.
Proof. rewrite !list_elem_of_In. apply List.filter_In. Qed.

(** ** The batcher and the positional update *)

Section PipelineFacts.
Context `{ET : ElementTree}.

Lemma translatable_sublist (xml_root : list Element) :
  _get_translatable_strings xml_root `sublist_of` seq 0 (length xml_root).
Proof.
  unfold _get_translatable_strings, findall.
  etrans; apply sublist_List_filter.
Qed.

Lemma translatable_NoDup (xml_root : list Element) :
  NoDup (_get_translatable_strings xml_root).
Proof.
  exact (sublist_NoDup _ _ (NoDup_seq _ _) (translatable_sublist xml_root)).
Qed.

Lemma update_zipped_length (r : list Element) (pairs : list (nat * string)) :
  length (update_zipped r pairs) = length r.
Proof.
  revert r. induction pairs as [|p ps IH]; intros r; [done|].
  unfold update_zipped in *. simpl. rewrite IH. apply length_alter.
Qed.

Lemma update_zipped_other (r : list Element) (idxs : list nat)
    (frags : list string) (j : nat) :
  j ∉ idxs -> update_zipped r (zip idxs frags) !! j = r !! j.
Proof.
  revert r frags. induction idxs as [|a idxs IH]; intros r frags Hj; [done|].
  destruct frags as [|f frags]; [done|].
  apply not_elem_of_cons in Hj as [Hne Hj].
  unfold update_zipped in *. simpl. rewrite IH by done.
  by apply list_lookup_alter_ne.
Qed.

Lemma update_zipped_at (r : list Element) (idxs : list nat)
    (frags : list string) (i idx : nat) (frag : string) :
  NoDup idxs -> idxs !! i = Some idx -> frags !! i = Some frag ->
  update_zipped r (zip idxs frags) !! idx = update_tag frag <$> r !! idx.
Proof.
  revert r frags i. induction idxs as [|a idxs IH]; intros r frags i Hnd Hi Hf; [done|].
  destruct frags as [|f frags]; [done|].
  apply NoDup_cons in Hnd as [Ha Hnd].
  change (update_zipped r (zip (a :: idxs) (f :: frags)))
    with (update_zipped (alter (update_tag f) a r) (zip idxs frags)).
  destruct i as [|i]; simpl in Hi, Hf.
  - injection Hi as ->. injection Hf as ->.
    rewrite update_zipped_other by done. apply list_lookup_alter_eq.
  - rewrite (IH _ _ i) by done.
    rewrite list_lookup_alter_ne; [done|].
    intros ->. apply Ha. eapply list_elem_of_lookup_2, Hi.
Qed.

Lemma update_response_true (root root' : list Element) (original_tags : list nat)
    (resp : string) :
  _update_tags_from_response root original_tags resp = (true, root') ->
  length (PyStr.split XML_SEPARATOR resp) = length original_tags /\
  root' = update_zipped root (zip original_tags (PyStr.split XML_SEPARATOR resp)).
Proof.
  unfold _update_tags_from_response.
  destruct (length (PyStr.split XML_SEPARATOR resp) =? length original_tags) eqn:E;
    simpl; [|discriminate].
  intros [= <-]. apply Nat.eqb_eq in E. done.
Qed.

Lemma update_response_false (root root' : list Element) (original_tags : list nat)
    (resp : string) :
  _update_tags_from_response root original_tags resp = (false, root') ->
  length (PyStr.split XML_SEPARATOR resp) <> length original_tags /\ root' = root.
Proof.
  unfold _update_tags_from_response.
  destruct (length (PyStr.split XML_SEPARATOR resp) =? length original_tags) eqn:E;
    simpl; [discriminate|].
  intros [= <-]. apply Nat.eqb_neq in E. done.
Qed.

Lemma batch_NoDup (xml_root : list Element) (i : nat) :
  NoDup (batch_slice (_get_translatable_strings xml_root) i).
Proof.
  assert (batch_slice (_get_translatable_strings xml_root) i
          `sublist_of` _get_translatable_strings xml_root) as Hsub.
  { unfold batch_slice. etrans; [apply sublist_take | apply sublist_drop]. }
  exact (sublist_NoDup _ _ (translatable_NoDup xml_root) Hsub).
Qed.

End PipelineFacts.

(** ** What the adapter can return *)

Lemma contains_prefix (pat s : string) :
  PyStr.contains pat (pat ++ s) = true.
Proof.
  assert (String.prefix pat (pat ++ s) = true) as H.
  { induction pat as [|c pat IH]; simpl.
    - by destruct s.
    - rewrite IH. by destruct (ascii_dec c c). }
  destruct (pat ++ s); simpl in *; by rewrite H.
Qed.

Lemma terminal_failure_has_marker (s : string) :
  TerminalFailure s -> PyStr.contains "ERROR_" s = true.
Proof.
  destruct 1;
    first [ apply (contains_prefix "ERROR_" ("TIMEOUT: " ++ _))
          | apply (contains_prefix "ERROR_" ("UNEXPECTED: " ++ _))
          | reflexivity ].
Qed.

Section AbortFacts.
Context `{ET : ElementTree}.
Implicit Types (api : Api) (strs starts : list nat) (snips : list string).

Lemma batch_loop_app api strs snips total starts1 starts2 (r : Run) :
  batch_loop api strs snips total (starts1 ++ starts2) r =
  match batch_loop api strs snips total starts1 r with
  | (r1, Completed) => batch_loop api strs snips total starts2 r1
  | other => other
  end.
Proof.
  revert r. induction starts1 as [|i starts1 IH]; intros r; [done|].
  simpl. destruct (PyStr.contains _ _); [done|].
  destruct (_update_tags_from_response _ _ _) as [[|] root']; [|done].
  apply IH.
Qed.

(** A run of the loop assigns only to records of the batches it reads. *)
Lemma batch_loop_frame api strs snips total starts (r r' : Run) (e : Ending) (idx : nat) :
  batch_loop api strs snips total starts r = (r', e) ->
  (forall i, i ∈ starts -> idx ∉ batch_slice strs i) ->
  run_root r' !! idx = run_root r !! idx.
Proof.
  revert r. induction starts as [|i starts IH]; intros r Hrun Hout.
  - by injection Hrun as <- _.
  - simpl in Hrun. destruct (PyStr.contains _ _); [by injection Hrun as <- _|].
    destruct (_update_tags_from_response _ _ _) as [[|] root'] eqn:Hup;
      [|by injection Hrun as <- _].
    apply IH in Hrun; [|intros j Hj; apply Hout; by right].
    rewrite Hrun. simpl in *.
    apply update_response_true in Hup as [_ ->].
    apply update_zipped_other, Hout. by left.
Qed.

Lemma range_step_lookup (n k i : nat) :
  range_step n BATCH_SIZE !! k = Some i -> i = k * BATCH_SIZE.
Proof.
  unfold range_step. rewrite list_lookup_fmap.
  destruct (seq 0 _ !! k) as [j|] eqn:E; [|done].
  apply lookup_seq in E as [-> _]. by intros [= <-].
Qed.

(** The batches before batch [k] read only the first [k * BATCH_SIZE]
    positions. *)
Lemma earlier_batches_below {A} (l : list A) (n k i j : nat) (x : A) :
  range_step n BATCH_SIZE !! k = Some i ->
  j ∈ take k (range_step n BATCH_SIZE) ->
  x ∈ batch_slice l j -> x ∈ take i l.
Proof.
  intros Hk Hj Hx. apply range_step_lookup in Hk as ->.
  apply elem_of_take in Hj as (m & Hm & Hlt).
  apply range_step_lookup in Hm as ->.
  unfold batch_slice in Hx.
  apply elem_of_take in Hx as (p & Hp & Hp100).
  rewrite lookup_drop in Hp.
  apply elem_of_take. exists (m * BATCH_SIZE + p). split; [done|].
  unfold BATCH_SIZE in *. nia.
Qed.

End AbortFacts.

(** ** C1: a failed batch ends the run *)

Section AbortTheorem.
Context `{ET : ElementTree}.

(** C1. When the batches before batch [k] have been applied and the
    adapter's answer for batch [k] is one of its terminal failures, or
    splits into a number of fragments other than the number of records
    sent, the run ends there: the tree is the one the earlier batches
    left, no later call is made, and every record of batch [k] and of the
    later batches still has the text it was extracted with. *)
Theorem failed_batch_aborts_run (api : Api) (calls : nat)
    (xml_root : list Element) (k i : nat) (r_prev : Run) :
  let strs := _get_translatable_strings xml_root in
  let snips := all_xml_snippets xml_root strs in
  let total := length strs in
  let starts := range_step total BATCH_SIZE in
  let a := translate_text_with_ai api (run_calls r_prev)
             (PyStr.join XML_SEPARATOR (batch_slice snips i)) in
  starts !! k = Some i ->
  batch_loop api strs snips total (take k starts) (start_run xml_root calls total)
    = (r_prev, Completed) ->
  TerminalFailure (returned a) \/
  length (PyStr.split XML_SEPARATOR (returned a)) <> length (batch_slice strs i) ->
  exists r ending,
    translate_run api calls xml_root = (r, ending) /\
    (ending = ApiError i (returned a) \/ ending = Mismatch i) /\
    run_root r = run_root r_prev /\
    translated_count r = translated_count r_prev /\
    run_calls r = run_calls r_prev + attempts a /\
    (forall idx, idx ∈ drop i strs -> run_root r !! idx = xml_root !! idx).
Proof.
  intros strs snips total starts a Hk Hprev Hfail.
  assert (forall idx, idx ∈ drop i strs -> run_root r_prev !! idx = xml_root !! idx)
    as Hframe.
  { intros idx Hidx.
    rewrite (batch_loop_frame _ _ _ _ _ _ _ _ idx Hprev); [done|].
    intros j Hj Hin.
    pose proof (earlier_batches_below strs total k i j idx Hk Hj Hin) as Hlow.
    pose proof (translatable_NoDup xml_root) as Hnd.
    fold strs in Hnd. rewrite <- (take_drop i strs) in Hnd.
    apply NoDup_app in Hnd as (_ & Hdisj & _). by apply (Hdisj idx). }
  assert (translate_run api calls xml_root =
          batch_loop api strs snips total starts (start_run xml_root calls total))
    as ->.
  { assert (strs <> []) as Hne.
    { intros E. subst starts total. by rewrite E in Hk. }
    unfold translate_run. subst starts total snips.
    by destruct (_get_translatable_strings xml_root). }
  rewrite <- (take_drop_middle starts k i Hk), batch_loop_app, Hprev.
  cbn [batch_loop]. fold a.
  destruct (PyStr.contains "ERROR_" (returned a)) eqn:Herr.
  - eexists _, _. split; [reflexivity|]. simpl. auto 10.
  - destruct Hfail as [Hterm|Hlen].
    { apply terminal_failure_has_marker in Hterm. congruence. }
    unfold _update_tags_from_response. cbn [run_root].
    apply Nat.eqb_neq in Hlen. rewrite Hlen. cbn [negb].
    eexists _, _. split; [reflexivity|]. simpl. auto 10.
Qed.

End AbortTheorem.

Section AbortOnSample.
#[local] Existing Instance FlatXml.flat.

Lemma failed_batch_aborts_run_witness :
  range_step 101 BATCH_SIZE !! 1 = Some 100 /\
  exists r ending,
    translate_run Samples.fails_after_first 0 Samples.table101 = (r, ending) /\
    (ending = ApiError 100 "ERROR_UNEXPECTED: boom" \/ ending = Mismatch 100) /\
    run_root r = run_root Samples.after_first_batch /\
    translated_count r = 100 /\
    run_calls r = 2 /\
    (forall idx,
       idx ∈ drop 100 (_get_translatable_strings Samples.table101) ->
       run_root r !! idx = Samples.table101 !! idx).
Proof.
  split; [reflexivity|].
  assert (batch_loop Samples.fails_after_first
            (_get_translatable_strings Samples.table101)
            (all_xml_snippets Samples.table101
               (_get_translatable_strings Samples.table101))
            (length (_get_translatable_strings Samples.table101))
            (take 1 (range_step
                       (length (_get_translatable_strings Samples.table101))
                       BATCH_SIZE))
            (start_run Samples.table101 0
               (length (_get_translatable_strings Samples.table101)))
          = (Samples.after_first_batch, Completed)) as Hprev.
  { vm_compute. reflexivity. }
  pose proof (failed_batch_aborts_run Samples.fails_after_first 0
                Samples.table101 1 100 Samples.after_first_batch
                eq_refl Hprev) as H.
  apply H. left. vm_compute. apply (Unexpected "boom").
Defined.

End AbortOnSample.

(** ** C3: one fragment that does not parse *)

Section MalformedFragment.
Context `{ET : ElementTree}.

(** C3, as amended.  When the adapter's answer for a batch does not hold
    the marker [ERROR_], splits into as many fragments as records were
    sent, and exactly fragment [j] is refused by the parser, the loop goes
    on to the next batch; the record at place [j] has its prior text
    behind the prefix [TRANSLATION_ERROR: ], and every other record of the
    batch has the text of its parsed fragment. *)
Theorem one_malformed_fragment_is_marked (api : Api) (xml_root : list Element)
    (snips : list string) (total i j : nat) (starts' : list nat) (r : Run) :
  let strs := _get_translatable_strings xml_root in
  let batch_tags := batch_slice strs i in
  let a := translate_text_with_ai api (run_calls r)
             (PyStr.join XML_SEPARATOR (batch_slice snips i)) in
  let frags := PyStr.split XML_SEPARATOR (returned a) in
  PyStr.contains "ERROR_" (returned a) = false ->
  length frags = length batch_tags ->
  j < length frags ->
  (forall p frag, frags !! p = Some frag ->
     fromstring (PyStr.strip frag) = None <-> p = j) ->
  exists r',
    batch_loop api strs snips total (i :: starts') r
      = batch_loop api strs snips total starts' r' /\
    translated_count r' = translated_count r + length batch_tags /\
    forall p idx old, batch_tags !! p = Some idx -> run_root r !! idx = Some old ->
      exists new frag,
        run_root r' !! idx = Some new /\ frags !! p = Some frag /\
        attrib new = attrib old /\
        if decide (p = j)
        then text new = Some ("TRANSLATION_ERROR: " ++ PyStr.str_of_opt (text old))
        else exists translated_tag,
               fromstring (PyStr.strip frag) = Some translated_tag /\
               text new = text translated_tag.
Proof.
  intros strs batch_tags a frags Hok Hlen Hj Hone.
  eexists. split; [|split].
  - cbn [batch_loop]. fold a. rewrite Hok.
    unfold _update_tags_from_response. fold frags batch_tags.
    apply Nat.eqb_eq in Hlen. rewrite Hlen. cbn [negb]. reflexivity.
  - reflexivity.
  - intros p idx old Hp Hold. cbn [run_root].
    destruct (frags !! p) as [frag|] eqn:Hf.
    2:{ apply lookup_ge_None in Hf. apply lookup_lt_Some in Hp. lia. }
    rewrite (update_zipped_at _ _ _ p idx frag (batch_NoDup xml_root i) Hp Hf).
    rewrite Hold. cbn [fmap option_fmap option_map].
    exists (update_tag frag old), frag. split; [done|]. split; [done|].
    pose proof (Hone p frag Hf) as Hiff. unfold update_tag.
    destruct (fromstring (PyStr.strip frag)) as [e|] eqn:Hparse.
    + split; [done|]. destruct (decide (p = j)) as [->|Hne].
      * destruct Hiff as [_ Habs]. by specialize (Habs eq_refl).
      * by exists e.
    + split; [done|]. destruct (decide (p = j)) as [->|Hne]; [done|].
      destruct Hne. by apply Hiff.
Qed.

End MalformedFragment.

Section MalformedOnSample.
#[local] Existing Instance FlatXml.flat.

Lemma one_malformed_fragment_is_marked_witness :
  exists r',
    batch_loop (Samples.always Samples.one_broken)
      (_get_translatable_strings Samples.table2)
      (all_xml_snippets Samples.table2 [0; 1]) 2 [0]
      (start_run Samples.table2 0 2) = (r', Completed) /\
    translated_count r' = 2 /\
    text <$> run_root r' !! 0 = Some (Some "TRANSLATION_ERROR: Hello") /\
    text <$> run_root r' !! 1 = Some (Some "Lehitraot").
Proof.
  destruct (one_malformed_fragment_is_marked
              (Samples.always Samples.one_broken) Samples.table2
              (all_xml_snippets Samples.table2 [0; 1]) 2 0 0 []
              (start_run Samples.table2 0 2))
    as (r' & Hrun & Hcount & Hrec).
  - reflexivity.
  - reflexivity.
  - vm_compute. lia.
  - intros [|[|p]] frag Hf; vm_compute in Hf; try discriminate;
      injection Hf as <-; vm_compute; split; intros; (done || lia).
  - exists r'. split; [exact Hrun|]. split; [exact Hcount|].
    destruct (Hrec 0 0 _ eq_refl eq_refl) as (n0 & f0 & E0 & _ & _ & H0).
    destruct (Hrec 1 1 _ eq_refl eq_refl) as (n1 & f1 & E1 & Hf1 & _ & H1).
    rewrite E0, E1. cbn in H0, H1. destruct H1 as (e & He & H1).
    vm_compute in Hf1. injection Hf1 as <-.
    vm_compute in He. injection He as <-.
    cbn [fmap option_fmap option_map]. rewrite H0, H1. split; reflexivity.
Defined.

(** C3, as stated, fails at the gate before the fragments are read: a
    response of two fragments, of which exactly the first does not parse,
    ends the run when that fragment holds the marker [ERROR_]; no record
    is marked and none is translated. *)
Lemma one_malformed_fragment_can_abort :
  let resp := Samples.one_broken_with_marker in
  let frags := PyStr.split XML_SEPARATOR resp in
  length frags = length (batch_slice (_get_translatable_strings Samples.table2) 0) /\
  fromstring <$> (PyStr.strip <$> frags) =
    [None; Some (mkElement "string" [("name", "bye")] (Some "Lehitraot") None [])] /\
  exists r,
    translate_run (Samples.always resp) 0 Samples.table2 = (r, ApiError 0 resp) /\
    run_root r = Samples.table2.
Proof.
  repeat split. eexists. split; reflexivity.
Qed.

End MalformedOnSample.

(** ** C4: where a translation is written *)

Section InPlace.
Context `{ET : ElementTree}.

(** C4, as amended.  An accepted response assigns the text of each
    parsed fragment to the [text] of the record at the same place: the
    text before the record's first child, which is all the text of a
    record without children.  There is no second field for a translation.
    The record's tag, attributes, tail and children stay as they were,
    and with the children the source text inside and after them; so does
    every record outside the batch. *)
Theorem translation_overwrites_text_only (root root' : list Element)
    (original_tags : list nat) (resp : string) :
  NoDup original_tags ->
  _update_tags_from_response root original_tags resp = (true, root') ->
  (forall i idx old frag translated_tag,
     original_tags !! i = Some idx -> root !! idx = Some old ->
     PyStr.split XML_SEPARATOR resp !! i = Some frag ->
     fromstring (PyStr.strip frag) = Some translated_tag ->
     root' !! idx =
       Some (mkElement (tag old) (attrib old) (text translated_tag) (tail old)
               (children old))) /\
  (forall idx, idx ∉ original_tags -> root' !! idx = root !! idx).
Proof.
  intros Hnd Hup. apply update_response_true in Hup as [_ ->]. split.
  - intros i idx old frag e Hi Hold Hf Hparse.
    rewrite (update_zipped_at _ _ _ i idx frag Hnd Hi Hf), Hold.
    unfold update_tag. by rewrite Hparse.
  - intros idx Hidx. by apply update_zipped_other.
Qed.

End InPlace.

Section InPlaceOnSample.
#[local] Existing Instance FlatXml.flat.

Lemma translation_overwrites_text_only_witness :
  let root' :=
    (_update_tags_from_response Samples.marked_up [0] Samples.good_hello).2 in
  NoDup [0] /\
  Samples.marked_up !! 0
    = Some (mkElement "string" [("name", "hello")] (Some "Hello ")
              (Some (LF ++ "    ")) [mkElement "b" [] (Some "World") (Some "!") []]) /\
  root' !! 0
    = Some (mkElement "string" [("name", "hello")] (Some "Shalom")
              (Some (LF ++ "    ")) [mkElement "b" [] (Some "World") (Some "!") []]) /\
  root' !! 1 = Samples.marked_up !! 1.
Proof.
  intros root'.
  assert (NoDup [0]) as Hnd by (apply NoDup_singleton).
  assert (_update_tags_from_response Samples.marked_up [0] Samples.good_hello
          = (true, root')) as Hup by (vm_compute; reflexivity).
  destruct (translation_overwrites_text_only _ _ _ _ Hnd Hup) as [Hin Hout].
  split; [exact Hnd|]. split; [reflexivity|]. split.
  - apply (Hin 0 0
             (mkElement "string" [("name", "hello")] (Some "Hello ")
                (Some (LF ++ "    ")) [mkElement "b" [] (Some "World") (Some "!") []])
             Samples.good_hello
             (mkElement "string" [("name", "hello")] (Some "Shalom") None []));
      reflexivity.
  - apply Hout. intros H%list_elem_of_singleton. discriminate H.
Defined.

(** C4, as stated, fails: the run assigns the translation to the field
    that held the source text, and two tables of records without children
    that differ in their source text come out of the same run alike, so
    the source text cannot be read back from the records. *)
Lemma translation_replaces_source_text :
  let api := Samples.always Samples.good_hello in
  let hello := [FlatXml.string_tag "hello" "Hello"] in
  let howdy := [FlatXml.string_tag "hello" "Howdy"] in
  (exists r, translate_run api 0 hello = (r, Completed) /\
             text <$> hello !! 0 = Some (Some "Hello") /\
             text <$> run_root r !! 0 = Some (Some "Shalom")) /\
  hello <> howdy /\
  run_root (translate_run api 0 hello).1 = run_root (translate_run api 0 howdy).1.
Proof.
  split; [|split].
  - eexists. split; [vm_compute; reflexivity|]. split; reflexivity.
  - discriminate.
  - vm_compute. reflexivity.
Qed.

End InPlaceOnSample.

(** ** C5: which errors the adapter tries again *)

Lemma attempt_loop_bounded (api : Api) (calls : nat) (batch : string)
    (made waited : nat) (todo : list nat) :
  attempts (attempt_loop api calls batch made waited todo) <= made + length todo.
Proof.
  revert made waited. induction todo as [|attempt todo IH]; intros made waited.
  - simpl. lia.
  - cbn [attempt_loop length].
    destruct (api (calls + made) batch) as [t|e|e].
    + simpl. lia.
    + destruct (attempt <? API_MAX_RETRIES - 1); [|simpl; lia].
      specialize (IH (S made) (waited + API_RATE_LIMIT_WAIT_SEC)). lia.
    + destruct (is_rate_limit e); [|simpl; lia].
      destruct (attempt <? API_MAX_RETRIES - 1); [|simpl; lia].
      specialize (IH (S made) (waited + API_RATE_LIMIT_WAIT_SEC)). lia.
Qed.

Lemma attempts_bounded (api : Api) (calls : nat) (batch : string) :
  attempts (translate_text_with_ai api calls batch) <= API_MAX_RETRIES.
Proof.
  unfold translate_text_with_ai.
  destruct (_ || _); [simpl; lia|].
  apply (attempt_loop_bounded api calls batch 0 0 (seq 0 API_MAX_RETRIES)).
Qed.

(** C5, as amended.  When attempt [k] raises an error that is neither a
    network error nor a rate limit, and the attempts before it were
    retried, the adapter returns [ERROR_UNEXPECTED: ] with the error's
    text right there: it has made [k + 1] calls and makes no other; and no
    call of the adapter makes more than three attempts. *)
Theorem unexpected_error_is_not_retried (api : Api) (calls k : nat)
    (batch str_e : string) :
  (batch =? "")%string || PyStr.isspace batch = false ->
  k < API_MAX_RETRIES ->
  (forall m, m < k -> retried (api (calls + m) batch) = true) ->
  api (calls + k) batch = Raises str_e ->
  is_rate_limit str_e = false ->
  translate_text_with_ai api calls batch
    = mkAdapterRun ("ERROR_UNEXPECTED: " ++ str_e) (S k)
        (k * API_RATE_LIMIT_WAIT_SEC) /\
  forall api' calls' batch',
    attempts (translate_text_with_ai api' calls' batch') <= API_MAX_RETRIES.
Proof.
  intros Hbatch Hk Hbefore Hraise Hkind.
  split; [|apply attempts_bounded].
  unfold translate_text_with_ai. rewrite Hbatch.
  unfold API_MAX_RETRIES in *. cbn [seq].
  assert (forall m, m < k ->
            match api (calls + m) batch with
            | Returns _ => False
            | RaisesNetwork _ => True
            | Raises e => is_rate_limit e = true
            end) as Hshape.
  { intros m Hm. specialize (Hbefore m Hm).
    by destruct (api (calls + m) batch). }
  destruct k as [|[|[|k]]]; [| | |lia]; cbn [attempt_loop].
  - by rewrite Hraise, Hkind.
  - pose proof (Hshape 0 ltac:(lia)) as H0.
    destruct (api (calls + 0) batch) as [?|?|e0]; [done| |rewrite H0];
      cbn; by rewrite Hraise, Hkind.
  - pose proof (Hshape 0 ltac:(lia)) as H0.
    pose proof (Hshape 1 ltac:(lia)) as H1.
    destruct (api (calls + 0) batch) as [?|?|e0]; [done| |rewrite H0];
      cbn; (destruct (api (calls + 1) batch) as [?|?|e1]; [done| |rewrite H1]);
      cbn; by rewrite Hraise, Hkind.
Qed.

Lemma unexpected_error_is_not_retried_witness :
  translate_text_with_ai
    (fun n batch => if n <? 1 then RaisesNetwork "reset" else Raises "boom")
    0 "<string>Hi</string>"
  = mkAdapterRun "ERROR_UNEXPECTED: boom" 2 60.
Proof.
  apply (unexpected_error_is_not_retried
           (fun n batch => if n <? 1 then RaisesNetwork "reset" else Raises "boom")
           0 1 "<string>Hi</string>" "boom").
  - reflexivity.
  - unfold API_MAX_RETRIES. lia.
  - intros [|m] Hm; [reflexivity | lia].
  - reflexivity.
  - reflexivity.
Defined.

(** C5, as stated, fails: an error of no special kind at the first
    attempt ends the call at once, with two attempts of the budget unused
    and a remote side that would have answered the second. *)
Lemma unexpected_error_ends_first_attempt :
  let a := translate_text_with_ai Samples.fails_once 0 "<string>Hi</string>" in
  returned a = "ERROR_UNEXPECTED: boom" /\
  attempts a = 1 /\
  Samples.fails_once 1 "<string>Hi</string>" = Returns "<string>Hi</string>" /\
  (* the errors that are retried do use the budget *)
  translate_text_with_ai Samples.down_then_quota 0 "<string>Hi</string>"
    = mkAdapterRun "ERROR_RATE_LIMIT" 3 120.
Proof. vm_compute. repeat split. Qed.

(** ** C6: the records that are left out *)

Section LeftOut.
Context `{ET : ElementTree}.

Lemma batch_loop_sent (api : Api) (strs : list nat) (snips : list string)
    (total : nat) (starts : list nat) (r r' : Run) (e : Ending)
    (P : string -> Prop) :
  batch_loop api strs snips total starts r = (r', e) ->
  (forall i, P (PyStr.join XML_SEPARATOR (batch_slice snips i))) ->
  Forall P (run_sent r) -> Forall P (run_sent r').
Proof.
  intros Hrun HP. revert r Hrun.
  induction starts as [|i starts IH]; intros r Hrun Hr.
  - by injection Hrun as <- _.
  - cbn [batch_loop] in Hrun.
    assert (Forall P (run_sent r ++ [PyStr.join XML_SEPARATOR (batch_slice snips i)]))
      as Hr1 by (apply Forall_app; split; [done | by constructor]).
    destruct (PyStr.contains _ _); [by injection Hrun as <- _|].
    destruct (_update_tags_from_response _ _ _) as [[|] root'];
      [|by injection Hrun as <- _].
    by apply IH in Hrun.
Qed.

Lemma batch_loop_progress (api : Api) (strs : list nat) (snips : list string)
    (total : nat) (starts : list nat) (r r' : Run) (e : Ending) :
  batch_loop api strs snips total starts r = (r', e) ->
  Forall (fun vt => vt.2 = total) (progress r) ->
  Forall (fun vt => vt.2 = total) (progress r').
Proof.
  revert r. induction starts as [|i starts IH]; intros r Hrun Hr.
  - by injection Hrun as <- _.
  - cbn [batch_loop] in Hrun.
    destruct (PyStr.contains _ _); [by injection Hrun as <- _|].
    destruct (_update_tags_from_response _ _ _) as [[|] root'];
      [|by injection Hrun as <- _].
    apply IH in Hrun; [done|]. cbn [progress].
    apply Forall_app; split; [done | by constructor].
Qed.

Lemma keeps_false (t : option string) :
  (t = None \/ t = Some "" \/
   (exists s, t = Some s /\ PyStr.contains "%" s = true /\
              (PyStr.contains "s" s = true \/ PyStr.contains "d" s = true))) ->
  keeps t = false.
Proof.
  intros [->|[->|(s & -> & Hp & Hsd)]]; [done..|].
  unfold keeps. rewrite Hp.
  destruct Hsd as [-> | ->]; rewrite ?orb_true_r; simpl; apply andb_false_r.
Qed.

(** C6, as amended.  A record without text, with an empty text, or with
    a text that holds [%] together with [s] or [d] is in no batch: every
    text given to the adapter is the join of the snippets of a slice of
    the translatable records, of which it is none; the denominator shown
    is the number of translatable records, which does not count it; and
    whatever way the run ends, the record is as it was. *)
Theorem untranslatable_record_is_left_out (xml_root : list Element)
    (idx : nat) (e : Element) :
  xml_root !! idx = Some e ->
  (text e = None \/ text e = Some "" \/
   (exists s, text e = Some s /\ PyStr.contains "%" s = true /\
              (PyStr.contains "s" s = true \/ PyStr.contains "d" s = true))) ->
  let strs := _get_translatable_strings xml_root in
  (idx ∉ strs) /\
  (forall i, idx ∉ batch_slice strs i) /\
  S (length strs) <= length xml_root /\
  forall api calls r ending,
    translate_run api calls xml_root = (r, ending) ->
    run_root r !! idx = Some e /\
    Forall (fun payload => exists i,
              payload = PyStr.join XML_SEPARATOR
                          (batch_slice (all_xml_snippets xml_root strs) i))
      (run_sent r) /\
    Forall (fun vt => vt.2 = length strs) (progress r).
Proof.
  intros He Htext strs.
  assert (idx ∉ strs) as Hout.
  { intros Hin. apply elem_of_List_filter in Hin as [_ Hk].
    unfold element_at in Hk. rewrite He in Hk. simpl in Hk.
    by rewrite (keeps_false _ Htext) in Hk. }
  assert (forall i, idx ∉ batch_slice strs i) as Hbatch.
  { intros i Hin. apply Hout. unfold batch_slice in Hin.
    eapply elem_of_sublist; [exact Hin|].
    etrans; [apply sublist_take | apply sublist_drop]. }
  split; [done|]. split; [done|]. split.
  { assert (NoDup (idx :: strs)) as Hnd.
    { apply NoDup_cons. split; [done | apply translatable_NoDup]. }
    rewrite <- (length_seq (length xml_root) 0).
    change (S (length strs)) with (length (idx :: strs)).
    apply submseteq_length, NoDup_submseteq; [done|]. intros x Hx.
    apply elem_of_cons in Hx as [->|Hx].
    - apply elem_of_seq. apply lookup_lt_Some in He. lia.
    - eapply elem_of_sublist; [done | apply translatable_sublist]. }
  intros api calls r ending Hrun.
  unfold translate_run in Hrun. fold strs in Hrun.
  destruct strs as [|s0 strs'] eqn:Estrs.
  { injection Hrun as <- _. by repeat split. }
  rewrite <- Estrs in *. clear Estrs s0 strs'.
  split; [|split].
  - rewrite (batch_loop_frame _ _ _ _ _ _ _ _ idx Hrun); [done|].
    intros i _. apply Hbatch.
  - eapply batch_loop_sent; [exact Hrun | by eexists | constructor].
  - eapply batch_loop_progress; [exact Hrun | by repeat constructor].
Qed.

End LeftOut.

Section LeftOutOnSample.
#[local] Existing Instance FlatXml.flat.

Lemma untranslatable_record_is_left_out_witness :
  let r := (translate_run Samples.echo 0 Samples.table3).1 in
  _get_translatable_strings Samples.table3 = [0; 2] /\
  run_root r !! 1 = Some (FlatXml.string_tag "fmt" "%1$s") /\
  Forall (fun vt => vt.2 = 2) (progress r).
Proof.
  intros r. split; [reflexivity|].
  destruct (untranslatable_record_is_left_out Samples.table3 1
              (FlatXml.string_tag "fmt" "%1$s") eq_refl) as (_ & _ & _ & H).
  - right. right. exists "%1$s". repeat split. by left.
  - destruct (H Samples.echo 0 r (translate_run Samples.echo 0 Samples.table3).2)
      as (Hroot & _ & Hprog); [by destruct (translate_run _ _ _)|].
    by split.
Defined.

(** C6, as stated, fails for a text of blanks: it passes the test of
    [_get_translatable_strings], is serialized into the batch, and is
    counted in the denominator. *)
Lemma whitespace_only_record_is_batched :
  PyStr.isspace "   " = true /\
  _get_translatable_strings Samples.blank_first = [0; 1] /\
  exists r,
    translate_run Samples.echo 0 Samples.blank_first = (r, Completed) /\
    run_sent r =
      ["<string name=" ++ FlatXml.DQ ++ "blank" ++ FlatXml.DQ ++ ">   </string>" ++
       XML_SEPARATOR ++
       "<string name=" ++ FlatXml.DQ ++ "hello" ++ FlatXml.DQ ++ ">Hello</string>"] /\
    progress r = [(0, 2); (2, 2)].
Proof.
  split; [reflexivity|]. split; [reflexivity|].
  eexists. split; [vm_compute; reflexivity|]. split; reflexivity.
Qed.

End LeftOutOnSample.

(** ** C9: joining and splitting a batch *)

Section SplitJoin.

Lemma prefix_app (p s : string) : String.prefix p (p ++ s) = true.
Proof.
  induction p as [|c p IH]; simpl; [by destruct s|].
  rewrite IH. by destruct (ascii_dec c c).
Qed.

Lemma prefix_app_long (p x y : string) :
  String.length p <= String.length x ->
  String.prefix p (x ++ y) = String.prefix p x.
Proof.
  revert x. induction p as [|c p IH]; intros x Hlen.
  - simpl. by destruct (x ++ y), x.
  - destruct x as [|d x]; simpl in Hlen; [lia|]. simpl.
    destruct (ascii_dec c d); [|done]. apply IH. lia.
Qed.

Lemma prefix_app_true (p x y : string) :
  String.prefix p x = true -> String.prefix p (x ++ y) = true.
Proof.
  revert x. induction p as [|c p IH]; intros x H.
  - simpl. by destruct (x ++ y).
  - destruct x as [|d x]; simpl in *; [done|].
    destruct (ascii_dec c d); [by apply IH | done].
Qed.

Lemma string_app_assoc (x y z : string) : x ++ y ++ z = (x ++ y) ++ z.
Proof. induction x as [|c x IH]; simpl; [done | by rewrite IH]. Qed.

Lemma string_length_app (x y : string) :
  String.length (x ++ y) = String.length x + String.length y.
Proof. induction x as [|c x IH]; simpl; [done | by rewrite IH]. Qed.

Lemma contains_cons_false (pat : string) (c : ascii) (t y : string) :
  PyStr.contains pat (String c t ++ y) = false ->
  String.prefix pat (String c t ++ y) = false /\ PyStr.contains pat (t ++ y) = false.
Proof.
  change (String c t ++ y) with (String c (t ++ y)).
  cbn [PyStr.contains]. by intros [??]%orb_false_elim.
Qed.

Lemma split_go_skip (sep x rest : string) :
  PyStr.split_go sep (String.length x) (x ++ rest) = PyStr.split_go sep 0 rest.
Proof. induction x as [|c x IH]; [done | exact IH]. Qed.

Lemma split_go_at_separator (c : ascii) (sep' rest : string) :
  PyStr.split_go (String c sep') 0 (String c sep' ++ rest)
  = "" :: PyStr.split_go (String c sep') 0 rest.
Proof.
  change (String c sep' ++ rest) with (String c (sep' ++ rest)).
  cbn [PyStr.split_go].
  change (String c (sep' ++ rest)) with (String c sep' ++ rest).
  rewrite prefix_app. f_equal.
  replace (String.length (String c sep') - 1) with (String.length sep')
    by (cbn [String.length]; lia).
  apply split_go_skip.
Qed.

Lemma no_separator_at (c : ascii) (t rest : string) :
  String.prefix XML_SEPARATOR (String c t ++ separator_head) = false ->
  String.prefix XML_SEPARATOR (String c t ++ XML_SEPARATOR ++ rest) = false.
Proof.
  intros H.
  change (XML_SEPARATOR ++ rest) with (separator_head ++ (LF ++ rest)).
  change (String c t ++ separator_head ++ LF ++ rest)
    with (String c (t ++ separator_head ++ LF ++ rest)).
  rewrite (string_app_assoc t separator_head (LF ++ rest)).
  change (String c ((t ++ separator_head) ++ LF ++ rest))
    with ((String c t ++ separator_head) ++ (LF ++ rest)).
  rewrite prefix_app_long; [done|].
  change (String c t ++ separator_head) with (String c (t ++ separator_head)).
  cbn [String.length]. rewrite string_length_app. simpl. lia.
Qed.

Lemma split_go_piece (f rest : string) :
  separator_starts_inside f = false ->
  PyStr.split_go XML_SEPARATOR 0 (f ++ XML_SEPARATOR ++ rest)
  = f :: PyStr.split_go XML_SEPARATOR 0 rest.
Proof.
  unfold separator_starts_inside.
  induction f as [|c t IH]; intros Hf.
  - apply split_go_at_separator.
  - apply contains_cons_false in Hf as [Hhere Hlater].
    apply (no_separator_at c t rest) in Hhere.
    change (String c t ++ XML_SEPARATOR ++ rest)
      with (String c (t ++ XML_SEPARATOR ++ rest)) in *.
    cbn [PyStr.split_go]. rewrite Hhere, (IH Hlater). done.
Qed.

Lemma split_go_last (f : string) :
  separator_starts_inside f = false ->
  PyStr.split_go XML_SEPARATOR 0 f = [f].
Proof.
  unfold separator_starts_inside.
  induction f as [|c t IH]; intros Hf; [done|].
  apply contains_cons_false in Hf as [Hhere Hlater].
  cbn [PyStr.split_go].
  destruct (String.prefix XML_SEPARATOR (String c t)) eqn:Hp.
  { apply (prefix_app_true _ _ separator_head) in Hp. congruence. }
  by rewrite (IH Hlater).
Qed.

Lemma prefix_straddles (x : string) :
  String.prefix XML_SEPARATOR (x ++ separator_head)
  = String.prefix XML_SEPARATOR x || (x =? separator_head)%string.
Proof.
  unfold XML_SEPARATOR, separator_head.
  destruct x as [|a [|b [|c [|d [|e x]]]]];
    cbn [String.prefix String.append String.eqb orb];
    repeat match goal with
           | |- context [ascii_dec ?u ?v] =>
               destruct (ascii_dec u v); subst;
               cbn [String.prefix String.append String.eqb orb]
           end;
    repeat match goal with
           | |- context [Ascii.eqb ?u ?v] =>
               destruct (Ascii.eqb_spec u v); subst;
               cbn [String.prefix String.append String.eqb orb]
           end;
    try congruence; try (by destruct x).
Qed.

(** An occurrence of the separator starts inside a fragment exactly when
    the fragment holds the separator or ends with its first four
    characters. *)
Lemma separator_starts_inside_iff (f : string) :
  separator_starts_inside f
  = PyStr.contains XML_SEPARATOR f || PyStr.endswith f separator_head.
Proof.
  unfold separator_starts_inside.
  induction f as [|c t IH]; [reflexivity|].
  change (String c t ++ separator_head) with (String c (t ++ separator_head)).
  cbn [PyStr.contains PyStr.endswith]. rewrite IH.
  change (String c (t ++ separator_head)) with (String c t ++ separator_head).
  rewrite prefix_straddles.
  destruct (String.prefix XML_SEPARATOR (String c t)),
    (String c t =? separator_head)%string,
    (PyStr.contains XML_SEPARATOR t), (PyStr.endswith t separator_head);
    reflexivity.
Qed.

(** C9, as amended.  For a batch of at least one fragment, none of which
    holds the separator or ends with the separator's first four
    characters, splitting the joined text on the separator gives back the
    fragments themselves, as many and in the same order; and so they are
    also equal once stripped. *)
Theorem join_then_split_gives_fragments (frags : list string) :
  frags <> [] ->
  Forall (fun f => PyStr.contains XML_SEPARATOR f = false /\
                   PyStr.endswith f separator_head = false) frags ->
  PyStr.split XML_SEPARATOR (PyStr.join XML_SEPARATOR frags) = frags /\
  length (PyStr.split XML_SEPARATOR (PyStr.join XML_SEPARATOR frags)) = length frags /\
  map PyStr.strip (PyStr.split XML_SEPARATOR (PyStr.join XML_SEPARATOR frags))
    = map PyStr.strip frags.
Proof.
  intros Hne Hfrags.
  assert (Forall (fun f => separator_starts_inside f = false) frags) as Hclean.
  { eapply Forall_impl; [exact Hfrags|]. intros f [Hin Hend].
    by rewrite separator_starts_inside_iff, Hin, Hend. }
  clear Hfrags.
  assert (PyStr.split XML_SEPARATOR (PyStr.join XML_SEPARATOR frags) = frags) as E.
  { unfold PyStr.split.
    induction frags as [|f frags IH]; [done|].
    apply Forall_cons in Hclean as [Hf Hrest].
    destruct frags as [|g frags].
    - by apply split_go_last.
    - change (PyStr.join XML_SEPARATOR (f :: g :: frags))
        with (f ++ XML_SEPARATOR ++ PyStr.join XML_SEPARATOR (g :: frags)).
      rewrite split_go_piece by done. f_equal. by apply IH. }
  by rewrite E.
Qed.

End SplitJoin.

Section SplitJoinOnSample.
#[local] Existing Instance FlatXml.flat.

Lemma join_then_split_gives_fragments_witness :
  let frags := all_xml_snippets Samples.table2 [0; 1] in
  PyStr.split XML_SEPARATOR (PyStr.join XML_SEPARATOR frags) = frags /\
  length (PyStr.split XML_SEPARATOR (PyStr.join XML_SEPARATOR frags)) = length frags /\
  map PyStr.strip (PyStr.split XML_SEPARATOR (PyStr.join XML_SEPARATOR frags))
    = map PyStr.strip frags.
Proof.
  apply join_then_split_gives_fragments.
  - discriminate.
  - repeat constructor.
Defined.

(** A fragment that ends with the separator's first four characters is
    cut short by the split, though it holds no separator. *)
Example fragment_ending_in_dashes :
  let f := "a" ++ separator_head in
  PyStr.contains XML_SEPARATOR f = false /\
  PyStr.split XML_SEPARATOR (PyStr.join XML_SEPARATOR [f; "b"]) = ["a"; "---" ++ LF ++ "b"].
Proof. split; reflexivity. Qed.

(** C9, as stated, fails: nothing keeps the separator out of a
    fragment.  The entry [ruled_note] serializes to one well-formed
    fragment that holds the separator in its text; the batch of that one
    fragment splits into two pieces, and the run over an echoing remote
    side ends on the mismatch. *)
Lemma separator_inside_fragment_splits_it :
  let frag := PyStr.strip (tostring Samples.ruled_note) in
  fromstring frag =
    Some (mkElement "string" [("name", "note")]
            (Some ("above" ++ XML_SEPARATOR ++ "below")) None []) /\
  PyStr.split XML_SEPARATOR (PyStr.join XML_SEPARATOR [frag])
    = ["<string name=" ++ FlatXml.DQ ++ "note" ++ FlatXml.DQ ++ ">above";
       "below</string>"] /\
  exists r,
    translate_run Samples.echo 0 [Samples.ruled_note] = (r, Mismatch 0) /\
    run_root r = [Samples.ruled_note].
Proof.
  split; [vm_compute; reflexivity|]. split; [vm_compute; reflexivity|].
  eexists. split; [vm_compute; reflexivity|]. reflexivity.
Qed.

End SplitJoinOnSample.

(** ** The gate *)

Lemma update_ui_btn (app : App) (b : Button) :
  btn (_update_ui_for_state app) b =
  if decide (b = step1_btn) then btn app step1_btn
  else if gated_on app b then NORMAL else DISABLED.
Proof.
  unfold _update_ui_for_state, gated_on.
  destruct (expert_mode app), (current_state app) as [[]|], b; reflexivity.
Qed.

Lemma update_ui_keeps (app : App) :
  current_state (_update_ui_for_state app) = current_state app /\
  expert_mode (_update_ui_for_state app) = expert_mode app /\
  effects (_update_ui_for_state app) = effects app.
Proof.
  unfold _update_ui_for_state.
  by destruct (expert_mode app) eqn:E, (current_state app) eqn:E'.
Qed.

Lemma listed_permitting (b : Button) (s : AppState) :
  bool_decide (b ∈ state_map s) = true ->
  permitting_state (command b) = Some s.
Proof. destruct s, b; vm_compute; congruence. Qed.

Lemma gate_after_update (app : App) : gate_ok (_update_ui_for_state app).
Proof.
  intros b Hb Hn. rewrite update_ui_btn in Hn.
  destruct (decide (b = step1_btn)); [done|].
  destruct (update_ui_keeps app) as (Hs & He & _).
  unfold gated_on in *. rewrite Hs, He.
  by destruct (_ || _).
Qed.

Lemma gate_frame (app app' : App) :
  btn app' = btn app -> current_state app' = current_state app ->
  expert_mode app' = expert_mode app -> gate_ok app -> gate_ok app'.
Proof.
  intros Hb Hs He Hgate b Hne Hn. unfold gated_on.
  rewrite Hs, He. rewrite Hb in Hn. by apply Hgate.
Qed.

Section GateFacts.
Context `{ET : ElementTree}.

Lemma gate_after_translate (w : World) (app : App) :
  gate_ok app -> btn app step4a_btn = NORMAL ->
  gate_ok (run_step4_translate w app).
Proof.
  intros Hgate Hon. unfold run_step4_translate.
  destruct (xml_root app) as [root|]; [|done].
  destruct (credentials_ok w); [|done]. cbn [negb].
  unfold _worker_translate.
  destruct (translate_run _ _ _) as [r []];
    try apply gate_after_update.
  intros b Hne Hn. cbn in Hn. unfold config in Hn.
  destruct (decide (b = step4a_btn)) as [->|Hb]; [by apply Hgate|].
  by apply Hgate.
Qed.

Lemma gate_after_stage (b : Button) (w : World) (app : App) :
  gate_ok app -> btn app b = NORMAL ->
  gate_ok (run_stage (command b) w app).
Proof.
  intros Hgate Hon.
  destruct (decide (b = step4a_btn)) as [->|Hb].
  { by apply gate_after_translate. }
  destruct b; try done; cbn [command run_stage];
    unfold run_step1_select_apk, run_step2_decompile, _worker_decompile,
      run_step3_extract_strings, _worker_extract_strings,
      run_step5_save_translated, _worker_save_translated,
      run_step6_recompile, _worker_recompile, run_step7_sign, _worker_sign,
      set_state;
    cbv zeta;
    repeat match goal with
           | |- gate_ok (_update_ui_for_state _) => apply gate_after_update
           | |- gate_ok (if ?c then _ else _) => destruct c
           | |- gate_ok (match ?c with _ => _ end) => destruct c
           | |- gate_ok _ => by (eapply gate_frame; [..|exact Hgate])
           | |- context [if ?c then _ else _] => destruct c
           end.
Qed.

Lemma reachable_gate_ok (app : App) : Reachable app -> gate_ok app.
Proof.
  induction 1 as [deps|b w app _ IH|app _ IH|app _ IH|found app _ IH].
  - apply gate_after_update.
  - unfold click. destruct (btn app b) eqn:Hon; [|done].
    by apply gate_after_stage.
  - apply gate_after_update.
  - by eapply gate_frame; [..|exact IH].
  - by eapply gate_frame; [..|exact IH].
Qed.

(** The two descriptions of a stage agree: in a session where nothing
    waits, a click, then the worker it started, then the callback the
    worker handed over, come to [click]. *)
Lemma main_loop_work_press (b : Button) (w : World) (app : App) :
  main_loop (work 0 w (press b w (quiet app))) = quiet (click b w app).
Proof.
  unfold press, click, quiet. cbn [session_app threads callbacks].
  destruct (btn app b) eqn:Hon; [|done].
  destruct b; cbn [command handler run_stage];
    unfold run_step2_decompile, _worker_decompile, run_step3_extract_strings,
      _worker_extract_strings, run_step4_translate, _worker_translate,
      run_step5_save_translated, _worker_save_translated,
      run_step6_recompile, _worker_recompile, run_step7_sign, _worker_sign;
    cbv zeta;
    repeat (cbn -[translate_run set_state _update_ui_for_state with_btn did
                  set_xml_root set_decompiled_dir set_unsigned_apk_path
                  set_original_strings_xml_path run_step1_select_apk negb orb andb
                  PyStr.truthy PyStr.str_of_opt String.append];
            match goal with
            | |- context [if ?c then _ else _] => destruct c eqn:?
            | |- context [match ?c with _ => _ end] => destruct c eqn:?
            end);
    cbn -[translate_run set_state _update_ui_for_state with_btn did
                  set_xml_root set_decompiled_dir set_unsigned_apk_path
                  set_original_strings_xml_path run_step1_select_apk negb orb andb
                  PyStr.truthy PyStr.str_of_opt String.append];
    try reflexivity; try congruence;
    cbn [xml_root calls_made with_btn] in *; simplify_eq; try reflexivity;
    congruence.
Qed.

Lemma reachable_interleaved (app : App) :
  Reachable app -> Interleaved (quiet app).
Proof.
  induction 1 as [deps|b w app _ IH|app _ IH|app _ IH|found app _ IH].
  - apply il_start.
  - rewrite <- main_loop_work_press. by apply il_main_loop, il_work, il_press.
  - by apply (il_toggle (quiet app)).
  - by apply (il_overwrite (quiet app)).
  - by apply (il_dependencies found (quiet app)).
Qed.

Lemma gate_but_translate_frame (app app' : App) :
  (forall b, command b <> Select -> command b <> Translate -> btn app' b = btn app b) ->
  current_state app' = current_state app ->
  expert_mode app' = expert_mode app ->
  gate_ok_but_translate app -> gate_ok_but_translate app'.
Proof.
  intros Hb Hs He Hgate b Hsel Htr Hn. unfold gated_on.
  rewrite Hs, He. rewrite Hb in Hn by done. by apply Hgate.
Qed.

Lemma gate_but_translate_after_update (app : App) :
  gate_ok_but_translate (_update_ui_for_state app).
Proof.
  intros b Hsel _. apply gate_after_update. by intros ->.
Qed.

Lemma handler_keeps_gate (st : Stage) (w : World) (app : App) :
  gate_ok_but_translate app -> gate_ok_but_translate (handler st w app).1.
Proof.
  intros Hgate. destruct st; cbn [handler];
    unfold run_step1_select_apk, set_state; cbv zeta;
    repeat match goal with
           | |- gate_ok_but_translate (_update_ui_for_state _) =>
               apply gate_but_translate_after_update
           | |- gate_ok_but_translate (if ?c then _ else _).1 => destruct c
           | |- gate_ok_but_translate (match ?c with _ => _ end).1 => destruct c
           | |- gate_ok_but_translate (if ?c then _ else _) => destruct c
           | |- gate_ok_but_translate (_, _).1 => cbn [fst]
           | |- gate_ok_but_translate _ =>
               by (eapply gate_but_translate_frame; [..|exact Hgate])
           | |- context [if ?c then _ else _] => destruct c
           end.
  eapply gate_but_translate_frame; [| | |exact Hgate]; [|done..].
  intros b _ Hb. cbn. unfold config.
  destruct (decide (b = step4a_btn)) as [->|]; done.
Qed.

Lemma on_thread_keeps_ui (st : Stage) (w : World) (app : App) :
  btn (on_thread st w app).1 = btn app /\
  current_state (on_thread st w app).1 = current_state app /\
  expert_mode (on_thread st w app).1 = expert_mode app.
Proof.
  destruct st; cbn [on_thread]; cbv zeta;
    repeat match goal with
           | |- context [if ?c then _ else _] => destruct c
           | |- context [match ?c with _ => _ end] => destruct c
           end;
    done.
Qed.

Lemma run_callback_keeps_gate (c : Callback) (app : App) :
  gate_ok_but_translate app -> gate_ok_but_translate (run_callback c app).
Proof.
  intros Hgate. destruct c; cbn [run_callback]; unfold set_state;
    try apply gate_but_translate_after_update.
  eapply gate_but_translate_frame; [| | |exact Hgate]; [|done..].
  intros b _ Hb. cbn. unfold config.
  destruct (decide (b = step4a_btn)) as [->|]; done.
Qed.

Lemma interleaved_gate (s : Session) :
  Interleaved s -> gate_ok_but_translate (session_app s).
Proof.
  induction 1 as [deps|b w s _ IH|k w s _ IH|s _ IH|s _ IH|s _ IH|found s _ IH];
    cbn [session_app quiet].
  - apply gate_but_translate_after_update.
  - unfold press. destruct (btn (session_app s) b); [|done].
    by apply handler_keeps_gate.
  - unfold work. destruct (threads s !! k) as [st|]; [|done].
    cbn [session_app].
    destruct (on_thread_keeps_ui st w (session_app s)) as (Hb & Hs & He).
    eapply gate_but_translate_frame; [| | |exact IH]; [|done..].
    intros b _ _. by rewrite Hb.
  - unfold main_loop. destruct (callbacks s) as [|c rest]; [done|].
    by apply run_callback_keeps_gate.
  - apply gate_but_translate_after_update.
  - by eapply gate_but_translate_frame; [..|exact IH].
  - by eapply gate_but_translate_frame; [..|exact IH].
Qed.

End GateFacts.

(** ** C7: a stage outside its state *)

Section GateTheorem.
Context `{ET : ElementTree}.

(** C7, as amended.  In every session, also one in which workers of
    earlier clicks still run and callbacks still wait, with the expert
    mode off the button of the decompile, extract, save, recompile or
    sign stage is disabled unless the machine is in the one state that
    permits the stage, and a click on it then changes nothing: no field
    is assigned, nothing is done to the outside, no worker is started.
    So in [STRINGS_EXTRACTED] the save stage, which
    [TRANSLATION_COMPLETE] permits, cannot be entered. *)
Theorem gate_blocks_stage_outside_its_state (s : Session) (b : Button) (w : World) :
  Interleaved s ->
  expert_mode (session_app s) = false ->
  command b <> Select -> command b <> Translate ->
  current_state (session_app s) <> permitting_state (command b) ->
  btn (session_app s) b = DISABLED /\
  press b w s = s /\
  permitting_state Save = Some TRANSLATION_COMPLETE.
Proof.
  intros Hreach Hexpert Hsel Htr Hstate.
  assert (btn (session_app s) b = DISABLED) as Hoff.
  { destruct (btn (session_app s) b) eqn:Hon; [|done].
    pose proof (interleaved_gate s Hreach b Hsel Htr Hon) as Hg.
    unfold gated_on in Hg. rewrite Hexpert in Hg. cbn [orb] in Hg.
    destruct (current_state (session_app s)) as [st|]; [|done].
    apply listed_permitting in Hg. congruence. }
  split; [done|]. split; [|done].
  unfold press. by rewrite Hoff.
Qed.

End GateTheorem.

Section GateOnSample.
#[local] Existing Instance FlatXml.flat.

Lemma sample_sessions_reachable :
  Reachable Samples.selected /\ Reachable Samples.extracted.
Proof.
  assert (Reachable Samples.selected) as H by (apply reach_click, reach_start).
  split; [done|]. by do 2 apply reach_click.
Qed.

(** The translate stage was entered and its worker has not run yet. *)
Lemma gate_blocks_stage_outside_its_state_witness :
  let s := press step4a_btn Samples.good_world (quiet Samples.extracted) in
  threads s = [Translate] /\
  current_state (session_app s) = Some STRINGS_EXTRACTED /\
  btn (session_app s) step5_btn = DISABLED /\
  press step5_btn Samples.good_world s = s /\
  permitting_state Save = Some TRANSLATION_COMPLETE.
Proof.
  intros s. split; [reflexivity|]. split; [reflexivity|].
  apply gate_blocks_stage_outside_its_state.
  - apply il_press, reachable_interleaved, sample_sessions_reachable.
  - reflexivity.
  - discriminate.
  - discriminate.
  - discriminate.
Defined.

(** C7, as stated, fails in its general part: the button of the first
    stage is not among those [_update_ui_for_state] disables, so with the
    expert mode off the select stage runs in [STRINGS_EXTRACTED] as it
    ran in [INITIAL]: it removes the work directory with all that was
    decompiled into it, copies a file and sets the machine back to
    [APK_SELECTED]. *)
Lemma select_runs_in_every_state :
  let s := quiet Samples.extracted in
  let s' := press step1_btn Samples.good_world s in
  expert_mode (session_app s) = false /\
  current_state (session_app s) = Some STRINGS_EXTRACTED /\
  btn (session_app s) step1_btn = NORMAL /\
  current_state (session_app s') = Some APK_SELECTED /\
  effects (session_app s')
    = (effects (session_app s) ++ [RemovedWorkDir; CopiedApk "demo.apk"])%list /\
  current_state (initial_app true) = Some INITIAL /\
  current_state
    (session_app (press step1_btn Samples.fresh_disk (quiet (initial_app true))))
    = Some APK_SELECTED.
Proof. vm_compute. repeat split. Qed.

(** Nor is the translate stage held to its state.  Its handler disables
    the button and the callback of a run that finds nothing to translate
    enables it, whatever the state is by then: when a file was selected
    while the worker ran, the button is enabled in [APK_SELECTED] with the
    expert mode off, and a click on it starts the worker there. *)
Example translate_button_comes_back :
  let s0 := quiet MoreSamples.extracted_placeholders in
  let s1 := press step4a_btn Samples.good_world s0 in
  let s2 := press step1_btn Samples.good_world s1 in
  let s3 := main_loop (work 0 Samples.good_world s2) in
  Interleaved s3 /\
  current_state (session_app s0) = Some STRINGS_EXTRACTED /\
  threads s1 = [Translate] /\
  current_state (session_app s3) = Some APK_SELECTED /\
  expert_mode (session_app s3) = false /\
  btn (session_app s3) step4a_btn = NORMAL /\
  threads s3 = [] /\
  threads (press step4a_btn Samples.good_world s3) = [Translate].
Proof.
  split.
  - apply il_main_loop, il_work, il_press, il_press, reachable_interleaved.
    do 3 apply reach_click. apply reach_start.
  - vm_compute. repeat split.
Qed.

End GateOnSample.

(** ** C8: a stage that fails *)

Section FailureTheorem.
Context `{ET : ElementTree}.

(** Take every remaining branch of the worker in the goal. *)
Ltac branches :=
  repeat (cbn;
          match goal with
          | |- context [if ?c then _ else _] => destruct c eqn:?
          | |- context [match ?c with _ => _ end] => destruct c eqn:?
          end);
  cbn; done.

Lemma failed_stage_state (st : Stage) (w : World) (app : App) :
  StageFailure st w app ->
  current_state (run_stage st w app) = current_state app.
Proof.
  destruct 1 as [w app Hfile Hex Hrm|w app Hfile Hcopy
                 |st w app Htool Hdeps|st w app Htool Hcmd
                 |w app Hx|w app Hx|w app root r i ct Hroot Hrun
                 |w app root r i Hroot Hrun|w app Hw|w app Hk|w app Hex Hrm].
  - cbn. unfold run_step1_select_apk. rewrite Hex, Hrm.
    by destruct (chosen_file w =? "")%string.
  - cbn. unfold run_step1_select_apk.
    destruct Hcopy as [Hc|Hc]; rewrite Hc; branches.
  - destruct st; try done; cbn;
      unfold run_step2_decompile, run_step6_recompile, run_step7_sign;
      by rewrite Hdeps.
  - destruct st; try done; cbn;
      unfold run_step2_decompile, _worker_decompile, run_step6_recompile,
        _worker_recompile, run_step7_sign, _worker_sign;
      rewrite Hcmd;
      branches.
  - cbn. unfold run_step3_extract_strings, _worker_extract_strings.
    rewrite Hx. by destruct (_ || _).
  - cbn. unfold run_step3_extract_strings, _worker_extract_strings.
    rewrite Hx. by destruct (_ || _).
  - cbn. unfold run_step4_translate, _worker_translate. rewrite Hroot.
    destruct (credentials_ok w); [|done]. cbn [negb calls_made with_btn].
    rewrite Hrun. by rewrite (proj1 (update_ui_keeps _)).
  - cbn. unfold run_step4_translate, _worker_translate. rewrite Hroot.
    destruct (credentials_ok w); [|done]. cbn [negb calls_made with_btn].
    rewrite Hrun. by rewrite (proj1 (update_ui_keeps _)).
  - cbn. unfold run_step5_save_translated, _worker_save_translated.
    rewrite Hw.
    branches.
  - cbn. unfold run_step7_sign, _worker_sign. rewrite Hk.
    branches.
  - cbn. unfold run_step7_sign, _worker_sign. rewrite Hex, Hrm.
    branches.
Qed.

Lemma failed_stage_button (b : Button) (w : World) (app : App) :
  StageFailure (command b) w app ->
  gate_ok app -> btn app b = NORMAL ->
  btn (run_stage (command b) w app) b = NORMAL.
Proof.
  intros Hfail Hgate Hon.
  destruct (decide (b = step4a_btn)) as [->|Hb].
  - assert (gated_on app step4a_btn = true) as Hg by (by apply Hgate).
    cbn [command run_stage].
    assert (exists root r e,
              xml_root app = Some root /\
              translate_run (model_api w) (calls_made app) root = (r, e) /\
              e <> Completed /\ e <> NoStrings) as (root & r & e & Hroot & Hrun & He1 & He2).
    { inversion Hfail; subst; try done; eauto 10. }
    unfold run_step4_translate, _worker_translate. rewrite Hroot.
    destruct (credentials_ok w); [|done]. cbn [negb calls_made with_btn].
    rewrite Hrun.
    destruct e; try done; rewrite update_ui_btn;
      (destruct (decide (step4a_btn = step1_btn)); [done|]);
      unfold gated_on in *; cbn; by rewrite Hg.
  - remember (command b) as st eqn:Est.
    destruct Hfail as [w app Hfile Hex Hrm|w app Hfile Hcopy
                       |st w app Htool Hdeps|st w app Htool Hcmd
                       |w app Hx|w app Hx|w app root r i ct Hroot Hrun
                       |w app root r i Hroot Hrun|w app Hw|w app Hk|w app Hex Hrm].
    + cbn. unfold run_step1_select_apk. rewrite Hex, Hrm.
      by destruct (chosen_file w =? "")%string.
    + cbn. unfold run_step1_select_apk.
      destruct Hcopy as [Hc|Hc]; rewrite Hc; branches.
    + destruct st; try done; cbn;
        unfold run_step2_decompile, run_step6_recompile, run_step7_sign;
        by rewrite Hdeps.
    + destruct st; try done; cbn;
        unfold run_step2_decompile, _worker_decompile, run_step6_recompile,
          _worker_recompile, run_step7_sign, _worker_sign;
        rewrite Hcmd;
        branches.
    + cbn. unfold run_step3_extract_strings, _worker_extract_strings.
      rewrite Hx. by destruct (_ || _).
    + cbn. unfold run_step3_extract_strings, _worker_extract_strings.
      rewrite Hx. by destruct (_ || _).
    + by destruct b.
    + by destruct b.
    + cbn. unfold run_step5_save_translated, _worker_save_translated.
      rewrite Hw.
      branches.
    + cbn. unfold run_step7_sign, _worker_sign. rewrite Hk.
      branches.
    + cbn. unfold run_step7_sign, _worker_sign. rewrite Hex, Hrm.
      branches.
Qed.

(** C8.  When a stage fails (a tool returns an error or a needed file is
    missing, the string table does not parse, a batch comes back with the
    wrong number of fragments, the adapter gives up, the save path cannot
    be written), the machine is in the state it was in; and in a session
    where the stage was entered by its enabled button, that button is
    enabled again afterwards, so the stage can be run once more. *)
Theorem failed_stage_keeps_state (b : Button) (w : World) (app : App) :
  StageFailure (command b) w app ->
  current_state (run_stage (command b) w app) = current_state app /\
  (Reachable app -> btn app b = NORMAL ->
   current_state (click b w app) = current_state app /\
   btn (click b w app) b = NORMAL).
Proof.
  intros Hfail. split; [by apply failed_stage_state|].
  intros Hreach Hon. unfold click. rewrite Hon. split.
  - by apply failed_stage_state.
  - apply failed_stage_button; [done | by apply reachable_gate_ok | done].
Qed.

End FailureTheorem.

Section FailureOnSample.
#[local] Existing Instance FlatXml.flat.

Lemma failed_stage_keeps_state_witness :
  StageFailure Translate Samples.remote_down Samples.extracted /\
  current_state (click step4a_btn Samples.remote_down Samples.extracted)
    = Some STRINGS_EXTRACTED /\
  btn (click step4a_btn Samples.remote_down Samples.extracted) step4a_btn = NORMAL.
Proof.
  assert (StageFailure (command step4a_btn) Samples.remote_down Samples.extracted)
    as Hfail.
  { apply (translation_failure Samples.remote_down Samples.extracted Samples.table2
             (translate_run (model_api Samples.remote_down) 0 Samples.table2).1
             0 "ERROR_UNEXPECTED: boom").
    - reflexivity.
    - vm_compute. reflexivity. }
  split; [exact Hfail|].
  destruct (failed_stage_keeps_state step4a_btn _ _ Hfail) as [_ Hretry].
  destruct (Hretry (proj2 sample_sessions_reachable) eq_refl) as [Hstate Hbtn].
  split; [|exact Hbtn]. rewrite Hstate. reflexivity.
Defined.

End FailureOnSample.

(** ** C10: the marker inside a translated payload *)

Section MarkerOnSample.
#[local] Existing Instance FlatXml.flat.

(** C10.  The loop takes a batch for failed as soon as the text the
    adapter returned holds [ERROR_] anywhere, and leaves the tree as it
    was.  So there is a payload that the remote side returned at the
    first attempt, with as many fragments as records were sent, each of
    them well formed, on which the run ends with no record translated:
    the table holds an error code as a text, and the payload keeps it. *)
Theorem marker_in_payload_aborts_run :
  (forall (ET' : ElementTree) (api : Api) (strs : list nat) (snips : list string)
          (total i : nat) (starts' : list nat) (r : Run),
     let a := translate_text_with_ai api (run_calls r)
                (PyStr.join XML_SEPARATOR (batch_slice snips i)) in
     PyStr.contains "ERROR_" (returned a) = true ->
     exists r',
       @batch_loop ET' api strs snips total (i :: starts') r
         = (r', ApiError i (returned a)) /\
       run_root r' = run_root r) /\
  (let xml_root := Samples.error_code in
   let payload := Samples.error_code_translated in
   let api := Samples.always payload in
   let strs := _get_translatable_strings xml_root in
   translate_text_with_ai api 0
       (PyStr.join XML_SEPARATOR (all_xml_snippets xml_root strs))
     = mkAdapterRun payload 1 0 /\
   length (PyStr.split XML_SEPARATOR payload) = length strs /\
   Forall (fun f => is_Some (fromstring (PyStr.strip f)))
     (PyStr.split XML_SEPARATOR payload) /\
   exists r,
     translate_run api 0 xml_root = (r, ApiError 0 payload) /\
     run_root r = xml_root).
Proof.
  split.
  - intros ET' api strs snips total i starts' r a Hmark.
    cbn [batch_loop]. fold a. rewrite Hmark. by eexists.
  - cbn zeta. split; [vm_compute; reflexivity|].
    split; [vm_compute; reflexivity|]. split.
    + assert (PyStr.split XML_SEPARATOR Samples.error_code_translated
              = ["<string name=" ++ FlatXml.DQ ++ "net_error" ++ FlatXml.DQ ++
                 ">ERROR_NETWORK</string>"; Samples.good_hello]) as ->
        by (vm_compute; reflexivity).
      repeat constructor; vm_compute; by eexists.
    + eexists. split; [vm_compute; reflexivity | reflexivity].
Qed.

End MarkerOnSample.

(** * Further properties of the adapter *)

(** What the loop of [translate_text_with_ai] does from attempt [made]
    on: it stops at some attempt [k], having met only errors it retries
    before, and what it returns is read off the outcome of attempt [k]. *)
Lemma attempt_loop_spec (api : Api) (calls : nat) (batch : string)
    (n made waited : nat) :
  made + S n = API_MAX_RETRIES ->
  exists k,
    made <= k < API_MAX_RETRIES /\
    (forall m, made <= m < k -> retried (api (calls + m) batch) = true) /\
    attempts (attempt_loop api calls batch made waited (seq made (S n))) = S k /\
    slept (attempt_loop api calls batch made waited (seq made (S n)))
      = waited + (k - made) * API_RATE_LIMIT_WAIT_SEC /\
    match api (calls + k) batch with
    | Returns t =>
        returned (attempt_loop api calls batch made waited (seq made (S n)))
          = PyStr.strip t
    | RaisesNetwork e =>
        k = API_MAX_RETRIES - 1 /\
        returned (attempt_loop api calls batch made waited (seq made (S n)))
          = "ERROR_TIMEOUT: " ++ e
    | Raises e =>
        if is_rate_limit e
        then k = API_MAX_RETRIES - 1 /\
             returned (attempt_loop api calls batch made waited (seq made (S n)))
               = "ERROR_RATE_LIMIT"
        else returned (attempt_loop api calls batch made waited (seq made (S n)))
               = "ERROR_UNEXPECTED: " ++ e
    end.
Proof.
  unfold API_MAX_RETRIES, API_RATE_LIMIT_WAIT_SEC.
  revert made waited. induction n as [|n IH]; intros made waited Hsum.
  - exists made. cbn [seq attempt_loop].
    assert (made = 2) as -> by lia.
    split; [lia|]. split; [intros m Hm; lia|].
    destruct (api (calls + 2) batch) as [t|e|e]; cbn.
    + repeat split; lia.
    + repeat split; lia.
    + destruct (is_rate_limit e); cbn; repeat split; lia.
  - change (seq made (S (S n))) with (made :: seq (S made) (S n)).
    cbn [attempt_loop].
    assert ((made <? API_MAX_RETRIES - 1) = true) as Hlt
      by (apply Nat.ltb_lt; unfold API_MAX_RETRIES; lia).
    destruct (api (calls + made) batch) as [t|e|e] eqn:Hhere.
    + exists made. rewrite Hhere. cbn. repeat split; intros; lia.
    + rewrite Hlt.
      destruct (IH (S made) (waited + 60) ltac:(lia))
        as (k & Hk & Hbefore & Hatt & Hslept & Hout).
      exists k. split; [lia|]. split.
      { intros m Hm. destruct (decide (m = made)) as [->|Hne].
        - by rewrite Hhere.
        - apply Hbefore. lia. }
      split; [exact Hatt|]. split; [|exact Hout].
      unfold API_RATE_LIMIT_WAIT_SEC. rewrite Hslept. nia.
    + destruct (is_rate_limit e) eqn:Hrate.
      * rewrite Hlt.
        destruct (IH (S made) (waited + 60) ltac:(lia))
          as (k & Hk & Hbefore & Hatt & Hslept & Hout).
        exists k. split; [lia|]. split.
        { intros m Hm. destruct (decide (m = made)) as [->|Hne].
          - rewrite Hhere. exact Hrate.
          - apply Hbefore. lia. }
        split; [exact Hatt|]. split; [|exact Hout].
        unfold API_RATE_LIMIT_WAIT_SEC. rewrite Hslept. nia.
      * exists made. rewrite Hhere, Hrate. cbn. repeat split; intros; lia.
Qed.

Lemma adapter_spec (api : Api) (calls : nat) (batch : string) :
  (batch =? "")%string || PyStr.isspace batch = false ->
  exists k,
    k < API_MAX_RETRIES /\
    (forall m, m < k -> retried (api (calls + m) batch) = true) /\
    attempts (translate_text_with_ai api calls batch) = S k /\
    slept (translate_text_with_ai api calls batch) = k * API_RATE_LIMIT_WAIT_SEC /\
    match api (calls + k) batch with
    | Returns t => returned (translate_text_with_ai api calls batch) = PyStr.strip t
    | RaisesNetwork e =>
        k = API_MAX_RETRIES - 1 /\
        returned (translate_text_with_ai api calls batch) = "ERROR_TIMEOUT: " ++ e
    | Raises e =>
        if is_rate_limit e
        then k = API_MAX_RETRIES - 1 /\
             returned (translate_text_with_ai api calls batch) = "ERROR_RATE_LIMIT"
        else returned (translate_text_with_ai api calls batch)
               = "ERROR_UNEXPECTED: " ++ e
    end.
Proof.
  intros Hbatch. unfold translate_text_with_ai. rewrite Hbatch.
  destruct (attempt_loop_spec api calls batch 2 0 0 eq_refl)
    as (k & Hk & Hbefore & Hatt & Hslept & Hout).
  exists k. split; [lia|]. split; [intros m Hm; apply Hbefore; lia|].
  split; [exact Hatt|]. split; [|exact Hout].
  change (seq 0 API_MAX_RETRIES) with (seq 0 3). rewrite Hslept. lia.
Qed.

(** X1.  What the adapter returns is the empty string for a blank batch
    text, the stripped text of the response of one of at most three
    calls, or one of three failure strings: [ERROR_TIMEOUT: ] and
    [ERROR_RATE_LIMIT] only from the third attempt, [ERROR_UNEXPECTED: ]
    from any.  The line after the loop is never reached. *)
Theorem adapter_result_shape (api : Api) (calls : nat) (batch : string) :
  let a := translate_text_with_ai api calls batch in
  ((batch = "" \/ PyStr.isspace batch = true) /\ a = mkAdapterRun "" 0 0) \/
  (exists k t,
     k < API_MAX_RETRIES /\ api (calls + k) batch = Returns t /\
     returned a = PyStr.strip t /\ attempts a = S k) \/
  (exists e,
     api (calls + 2) batch = RaisesNetwork e /\
     returned a = "ERROR_TIMEOUT: " ++ e /\ attempts a = 3) \/
  (exists e,
     api (calls + 2) batch = Raises e /\ is_rate_limit e = true /\
     returned a = "ERROR_RATE_LIMIT" /\ attempts a = 3) \/
  (exists k e,
     k < API_MAX_RETRIES /\ api (calls + k) batch = Raises e /\
     is_rate_limit e = false /\
     returned a = "ERROR_UNEXPECTED: " ++ e /\ attempts a = S k).
Proof.
  intros a. subst a.
  destruct ((batch =? "")%string || PyStr.isspace batch) eqn:Hblank.
  - left. split.
    + apply orb_true_iff in Hblank as [H%String.eqb_eq|H]; auto.
    + unfold translate_text_with_ai. by rewrite Hblank.
  - right.
    destruct (adapter_spec api calls batch Hblank)
      as (k & Hk & _ & Hatt & _ & Hout).
    destruct (api (calls + k) batch) as [t|e|e] eqn:Hhere.
    + left. by exists k, t.
    + right. left. destruct Hout as [-> Hret]. exists e.
      by rewrite Hatt.
    + destruct (is_rate_limit e) eqn:Hrate.
      * right. right. left. destruct Hout as [-> Hret]. exists e.
        by rewrite Hatt.
      * right. right. right. by exists k, e.
Qed.

(** X2.  The adapter sleeps the cooldown once between two attempts and
    never after its last one: the seconds slept are 60 times the attempts
    made less one, at most 120 in all. *)
Theorem adapter_sleeps_between_attempts (api : Api) (calls : nat) (batch : string) :
  let a := translate_text_with_ai api calls batch in
  slept a = (attempts a - 1) * API_RATE_LIMIT_WAIT_SEC /\
  slept a <= (API_MAX_RETRIES - 1) * API_RATE_LIMIT_WAIT_SEC.
Proof.
  intros a. subst a.
  destruct ((batch =? "")%string || PyStr.isspace batch) eqn:Hblank.
  - unfold translate_text_with_ai. rewrite Hblank. cbn. lia.
  - destruct (adapter_spec api calls batch Hblank)
      as (k & Hk & _ & Hatt & Hslept & _).
    rewrite Hatt, Hslept. unfold API_MAX_RETRIES, API_RATE_LIMIT_WAIT_SEC in *.
    lia.
Qed.

(** X3.  Errors that are retried do not show in the result: when the
    attempts before attempt [k] met network or rate-limit errors and
    attempt [k] is answered, the adapter returns the stripped answer,
    having made [k + 1] calls and slept [k] cooldowns. *)
Theorem transient_errors_then_answer (api : Api) (calls k : nat)
    (batch response_text : string) :
  (batch =? "")%string || PyStr.isspace batch = false ->
  k < API_MAX_RETRIES ->
  (forall m, m < k -> retried (api (calls + m) batch) = true) ->
  api (calls + k) batch = Returns response_text ->
  translate_text_with_ai api calls batch
    = mkAdapterRun (PyStr.strip response_text) (S k) (k * API_RATE_LIMIT_WAIT_SEC).
Proof.
  intros Hblank Hk Hbefore Hhere.
  destruct (adapter_spec api calls batch Hblank)
    as (k' & Hk' & Hbefore' & Hatt & Hslept & Hout).
  assert (k' = k) as ->.
  { destruct (Nat.lt_trichotomy k' k) as [Hlt|[->|Hgt]]; [|done|].
    - specialize (Hbefore k' Hlt).
      destruct (api (calls + k') batch) as [t|e|e]; cbn in Hbefore; [done| |].
      + destruct Hout as [-> _]. unfold API_MAX_RETRIES in *. lia.
      + rewrite Hbefore in Hout. destruct Hout as [-> _].
        unfold API_MAX_RETRIES in *. lia.
    - specialize (Hbefore' k Hgt). by rewrite Hhere in Hbefore'. }
  rewrite Hhere in Hout.
  destruct (translate_text_with_ai api calls batch) as [ret att sl].
  cbn in *. by subst.
Qed.

Lemma transient_errors_then_answer_witness :
  translate_text_with_ai
    (fun n batch => if n <? 2 then RaisesNetwork "reset" else Returns (" " ++ batch))
    0 "<string>Hi</string>"
  = mkAdapterRun "<string>Hi</string>" 3 120.
Proof.
  apply (transient_errors_then_answer
           (fun n batch => if n <? 2 then RaisesNetwork "reset"
                           else Returns (" " ++ batch))
           0 2 "<string>Hi</string>" " <string>Hi</string>").
  - reflexivity.
  - unfold API_MAX_RETRIES. lia.
  - intros [|[|m]] Hm; [reflexivity | reflexivity | lia].
  - reflexivity.
Defined.

(** X4.  When all three attempts meet errors that are retried, the
    adapter gives up after the third without a third sleep, and the
    failure it reports is of the kind of the last error alone:
    [ERROR_TIMEOUT: ] with its text for a network error, else
    [ERROR_RATE_LIMIT]. *)
Theorem retries_exhausted_reports_last_error (api : Api) (calls : nat)
    (batch : string) :
  (batch =? "")%string || PyStr.isspace batch = false ->
  (forall m, m < API_MAX_RETRIES -> retried (api (calls + m) batch) = true) ->
  translate_text_with_ai api calls batch
    = mkAdapterRun
        match api (calls + 2) batch with
        | RaisesNetwork e => "ERROR_TIMEOUT: " ++ e
        | _ => "ERROR_RATE_LIMIT"
        end
        3 (2 * API_RATE_LIMIT_WAIT_SEC).
Proof.
  intros Hblank Hall.
  destruct (adapter_spec api calls batch Hblank)
    as (k & Hk & _ & Hatt & Hslept & Hout).
  specialize (Hall k Hk).
  assert (k = 2) as ->.
  { destruct (api (calls + k) batch) as [t|e|e]; cbn in Hall; [done| |].
    - by destruct Hout as [-> _].
    - rewrite Hall in Hout. by destruct Hout as [-> _]. }
  destruct (translate_text_with_ai api calls batch) as [ret att sl].
  cbn in *. subst att sl. f_equal.
  destruct (api (calls + 2) batch) as [t|e|e]; cbn in Hall; [done| |].
  - by destruct Hout as [_ ->].
  - rewrite Hall in Hout. by destruct Hout as [_ ->].
Qed.

Lemma retries_exhausted_reports_last_error_witness :
  translate_text_with_ai Samples.down_then_quota 0 "<string>Hi</string>"
  = mkAdapterRun "ERROR_RATE_LIMIT" 3 120.
Proof.
  apply (retries_exhausted_reports_last_error Samples.down_then_quota 0
           "<string>Hi</string>").
  - reflexivity.
  - intros [|[|[|m]]] Hm; reflexivity.
Defined.

(** * Further properties of the batch loop *)

Lemma fmap_alter_same {A B} (f : A -> B) (g : A -> A) (i : nat) (l : list A) :
  (forall x, f (g x) = f x) -> f <$> alter g i l = f <$> l.
Proof.
  intros Hfg. revert i. induction l as [|x l IH]; intros [|i]; cbn; [done..| |].
  - by rewrite Hfg.
  - f_equal. apply IH.
Qed.

Lemma slept_bounded (api : Api) (calls : nat) (batch : string) :
  slept (translate_text_with_ai api calls batch)
  <= (API_MAX_RETRIES - 1) * API_RATE_LIMIT_WAIT_SEC.
Proof.
  destruct ((batch =? "")%string || PyStr.isspace batch) eqn:Hblank.
  - unfold translate_text_with_ai. rewrite Hblank. cbn. lia.
  - destruct (adapter_spec api calls batch Hblank) as (k & Hk & _ & _ & -> & _).
    unfold API_MAX_RETRIES, API_RATE_LIMIT_WAIT_SEC in *. lia.
Qed.

Section LoopFacts.
Context `{ET : ElementTree}.

Lemma update_tag_frame (frag : string) (e : Element) :
  frame (update_tag frag e) = frame e.
Proof. unfold update_tag. by destruct (fromstring _). Qed.

Lemma update_zipped_frame (root : list Element) (pairs : list (nat * string)) :
  frame <$> update_zipped root pairs = frame <$> root.
Proof.
  revert root. induction pairs as [|p pairs IH]; intros root; [done|].
  unfold update_zipped in *. cbn [foldl]. rewrite IH.
  apply fmap_alter_same, update_tag_frame.
Qed.

Lemma batch_loop_frame_kept (api : Api) (strs : list nat) (snips : list string)
    (total : nat) (starts : list nat) (r : Run) :
  frame <$> run_root (batch_loop api strs snips total starts r).1
  = frame <$> run_root r.
Proof.
  revert r. induction starts as [|i starts IH]; intros r; [done|].
  cbn [batch_loop]. destruct (PyStr.contains _ _); [done|].
  destruct (_update_tags_from_response _ _ _) as [[|] root'] eqn:Hup; [|done].
  rewrite IH. cbn [run_root] in *.
  apply update_response_true in Hup as [_ ->]. apply update_zipped_frame.
Qed.

(** X5.  Whatever the remote side answers and however the run ends, the
    tree keeps its records: as many, in the same order, each with the tag,
    the attributes, the tail and the children it had.  A run assigns to
    [text] and to nothing else. *)
Theorem run_changes_text_only (api : Api) (calls : nat) (xml_root : list Element) :
  let r := (translate_run api calls xml_root).1 in
  length (run_root r) = length xml_root /\
  tag <$> run_root r = tag <$> xml_root /\
  attrib <$> run_root r = attrib <$> xml_root /\
  tail <$> run_root r = tail <$> xml_root /\
  children <$> run_root r = children <$> xml_root.
Proof.
  intros r.
  assert (frame <$> run_root r = frame <$> xml_root) as Hframe.
  { subst r. unfold translate_run.
    destruct (_get_translatable_strings xml_root); [done|].
    apply batch_loop_frame_kept. }
  split; [|split; [|split; [|split]]].
  - rewrite <- (length_fmap frame (run_root r)), Hframe. apply length_fmap.
  - apply (f_equal (fmap (fun p => p.1.1.1))) in Hframe.
    by rewrite <- !list_fmap_compose in Hframe.
  - apply (f_equal (fmap (fun p => p.1.1.2))) in Hframe.
    by rewrite <- !list_fmap_compose in Hframe.
  - apply (f_equal (fmap (fun p => p.1.2))) in Hframe.
    by rewrite <- !list_fmap_compose in Hframe.
  - apply (f_equal (fmap (fun p => p.2))) in Hframe.
    by rewrite <- !list_fmap_compose in Hframe.
Qed.

Lemma batch_loop_trace (api : Api) (strs : list nat) (snips : list string)
    (total : nat) (starts : list nat) (r r' : Run) (e : Ending) :
  batch_loop api strs snips total starts r = (r', e) ->
  exists n,
    n <= length starts /\
    run_sent r' = (run_sent r ++ map (payload snips) (take n starts))%list /\
    run_calls r <= run_calls r' <= run_calls r + API_MAX_RETRIES * n /\
    run_slept r' <= run_slept r + (API_MAX_RETRIES - 1) * API_RATE_LIMIT_WAIT_SEC * n /\
    (e = Completed ->
     n = length starts /\
     translated_count r'
       = translated_count r + length (concat (map (batch_slice strs) starts))).
Proof.
  revert r. induction starts as [|i starts IH]; intros r Hrun.
  - injection Hrun as <- <-. exists 0. cbn. rewrite app_nil_r.
    repeat split; lia.
  - cbn [batch_loop] in Hrun.
    pose proof (attempts_bounded api (run_calls r) (payload snips i)) as Hatt.
    pose proof (slept_bounded api (run_calls r) (payload snips i)) as Hsl.
    fold (payload snips i) in Hrun.
    destruct (PyStr.contains _ _).
    { injection Hrun as <- <-. exists 1.
      cbn [run_sent run_calls run_slept map length take].
      repeat split; try lia; try done. }
    destruct (_update_tags_from_response _ _ _) as [[|] root'].
    2:{ injection Hrun as <- <-. exists 1.
        cbn [run_sent run_calls run_slept map length take].
        repeat split; try lia; try done. }
    apply IH in Hrun as (n & Hn & Hsent & Hcalls & Hslept & Hdone).
    cbn [run_sent run_calls run_slept translated_count] in *.
    exists (S n). cbn [length take map concat].
    split; [lia|]. split.
    { rewrite Hsent, <- app_assoc. done. }
    split; [lia|]. split; [lia|].
    intros He. destruct (Hdone He) as [-> ->]. rewrite length_app.
    split; lia.
Qed.

Lemma translate_run_cases (api : Api) (calls : nat) (xml_root : list Element) :
  (_get_translatable_strings xml_root = [] /\
   translate_run api calls xml_root = (mkRun xml_root calls 0 [] 0 [], NoStrings)) \/
  (_get_translatable_strings xml_root <> [] /\
   translate_run api calls xml_root
   = batch_loop api (_get_translatable_strings xml_root)
       (all_xml_snippets xml_root (_get_translatable_strings xml_root))
       (length (_get_translatable_strings xml_root))
       (range_step (length (_get_translatable_strings xml_root)) BATCH_SIZE)
       (start_run xml_root calls (length (_get_translatable_strings xml_root)))).
Proof.
  unfold translate_run.
  destruct (_get_translatable_strings xml_root); [by left | by right].
Qed.

(** X6.  The batch texts are given to the adapter in the order of the
    batches, one after the other with none left out, up to the batch at
    which the run stops; a run that ends by completing has sent every
    batch and has counted every translatable record. *)
Theorem batches_sent_in_order (api : Api) (calls : nat) (xml_root : list Element) :
  let strs := _get_translatable_strings xml_root in
  let payloads :=
    map (fun i => PyStr.join XML_SEPARATOR
                    (batch_slice (all_xml_snippets xml_root strs) i))
      (range_step (length strs) BATCH_SIZE) in
  let run := translate_run api calls xml_root in
  run_sent run.1 `prefix_of` payloads /\
  (run.2 = Completed ->
   run_sent run.1 = payloads /\ translated_count run.1 = length strs).
Proof.
  intros strs payloads run. subst run.
  destruct (translate_run_cases api calls xml_root) as [[Hnone ->]|[Hsome ->]].
  { cbn. split; [by exists payloads | done]. }
  fold strs.
  destruct (batch_loop _ _ _ _ _ _) as [r e] eqn:Hrun.
  apply batch_loop_trace in Hrun as (n & Hn & Hsent & _ & _ & Hdone).
  cbn [fst snd run_sent start_run app] in *. split.
  - rewrite Hsent.
    exists (map (payload (all_xml_snippets xml_root strs))
              (drop n (range_step (length strs) BATCH_SIZE))).
    rewrite <- map_app, take_drop. reflexivity.
  - intros He. destruct (Hdone He) as [-> Hcount]. split.
    + rewrite Hsent, take_ge; [done | lia].
    + rewrite Hcount. cbn [translated_count start_run].
      by rewrite concat_batches.
Qed.

(** X7.  A run spends at most three calls of the remote model and at
    most two cooldowns on each batch it sends, and sends at most one text
    for every hundred translatable records or part of a hundred. *)
Theorem run_call_budget (api : Api) (calls : nat) (xml_root : list Element) :
  let r := (translate_run api calls xml_root).1 in
  run_calls r <= calls + API_MAX_RETRIES * length (run_sent r) /\
  run_slept r
    <= (API_MAX_RETRIES - 1) * API_RATE_LIMIT_WAIT_SEC * length (run_sent r) /\
  length (run_sent r)
    <= (length (_get_translatable_strings xml_root) + BATCH_SIZE - 1) / BATCH_SIZE.
Proof.
  intros r. subst r.
  destruct (translate_run_cases api calls xml_root) as [[Hnone ->]|[Hsome ->]].
  { cbn. lia. }
  destruct (batch_loop _ _ _ _ _ _) as [r e] eqn:Hrun.
  apply batch_loop_trace in Hrun as (n & Hn & Hsent & Hcalls & Hslept & _).
  cbn [fst run_sent run_calls run_slept start_run app] in *.
  rewrite Hsent, length_map, length_take.
  unfold range_step in *. rewrite length_map, length_seq in *.
  rewrite Nat.min_l by lia.
  unfold API_MAX_RETRIES, API_RATE_LIMIT_WAIT_SEC in *.
  repeat split; lia.
Qed.

End LoopFacts.

(** * Further properties of the response handling *)

Lemma contains_app_l (pat x y : string) :
  PyStr.contains pat x = true -> PyStr.contains pat (x ++ y) = true.
Proof.
  induction x as [|c x IH].
  - cbn. intros H. rewrite orb_false_r in H.
    destruct pat; [|done]. by destruct y.
  - change (String c x ++ y) with (String c (x ++ y)).
    cbn [PyStr.contains]. intros [H|H]%orb_true_iff.
    + change (String c (x ++ y)) with (String c x ++ y).
      by rewrite (prefix_app_true _ _ _ H).
    + rewrite (IH H). apply orb_true_r.
Qed.

Lemma contains_app_r (pat x y : string) :
  PyStr.contains pat y = true -> PyStr.contains pat (x ++ y) = true.
Proof.
  intros H. induction x as [|c x IH]; [done|].
  change (String c x ++ y) with (String c (x ++ y)).
  cbn [PyStr.contains]. rewrite IH. apply orb_true_r.
Qed.

Lemma contains_middle (pat x y : string) :
  PyStr.contains pat (x ++ pat ++ y) = true.
Proof. apply contains_app_r, contains_prefix. Qed.

(** X8.  The test of [_get_translatable_strings] looks for a percent
    sign and for a letter [s] or [d] anywhere in the text, in either
    order and however far apart: every text that holds both is left out,
    whether or not the two form a placeholder. *)
Theorem percent_and_letter_anywhere (x y z : string) :
  keeps (Some (x ++ "%" ++ y ++ "s" ++ z)) = false /\
  keeps (Some (x ++ "%" ++ y ++ "d" ++ z)) = false /\
  keeps (Some (x ++ "s" ++ y ++ "%" ++ z)) = false /\
  keeps (Some (x ++ "d" ++ y ++ "%" ++ z)) = false.
Proof.
  assert (forall l, PyStr.contains "%" (x ++ "%" ++ y ++ l ++ z) = true) as Hp1
    by (intros l; apply contains_middle).
  assert (forall l, PyStr.contains l (x ++ "%" ++ y ++ l ++ z) = true) as Hl1
    by (intros l; apply contains_app_r, contains_app_r, contains_middle).
  assert (forall l, PyStr.contains l (x ++ l ++ y ++ "%" ++ z) = true) as Hl2
    by (intros l; apply contains_middle).
  assert (forall l, PyStr.contains "%" (x ++ l ++ y ++ "%" ++ z) = true) as Hp2
    by (intros l; apply contains_app_r, contains_app_r, contains_middle).
  unfold keeps.
  rewrite (Hp1 "s"), (Hp1 "d"), (Hl1 "s"), (Hl1 "d"),
    (Hp2 "s"), (Hp2 "d"), (Hl2 "s"), (Hl2 "d").
  cbn [andb orb negb]. rewrite !orb_true_r, !andb_false_r. done.
Qed.

Section BlankAnswer.
Context `{ET : ElementTree}.

(** X9.  An answer with nothing in it splits into one empty fragment.
    For a batch of one record that is no mismatch: the record's text is
    replaced by the failure prefix and its prior text, and the loop goes
    on.  For a batch of any other size the answer is refused and the tree
    is left alone. *)
Theorem empty_answer_marks_single_record (root : list Element)
    (original_tags : list nat) :
  fromstring "" = None ->
  match original_tags with
  | [idx] =>
      exists root',
        _update_tags_from_response root original_tags "" = (true, root') /\
        root' !! idx
          = (fun t => set_text t
                        (Some ("TRANSLATION_ERROR: " ++ PyStr.str_of_opt (text t))))
            <$> root !! idx /\
        forall j, j <> idx -> root' !! j = root !! j
  | _ => _update_tags_from_response root original_tags "" = (false, root)
  end.
Proof.
  intros Hparse.
  destruct original_tags as [|idx [|idx' tags]]; [done| |done].
  exists (alter (update_tag "") idx root). split; [reflexivity|]. split.
  - rewrite list_lookup_alter_eq. destruct (root !! idx) as [t|]; [|done].
    cbn [fmap option_fmap option_map]. unfold update_tag.
    change (PyStr.strip "") with "". by rewrite Hparse.
  - intros j Hj. by rewrite list_lookup_alter_ne.
Qed.

End BlankAnswer.

Section BlankAnswerOnSample.
#[local] Existing Instance FlatXml.flat.

Lemma empty_answer_marks_single_record_witness :
  exists root',
    _update_tags_from_response Samples.table2 [1] "" = (true, root') /\
    root' !! 1
      = (fun t => set_text t
                    (Some ("TRANSLATION_ERROR: " ++ PyStr.str_of_opt (text t))))
        <$> Samples.table2 !! 1 /\
    forall j, j <> 1 -> root' !! j = Samples.table2 !! j.
Proof.
  apply (empty_answer_marks_single_record Samples.table2 [1]). reflexivity.
Defined.

End BlankAnswerOnSample.

Section NothingToTranslate.
Context `{ET : ElementTree}.

(** X10.  When no record of the tree passes the test, the translate
    stage calls the remote model not once, leaves the tree and the state
    as they are and enables its button again: the machine stays short of
    [TRANSLATION_COMPLETE], and so does every later click on the button. *)
Theorem nothing_to_translate_never_completes (w : World) (app : App)
    (root : list Element) :
  xml_root app = Some root ->
  _get_translatable_strings root = [] ->
  credentials_ok w = true ->
  let app' := run_step4_translate w app in
  current_state app' = current_state app /\
  xml_root app' = Some root /\
  calls_made app' = calls_made app /\
  effects app' = effects app /\
  btn app' step4a_btn = NORMAL /\
  (forall b, b <> step4a_btn -> btn app' b = btn app b).
Proof.
  intros Hroot Hnone Hcred app'. subst app'.
  unfold run_step4_translate, _worker_translate. rewrite Hroot, Hcred.
  cbn [negb]. unfold translate_run. rewrite Hnone. cbn.
  repeat split; try done.
  intros b Hb. unfold config.
  by repeat (destruct (decide _); try done).
Qed.

End NothingToTranslate.

Section NothingToTranslateOnSample.
#[local] Existing Instance FlatXml.flat.

Lemma nothing_to_translate_never_completes_witness :
  let app := MoreSamples.extracted_placeholders in
  let app' := run_step4_translate Samples.good_world app in
  current_state app = Some STRINGS_EXTRACTED /\
  current_state app' = current_state app /\
  xml_root app' = Some MoreSamples.placeholders_only /\
  calls_made app' = calls_made app /\
  effects app' = effects app /\
  btn app' step4a_btn = NORMAL /\
  (forall b, b <> step4a_btn -> btn app' b = btn app b).
Proof.
  intros app app'. split; [reflexivity|].
  apply (nothing_to_translate_never_completes Samples.good_world app
           MoreSamples.placeholders_only); reflexivity.
Defined.

End NothingToTranslateOnSample.

(** * Further properties of splitting *)

Lemma split_go_nonempty (sep : string) (skip : nat) (s : string) :
  PyStr.split_go sep skip s <> [].
Proof.
  revert skip. induction s as [|a s IH]; intros skip; [done|].
  cbn [PyStr.split_go]. destruct skip; [|apply IH].
  destruct (String.prefix sep (String a s)); [done|].
  by destruct (PyStr.split_go sep 0 s).
Qed.

Lemma prefix_true_app (p s : string) :
  String.prefix p s = true -> exists r, s = p ++ r.
Proof.
  revert s. induction p as [|c p IH]; intros s H.
  - by exists s.
  - destruct s as [|a s]; [done|]. cbn in H.
    destruct (ascii_dec c a) as [->|]; [|done].
    destruct (IH s H) as [r ->]. by exists r.
Qed.

Lemma join_cons_char (sep : string) (a : ascii) (piece : string)
    (pieces : list string) :
  PyStr.join sep (String a piece :: pieces)
  = String a (PyStr.join sep (piece :: pieces)).
Proof. by destruct pieces. Qed.

Lemma join_empty_head (sep : string) (pieces : list string) :
  pieces <> [] -> PyStr.join sep ("" :: pieces) = sep ++ PyStr.join sep pieces.
Proof. by destruct pieces. Qed.

Lemma join_split_go (c : ascii) (sep' : string) (n : nat) :
  forall s, String.length s < n ->
    PyStr.join (String c sep') (PyStr.split_go (String c sep') 0 s) = s.
Proof.
  induction n as [|n IH]; intros s Hlen; [lia|].
  destruct s as [|a s]; [done|].
  cbn [PyStr.split_go].
  destruct (String.prefix (String c sep') (String a s)) eqn:Hp.
  - destruct (prefix_true_app _ _ Hp) as [r Hr].
    change (String c sep' ++ r) with (String c (sep' ++ r)) in Hr.
    injection Hr as -> ->.
    replace (String.length (String c sep') - 1) with (String.length sep')
      by (cbn [String.length]; lia).
    rewrite split_go_skip, join_empty_head by apply split_go_nonempty.
    rewrite IH; [done|].
    cbn [String.length] in Hlen. rewrite string_length_app in Hlen. lia.
  - pose proof (split_go_nonempty (String c sep') 0 s) as Hne.
    specialize (IH s ltac:(cbn [String.length] in Hlen; lia)).
    destruct (PyStr.split_go (String c sep') 0 s) as [|piece pieces]; [done|].
    by rewrite join_cons_char, IH.
Qed.

(** X11.  Splitting loses nothing: for a separator of at least one
    character, joining the pieces of a text with the separator gives the
    text back.  So the fragments [_update_tags_from_response] counts,
    joined with [XML_SEPARATOR], are the response it was given. *)
Theorem split_then_join_gives_text (c : ascii) (sep' s : string) :
  PyStr.join (String c sep') (PyStr.split (String c sep') s) = s /\
  PyStr.join XML_SEPARATOR (PyStr.split XML_SEPARATOR s) = s.
Proof.
  split.
  - apply (join_split_go c sep' (S (String.length s))). lia.
  - apply (join_split_go (ascii_of_nat 10) ("---" ++ LF) (S (String.length s))).
    lia.
Qed.

Lemma split_no_separator (sep s : string) :
  PyStr.contains sep s = false -> PyStr.split sep s = [s].
Proof.
  unfold PyStr.split. induction s as [|a s IH]; intros H; [done|].
  cbn [PyStr.contains] in H. apply orb_false_elim in H as [Hp Hc].
  cbn [PyStr.split_go]. rewrite Hp. by rewrite (IH Hc).
Qed.

Lemma split_slash_last (x name : string) :
  PyStr.contains "/" name = false ->
  exists pieces,
    pieces <> [] /\
    PyStr.split "/" (x ++ "/" ++ name) = (pieces ++ [name])%list.
Proof.
  intros Hname%(split_no_separator "/"). unfold PyStr.split in *.
  induction x as [|a x IH].
  - exists [""]. split; [done|].
    change ("" ++ "/" ++ name) with ("/" ++ name).
    rewrite split_go_at_separator. by rewrite Hname.
  - destruct IH as (pieces & Hne & IH).
    change (String a x ++ "/" ++ name) with (String a (x ++ "/" ++ name)).
    cbn [PyStr.split_go]. rewrite IH.
    destruct (String.prefix "/" (String a (x ++ "/" ++ name))).
    + exists ("" :: pieces). split; [done|].
      cbn [String.length Nat.sub]. by rewrite IH.
    + destruct pieces as [|p ps]; [done|].
      by exists (String a p :: ps).
Qed.

(** X12.  The label of a model in the menu is what follows the last
    slash of its name: a name with no slash is its own label, and a name
    that ends in a slash and a part with no slash has that part as its
    label. *)
Theorem friendly_name_follows_last_slash (name : string) :
  PyStr.contains "/" name = false ->
  friendly_name name = name /\
  forall x, friendly_name (x ++ "/" ++ name) = name.
Proof.
  intros Hname. unfold friendly_name. split.
  - by rewrite (split_no_separator "/" name Hname).
  - intros x. destruct (split_slash_last x name Hname) as (pieces & _ & ->).
    apply last_last.
Qed.

Lemma friendly_name_follows_last_slash_witness :
  friendly_name "gemini-pro" = "gemini-pro" /\
  forall x, friendly_name (x ++ "/" ++ "gemini-pro") = "gemini-pro".
Proof. apply friendly_name_follows_last_slash. reflexivity. Defined.

(** * Properties of the model list *)

Lemma selected_model_in_models (saved : option string) (models : list string) :
  models <> [] ->
  selected_model (update_model_dropdown saved models) ∈ models /\
  menu_values (update_model_dropdown saved models) = models.
Proof.
  intros Hne. unfold update_model_dropdown.
  destruct models as [|first rest]; [done|].
  cbn [head default selected_model menu_values]. split; [|done].
  destruct saved as [p|]; cbn [default]; case_bool_decide; try done; by left.
Qed.

(** X13.  When at least one model is offered, the model selected is one
    of those offered: the saved one when it is among them, the first one
    otherwise; and the menu has one label for each model. *)
Theorem selected_model_is_offered (saved : option string) (models : list string) :
  models <> [] ->
  let d := update_model_dropdown saved models in
  selected_model d ∈ models /\
  (forall p, saved = Some p -> p ∈ models -> selected_model d = p) /\
  (forall p, saved = Some p -> p ∉ models -> head models = Some (selected_model d)) /\
  (saved = None -> head models = Some (selected_model d)) /\
  length (menu_labels d) = length models /\
  menu_values d = models.
Proof.
  intros Hne d. subst d. unfold update_model_dropdown.
  destruct models as [|first rest]; [done|]. cbn [head default selected_model
    menu_labels menu_values].
  split; [|split; [|split; [|split; [|split]]]].
  - destruct saved as [p|]; cbn [default]; case_bool_decide; try done; by left.
  - intros p -> Hp. cbn [default]. by rewrite bool_decide_eq_true_2.
  - intros p -> Hp. cbn [default]. by rewrite bool_decide_eq_false_2.
  - intros ->. cbn [default]. rewrite bool_decide_eq_true_2; [done | by left].
  - by rewrite length_map.
  - done.
Qed.

Lemma selected_model_is_offered_witness :
  let d := update_model_dropdown (Some "models/gemini-pro")
             ["models/gemini-flash"; "models/gemini-pro"] in
  selected_model d = "models/gemini-pro" /\
  menu_labels d = ["gemini-flash"; "gemini-pro"].
Proof.
  intros d. split; [|reflexivity].
  assert (["models/gemini-flash"; "models/gemini-pro"] <> []) as Hne by done.
  destruct (selected_model_is_offered (Some "models/gemini-pro") _ Hne)
    as (_ & Hsaved & _).
  apply Hsaved; [reflexivity|]. right. left.
Defined.

(** X14.  After [fetch_models] the menu is as it was when the listing
    failed or listed no model that supports [generateContent]; otherwise
    the model selected is one the remote side listed with
    [generateContent] among its methods, and so is every value of the
    menu. *)
Theorem fetch_selects_supported_model
    (listing : option (list (string * list string)))
    (saved : option string) (shown : Dropdown) :
  let d := fetch_models listing saved shown in
  let supported (name : string) :=
    exists listed methods,
      listing = Some listed /\ (name, methods) ∈ listed /\
      "generateContent" ∈ methods in
  (d = shown /\ forall name, ~ supported name) \/
  (supported (selected_model d) /\
   forall name, name ∈ menu_values d <-> supported name).
Proof.
  intros d supported. subst d. unfold fetch_models.
  destruct listing as [listed|].
  2:{ left. split; [done|]. by intros name (? & ? & ? & _). }
  set (models := map fst (List.filter _ listed)).
  assert (forall name, name ∈ models <-> supported name) as Hmodels.
  { intros name. subst models supported. cbn beta.
    rewrite list_elem_of_fmap. split.
    - intros ([n methods] & -> & Hin).
      apply elem_of_List_filter in Hin as [Hin Hm].
      apply bool_decide_eq_true in Hm. by exists listed, methods.
    - intros (listed' & methods & [= <-] & Hin & Hm).
      exists (name, methods). split; [done|].
      apply elem_of_List_filter. split; [done|].
      by apply bool_decide_eq_true. }
  destruct models as [|first rest] eqn:E.
  - left. split; [done|]. intros name Hs.
    apply Hmodels in Hs. by apply elem_of_nil in Hs.
  - right. rewrite <- E in *.
    assert (models <> []) as Hne by (by rewrite E).
    destruct (selected_model_in_models saved models Hne) as [Hsel Hvals].
    rewrite Hvals. split; [by apply Hmodels | exact Hmodels].
Qed.

(** * Further properties of the gate and of sessions *)

Lemma permitting_listed (b : Button) (s : AppState) :
  b <> step1_btn ->
  permitting_state (command b) = Some s ->
  bool_decide (b ∈ state_map s) = true.
Proof. destruct s, b; vm_compute; congruence. Qed.

Lemma update_ui_with_btn (app : App) :
  _update_ui_for_state app = with_btn app (btn (_update_ui_for_state app)).
Proof.
  unfold _update_ui_for_state.
  by destruct (expert_mode app), (current_state app).
Qed.

Lemma set_state_state (app : App) (s : AppState) :
  current_state (set_state app s) = Some s.
Proof. unfold set_state. by rewrite (proj1 (update_ui_keeps _)). Qed.

(** X15.  With the expert mode off, after [_update_ui_for_state] a
    button other than the first is enabled exactly when the machine is in
    the state that permits the button's stage; so the buttons enabled at
    one time all start the same stage.  The first button is left as it
    was. *)
Theorem enabled_buttons_are_the_permitted (app : App) (b : Button) :
  expert_mode app = false ->
  b <> step1_btn ->
  (btn (_update_ui_for_state app) b = NORMAL <->
   current_state app = permitting_state (command b)) /\
  (forall b', b' <> step1_btn ->
     btn (_update_ui_for_state app) b = NORMAL ->
     btn (_update_ui_for_state app) b' = NORMAL ->
     command b' = command b) /\
  btn (_update_ui_for_state app) step1_btn = btn app step1_btn.
Proof.
  intros Hexpert Hb.
  assert (forall c, c <> step1_btn ->
            btn (_update_ui_for_state app) c = NORMAL <->
            current_state app = permitting_state (command c)) as Hiff.
  { intros c Hc. rewrite update_ui_btn.
    destruct (decide (c = step1_btn)); [done|].
    unfold gated_on. rewrite Hexpert. cbn [orb].
    destruct (current_state app) as [s|].
    - split.
      + destruct (bool_decide (c ∈ state_map s)) eqn:E; [|done].
        intros _. symmetry. by apply listed_permitting.
      + intros Hs. symmetry in Hs.
        by rewrite (permitting_listed c s Hc Hs).
    - split; [done|]. by destruct c. }
  split; [by apply Hiff|]. split.
  - intros b' Hb' Hon Hon'.
    apply Hiff in Hon; [|done]. apply Hiff in Hon'; [|done].
    rewrite Hon in Hon'. by destruct b, b'.
  - rewrite update_ui_btn. by destruct (decide (step1_btn = step1_btn)).
Qed.

Lemma enabled_buttons_are_the_permitted_witness :
  let app := mkApp (Some SAVED) false false (fun _ => NORMAL) true
               None None None None None 0 [] in
  (btn (_update_ui_for_state app) step6_btn = NORMAL <->
   current_state app = permitting_state (command step6_btn)) /\
  btn (_update_ui_for_state app) step6_btn = NORMAL /\
  btn (_update_ui_for_state app) step5_btn = DISABLED.
Proof.
  intros app.
  destruct (enabled_buttons_are_the_permitted app step6_btn eq_refl
              ltac:(discriminate)) as (Hiff & _ & _).
  split; [exact Hiff|]. split; [by apply Hiff | reflexivity].
Defined.

(** X16.  Turning the expert mode on enables every workflow button;
    turning it off again leaves the state as it was and enables, of the
    buttons other than the first, exactly those of the stage the state
    permits. *)
Theorem expert_mode_on_and_off (app : App) (b : Button) :
  expert_mode app = false ->
  b <> step1_btn ->
  btn (toggle_expert_mode app) b = NORMAL /\
  expert_mode (toggle_expert_mode (toggle_expert_mode app)) = false /\
  current_state (toggle_expert_mode (toggle_expert_mode app)) = current_state app /\
  (btn (toggle_expert_mode (toggle_expert_mode app)) b = NORMAL <->
   current_state app = permitting_state (command b)).
Proof.
  intros Hexpert Hb.
  destruct app as [st ex ov f deps p1 p2 p3 p4 root calls eff].
  cbn in Hexpert. subst ex.
  destruct st as [[]|], b; try done; vm_compute; repeat split; congruence.
Qed.

Lemma expert_mode_on_and_off_witness :
  btn (toggle_expert_mode Samples.extracted) step7_btn = NORMAL /\
  (btn (toggle_expert_mode (toggle_expert_mode Samples.extracted)) step4a_btn
     = NORMAL <->
   current_state Samples.extracted = permitting_state (command step4a_btn)).
Proof.
  split.
  - apply (expert_mode_on_and_off Samples.extracted step7_btn); [reflexivity|done].
  - apply (expert_mode_on_and_off Samples.extracted step4a_btn); [reflexivity|done].
Defined.

(** Take every branch of the stage in the goal, without unfolding what
    the branches call. *)
Ltac stage_cases :=
  repeat (cbv beta iota;
          match goal with
          | |- context [if ?c then _ else _] => destruct c eqn:?
          | |- context [match ?c with _ => _ end] => destruct c eqn:?
          end);
  cbv beta iota.

Section SessionFacts.
Context `{ET : ElementTree}.

Lemma select_state_step (w : World) (app : App) :
  current_state (run_step1_select_apk w app) = current_state app \/
  current_state (run_step1_select_apk w app) = Some APK_SELECTED.
Proof.
  unfold run_step1_select_apk. stage_cases; rewrite ?set_state_state; auto.
Qed.

Lemma stage_state_step (st : Stage) (w : World) (app : App) :
  st <> Select ->
  current_state (run_stage st w app) = current_state app \/
  exists s, permitting_state st = Some s /\
            current_state (run_stage st w app) = Some (next_state s).
Proof.
  intros Hst. destruct st; [done|..]; cbn [run_stage];
    unfold run_step2_decompile, _worker_decompile, run_step3_extract_strings,
      _worker_extract_strings, run_step4_translate, _worker_translate,
      run_step5_save_translated, _worker_save_translated,
      run_step6_recompile, _worker_recompile, run_step7_sign, _worker_sign;
    stage_cases;
    rewrite ?set_state_state, ?(proj1 (update_ui_keeps _));
    first [ left; reflexivity
          | right; eexists; split; reflexivity ].
Qed.

(** X17.  When the user waits for each stage to end before the next
    event, the states are visited in their order only.  In a session of
    that kind with the expert mode off, a click, the worker it starts and
    the callback the worker hands over leave nothing waiting, and leave
    the state as it is, or move it to the next state ([INITIAL] again
    after [RECOMPILED]), or, on the first button, set it to
    [APK_SELECTED]. *)
Theorem states_advance_in_order (app : App) (b : Button) (w : World)
    (s : AppState) :
  Reachable app ->
  expert_mode app = false ->
  current_state app = Some s ->
  let after := click_and_wait b w (quiet app) in
  threads after = [] /\ callbacks after = [] /\
  (current_state (session_app after) = Some s \/
   current_state (session_app after) = Some (next_state s) \/
   (b = step1_btn /\ current_state (session_app after) = Some APK_SELECTED)).
Proof.
  intros Hreach Hexpert Hs after. subst after.
  unfold click_and_wait. rewrite main_loop_work_press.
  cbn [quiet threads callbacks session_app].
  split; [done|]. split; [done|]. unfold click.
  destruct (btn app b) eqn:Hon; [|by left].
  destruct (decide (b = step1_btn)) as [->|Hb].
  - cbn [command run_stage].
    destruct (select_state_step w app) as [H|H]; rewrite H; auto.
  - pose proof (reachable_gate_ok app Hreach b Hb Hon) as Hg.
    unfold gated_on in Hg. rewrite Hexpert, Hs in Hg. cbn [orb] in Hg.
    apply listed_permitting in Hg.
    destruct (stage_state_step (command b) w app) as [H|(s' & Hp & H)].
    + intros Hsel. by rewrite Hsel in Hg.
    + left. by rewrite H.
    + right. left. rewrite H. congruence.
Qed.

End SessionFacts.

Section OrderOnSample.
#[local] Existing Instance FlatXml.flat.

Lemma states_advance_in_order_witness :
  let after :=
    click_and_wait step4a_btn Samples.good_world (quiet Samples.extracted) in
  threads after = [] /\ callbacks after = [] /\
  (current_state (session_app after) = Some STRINGS_EXTRACTED \/
   current_state (session_app after) = Some (next_state STRINGS_EXTRACTED) \/
   (step4a_btn = step1_btn /\
    current_state (session_app after) = Some APK_SELECTED)).
Proof.
  apply states_advance_in_order.
  - apply sample_sessions_reachable.
  - reflexivity.
  - reflexivity.
Defined.

(** Without the wait the order can be broken: a file selected while the
    translate worker runs sets the machine back to [APK_SELECTED], and
    the callback of the worker then sets [TRANSLATION_COMPLETE] from
    there, over the two states between. *)
Example select_during_translation :
  let s0 := quiet Samples.extracted in
  let s1 := press step4a_btn Samples.good_world s0 in
  let s2 := press step1_btn Samples.good_world s1 in
  let s3 := main_loop (work 0 Samples.good_world s2) in
  Interleaved s3 /\
  expert_mode (session_app s3) = false /\
  map (fun s => current_state (session_app s)) [s0; s1; s2; s3]
    = map Some [STRINGS_EXTRACTED; STRINGS_EXTRACTED; APK_SELECTED;
                TRANSLATION_COMPLETE].
Proof.
  split.
  - apply il_main_loop, il_work, il_press, il_press, reachable_interleaved.
    apply sample_sessions_reachable.
  - vm_compute. split; reflexivity.
Qed.

End OrderOnSample.

Section DataFacts.
Context `{ET : ElementTree}.

Lemma truthy_is_Some (o : option string) : PyStr.truthy o = true -> is_Some o.
Proof. destruct o; [by eexists | done]. Qed.

(** The data a state vouches for is still there after an assignment that
    leaves the state alone and unsets no field. *)
Lemma holds_its_data_mono (app app' : App) :
  holds_its_data app ->
  current_state app' = current_state app ->
  (is_Some (apk_path app) -> is_Some (apk_path app')) ->
  (is_Some (decompiled_dir app) -> is_Some (decompiled_dir app')) ->
  (is_Some (xml_root app) -> is_Some (xml_root app')) ->
  (is_Some (original_strings_xml_path app) ->
   is_Some (original_strings_xml_path app')) ->
  (is_Some (unsigned_apk_path app) -> is_Some (unsigned_apk_path app')) ->
  holds_its_data app'.
Proof.
  unfold holds_its_data. intros H ->.
  destruct (current_state app) as [[]|]; intuition.
Qed.

Lemma holds_its_data_set_state (app : App) (s : AppState) :
  holds_its_data (with_state app s) -> holds_its_data (set_state app s).
Proof.
  unfold set_state. rewrite update_ui_with_btn. done.
Qed.

Lemma holds_its_data_update_ui (app : App) :
  holds_its_data app -> holds_its_data (_update_ui_for_state app).
Proof. rewrite update_ui_with_btn. done. Qed.

Lemma stage_holds_its_data (st : Stage) (w : World) (app : App) :
  holds_its_data app -> holds_its_data (run_stage st w app).
Proof.
  intros H. destruct st; cbn [run_stage];
    unfold run_step1_select_apk, run_step2_decompile, _worker_decompile,
      run_step3_extract_strings, _worker_extract_strings,
      run_step4_translate, _worker_translate,
      run_step5_save_translated, _worker_save_translated,
      run_step6_recompile, _worker_recompile, run_step7_sign, _worker_sign;
    stage_cases;
    repeat match goal with
           | |- holds_its_data (set_state _ _) => apply holds_its_data_set_state
           | |- holds_its_data (_update_ui_for_state _) =>
               apply holds_its_data_update_ui
           end;
    first [ exact H
          | by (apply (holds_its_data_mono app); [exact H | reflexivity
                | cbn; eauto..])
          | by (unfold holds_its_data; cbn; eauto)
          | idtac ].
  (* the save stage: the guard has seen the directory *)
  all: unfold holds_its_data; cbn;
    apply truthy_is_Some;
    match goal with
    | Hg : negb (PyStr.truthy ?d) = false |- _ =>
        by destruct (PyStr.truthy d)
    end.
Qed.

Lemma reachable_holds_its_data (app : App) :
  Reachable app -> holds_its_data app.
Proof.
  induction 1 as [deps|b w app _ IH|app _ IH|app _ IH|found app _ IH].
  - unfold initial_app. apply holds_its_data_set_state. done.
  - unfold click. destruct (btn app b); [|done].
    by apply stage_holds_its_data.
  - unfold toggle_expert_mode. apply holds_its_data_update_ui. exact IH.
  - by apply (holds_its_data_mono app).
  - by apply (holds_its_data_mono app).
Qed.

(** X18.  In every session, with the expert mode on or off, the machine
    has a state and the state is backed by the data of its stage: in
    [STRINGS_EXTRACTED] and [TRANSLATION_COMPLETE] a tree is loaded, in
    [DECOMPILED] and [SAVED] a directory is known, in [APK_SELECTED] a
    package, in [RECOMPILED] an unsigned package. *)
Theorem state_is_backed_by_data (app : App) :
  Reachable app ->
  exists s,
    current_state app = Some s /\
    (s = APK_SELECTED -> is_Some (apk_path app)) /\
    (s = DECOMPILED \/ s = SAVED -> is_Some (decompiled_dir app)) /\
    (s = STRINGS_EXTRACTED \/ s = TRANSLATION_COMPLETE -> is_Some (xml_root app)) /\
    (s = RECOMPILED -> is_Some (unsigned_apk_path app)).
Proof.
  intros Hreach%reachable_holds_its_data. unfold holds_its_data in Hreach.
  destruct (current_state app) as [s|]; [|done].
  exists s. split; [done|].
  destruct s; repeat split; intros; intuition congruence.
Qed.

End DataFacts.

Section DataOnSample.
#[local] Existing Instance FlatXml.flat.

Lemma state_is_backed_by_data_witness :
  exists s,
    current_state Samples.extracted = Some s /\
    (s = APK_SELECTED -> is_Some (apk_path Samples.extracted)) /\
    (s = DECOMPILED \/ s = SAVED -> is_Some (decompiled_dir Samples.extracted)) /\
    (s = STRINGS_EXTRACTED \/ s = TRANSLATION_COMPLETE ->
     is_Some (xml_root Samples.extracted)) /\
    (s = RECOMPILED -> is_Some (unsigned_apk_path Samples.extracted)).
Proof.
  apply state_is_backed_by_data, sample_sessions_reachable.
Defined.

End DataOnSample.

(** * The stages one after the other *)

Lemma set_state_keeps (app : App) (s : AppState) :
  expert_mode (set_state app s) = expert_mode app /\
  overwrite_original (set_state app s) = overwrite_original app /\
  dependencies_ok (set_state app s) = dependencies_ok app /\
  apk_path (set_state app s) = apk_path app /\
  decompiled_dir (set_state app s) = decompiled_dir app /\
  original_strings_xml_path (set_state app s) = original_strings_xml_path app /\
  unsigned_apk_path (set_state app s) = unsigned_apk_path app /\
  xml_root (set_state app s) = xml_root app /\
  calls_made (set_state app s) = calls_made app /\
  effects (set_state app s) = effects app.
Proof. unfold set_state. rewrite update_ui_with_btn. by repeat split. Qed.

Lemma set_state_expert_mode (app : App) (s : AppState) :
  expert_mode (set_state app s) = expert_mode app.
Proof. apply set_state_keeps. Qed.

Lemma set_state_overwrite_original (app : App) (s : AppState) :
  overwrite_original (set_state app s) = overwrite_original app.
Proof. apply set_state_keeps. Qed.

Lemma set_state_dependencies_ok (app : App) (s : AppState) :
  dependencies_ok (set_state app s) = dependencies_ok app.
Proof. apply set_state_keeps. Qed.

Lemma set_state_apk_path (app : App) (s : AppState) :
  apk_path (set_state app s) = apk_path app.
Proof. apply set_state_keeps. Qed.

Lemma set_state_decompiled_dir (app : App) (s : AppState) :
  decompiled_dir (set_state app s) = decompiled_dir app.
Proof. apply set_state_keeps. Qed.

Lemma set_state_original_path (app : App) (s : AppState) :
  original_strings_xml_path (set_state app s) = original_strings_xml_path app.
Proof. apply set_state_keeps. Qed.

Lemma set_state_unsigned_apk_path (app : App) (s : AppState) :
  unsigned_apk_path (set_state app s) = unsigned_apk_path app.
Proof. apply set_state_keeps. Qed.

Lemma set_state_xml_root (app : App) (s : AppState) :
  xml_root (set_state app s) = xml_root app.
Proof. apply set_state_keeps. Qed.

Lemma set_state_calls_made (app : App) (s : AppState) :
  calls_made (set_state app s) = calls_made app.
Proof. apply set_state_keeps. Qed.

Lemma set_state_effects (app : App) (s : AppState) :
  effects (set_state app s) = effects app.
Proof. apply set_state_keeps. Qed.

Create Rewrite HintDb fields.
#[local] Hint Rewrite set_state_state set_state_expert_mode
  set_state_overwrite_original set_state_dependencies_ok set_state_apk_path
  set_state_decompiled_dir set_state_original_path set_state_unsigned_apk_path
  set_state_xml_root set_state_calls_made set_state_effects : fields.

(** Read a field of an application built by the stages. *)
Ltac field :=
  repeat (autorewrite with fields;
          cbn [current_state expert_mode overwrite_original dependencies_ok
                 apk_path decompiled_dir original_strings_xml_path
                 unsigned_apk_path xml_root calls_made effects
                 did with_btn with_state set_apk_path set_decompiled_dir
                 set_original_strings_xml_path set_unsigned_apk_path
                 set_xml_root]).

Lemma set_state_enables (app : App) (s : AppState) (b : Button) :
  expert_mode app = false ->
  b <> step1_btn ->
  permitting_state (command b) = Some s ->
  btn (set_state app s) b = NORMAL.
Proof.
  intros Hexpert Hb Hp. unfold set_state. rewrite update_ui_btn.
  destruct (decide (b = step1_btn)); [done|].
  unfold gated_on. cbn [expert_mode current_state with_state].
  rewrite Hexpert, (permitting_listed b s Hb Hp). done.
Qed.

Lemma nonempty_truthy (p : string) : p <> "" -> PyStr.truthy (Some p) = true.
Proof. by destruct p. Qed.

Section Workflow.
Context `{ET : ElementTree}.

(** X19.  With its dependencies in place and every stage succeeding, the
    seven buttons clicked in their order, each after the stage before has
    ended, take a fresh application through the seven states and back to
    [INITIAL]: each stage finds its button enabled and its own
    precondition met by the stage before, and nothing is left waiting.
    What is done outside is, in this order: the removal of a work
    directory left over from before, if there is one, the copy, the
    removal of what was decompiled before, if there is any, the decoding,
    the calls of the model, the writing of the table, the build, the
    signing, and the removal of the work directory. *)
Theorem full_workflow_returns_to_initial
    (w1 w2 w3 w4 w5 w6 w7 : World) (root : list Element) (r : Run) :
  chosen_file w1 <> "" ->
  (workdir_exists w1 = true -> rmtree_ok w1 = true) ->
  workdir_ok w1 = true -> copy_ok w1 = true ->
  work_path w1 <> "" ->
  (is_dir w2 = true -> rmtree_ok w2 = true) ->
  command_ok w2 = true -> work_path w2 <> "" ->
  is_dir w3 = true -> strings_xml w3 = Some (Some root) ->
  credentials_ok w4 = true ->
  translate_run (model_api w4) 0 root = (r, Completed) ->
  write_ok w5 = true ->
  command_ok w6 = true -> work_path w6 <> "" ->
  unsigned_exists w7 = true -> keystore_exists w7 = true -> command_ok w7 = true ->
  (workdir_exists w7 = true -> rmtree_ok w7 = true) ->
  let s1 := click_and_wait step1_btn w1 (quiet (initial_app true)) in
  let s2 := click_and_wait step2_btn w2 s1 in
  let s3 := click_and_wait step3_btn w3 s2 in
  let s4 := click_and_wait step4a_btn w4 s3 in
  let s5 := click_and_wait step5_btn w5 s4 in
  let s6 := click_and_wait step6_btn w6 s5 in
  let s7 := click_and_wait step7_btn w7 s6 in
  map (fun s => current_state (session_app s)) [s1; s2; s3; s4; s5; s6; s7]
    = map Some [APK_SELECTED; DECOMPILED; STRINGS_EXTRACTED;
                TRANSLATION_COMPLETE; SAVED; RECOMPILED; INITIAL] /\
  threads s7 = [] /\ callbacks s7 = [] /\
  xml_root (session_app s7) = Some (run_root r) /\
  effects (session_app s7)
    = ((if workdir_exists w1 then [RemovedWorkDir] else []) ++
       [CopiedApk (chosen_file w1)] ++
       (if is_dir w2 then [RemovedDecompiledDir] else []) ++
       [RanApktoolDecode; CalledModel (run_calls r);
        WroteStrings (work_path w2 ++ "/res/values-he-rIL/strings.xml");
        RanApktoolBuild; RanApksigner] ++
       (if workdir_exists w7 then [RemovedWorkDir] else []))%list.
Proof.
  intros Hfile Hrm1 Hwd Hcp Hp1 Hrm2 Hcmd2 Hp2 Hdir Hxml Hcred Hrun Hwrite
    Hcmd6 Hp6 Hun Hks Hcmd7 Hrm7 s1 s2 s3 s4 s5 s6 s7.
  unfold click_and_wait in *.
  set (app1 := click step1_btn w1 (initial_app true)).
  set (app2 := click step2_btn w2 app1).
  set (app3 := click step3_btn w3 app2).
  set (app4 := click step4a_btn w4 app3).
  set (app5 := click step5_btn w5 app4).
  set (app6 := click step6_btn w6 app5).
  set (app7 := click step7_btn w7 app6).
  assert (s1 = quiet app1) as -> by apply main_loop_work_press.
  assert (s2 = quiet app2) as -> by apply main_loop_work_press.
  assert (s3 = quiet app3) as -> by apply main_loop_work_press.
  assert (s4 = quiet app4) as -> by apply main_loop_work_press.
  assert (s5 = quiet app5) as -> by apply main_loop_work_press.
  assert (s6 = quiet app6) as -> by apply main_loop_work_press.
  assert (s7 = quiet app7) as -> by apply main_loop_work_press.
  cbn [quiet session_app threads callbacks map].
  set (pre := ((if workdir_exists w1 then [RemovedWorkDir] else []) ++
               [CopiedApk (chosen_file w1)] ++
               (if is_dir w2 then [RemovedDecompiledDir] else []))%list).
  (* select *)
  set (app0 := if workdir_exists w1 then did (initial_app true) RemovedWorkDir
               else initial_app true).
  assert (expert_mode app0 = false /\ dependencies_ok app0 = true /\
          overwrite_original app0 = false /\ calls_made app0 = 0 /\
          effects app0 = if workdir_exists w1 then [RemovedWorkDir] else [])
    as (Hx0 & Hd0 & Ho0 & Hc0 & Hf0).
  { subst app0. by destruct (workdir_exists w1). }
  assert (app1 = set_state
                   (did (set_apk_path app0 (work_path w1))
                      (CopiedApk (chosen_file w1))) APK_SELECTED) as E1.
  { subst app1. unfold click.
    change (btn (initial_app true) step1_btn) with NORMAL.
    cbn [command run_stage]. unfold run_step1_select_apk.
    apply String.eqb_neq in Hfile. rewrite Hfile, Hwd, Hcp.
    assert (workdir_exists w1 && negb (rmtree_ok w1) = false) as ->; [|done].
    destruct (workdir_exists w1); [by rewrite Hrm1|done]. }
  assert (expert_mode app1 = false /\ dependencies_ok app1 = true /\
          overwrite_original app1 = false /\ calls_made app1 = 0 /\
          apk_path app1 = Some (work_path w1) /\
          effects app1
            = ((if workdir_exists w1 then [RemovedWorkDir] else []) ++
               [CopiedApk (chosen_file w1)])%list)
    as (Hx1 & Hd1 & Ho1 & Hc1 & Ha1 & Hf1).
  { rewrite E1. field. by rewrite Hx0, Hd0, Ho0, Hc0, Hf0. }
  clearbody app0 app1.
  (* decompile *)
  set (app1d := if is_dir w2
                then did (set_decompiled_dir app1 (work_path w2)) RemovedDecompiledDir
                else set_decompiled_dir app1 (work_path w2)).
  assert (expert_mode app1d = false /\ dependencies_ok app1d = true /\
          overwrite_original app1d = false /\ calls_made app1d = 0 /\
          decompiled_dir app1d = Some (work_path w2) /\
          effects app1d = pre)
    as (Hx1d & Hd1d & Ho1d & Hc1d & Hdd1d & Hf1d).
  { subst app1d pre. destruct (is_dir w2); field;
      rewrite Hx1, Hd1, Ho1, Hc1, Hf1, <- ?app_assoc; cbn [app];
      by rewrite ?app_nil_r. }
  assert (app2 = set_state (did app1d RanApktoolDecode) DECOMPILED) as E2.
  { subst app2. unfold click.
    assert (btn app1 step2_btn = NORMAL) as ->.
    { rewrite E1. apply set_state_enables; [|done..]. by field. }
    cbn [command run_stage]. unfold run_step2_decompile, _worker_decompile.
    rewrite Hd1, Ha1, (nonempty_truthy _ Hp1), Hcmd2. cbv zeta. cbn [negb].
    assert (is_dir w2 && negb (rmtree_ok w2) = false) as ->; [|done].
    destruct (is_dir w2); [by rewrite Hrm2|done]. }
  assert (expert_mode app2 = false /\ dependencies_ok app2 = true /\
          overwrite_original app2 = false /\ calls_made app2 = 0 /\
          decompiled_dir app2 = Some (work_path w2) /\
          effects app2 = (pre ++ [RanApktoolDecode])%list)
    as (Hx2 & Hd2 & Ho2 & Hc2 & Hdd2 & Hf2).
  { rewrite E2. field. by rewrite Hx1d, Hd1d, Ho1d, Hc1d, Hdd1d, Hf1d. }
  clearbody app1d app2.
  (* extract *)
  assert (app3 = set_state
                   (set_xml_root
                      (set_original_strings_xml_path app2
                         (PyStr.str_of_opt (decompiled_dir app2)
                          ++ "/res/values/strings.xml"))
                      root (calls_made app2))
                   STRINGS_EXTRACTED) as E3.
  { subst app3. unfold click.
    assert (btn app2 step3_btn = NORMAL) as ->.
    { rewrite E2. apply set_state_enables; [|done..]. by field. }
    cbn [command run_stage].
    unfold run_step3_extract_strings, _worker_extract_strings.
    by rewrite Hdd2, (nonempty_truthy _ Hp2), Hdir, Hxml. }
  assert (expert_mode app3 = false /\ dependencies_ok app3 = true /\
          overwrite_original app3 = false /\ calls_made app3 = 0 /\
          decompiled_dir app3 = Some (work_path w2) /\
          xml_root app3 = Some root /\
          effects app3
            = (pre ++ [RanApktoolDecode])%list)
    as (Hx3 & Hd3 & Ho3 & Hc3 & Hdd3 & Hr3 & Hf3).
  { rewrite E3. field. by rewrite Hx2, Hd2, Ho2, Hc2, Hdd2, Hf2. }
  (* translate *)
  assert (app4 = set_state
                   (did (set_xml_root
                           (with_btn app3 (config DISABLED (btn app3) step4a_btn))
                           (run_root r) (run_calls r))
                      (CalledModel (run_calls r)))
                   TRANSLATION_COMPLETE) as E4.
  { subst app4. unfold click.
    assert (btn app3 step4a_btn = NORMAL) as ->.
    { rewrite E3. apply set_state_enables; [|done..]. by field. }
    cbn [command run_stage]. unfold run_step4_translate, _worker_translate.
    rewrite Hr3, Hcred. cbn [negb calls_made with_btn].
    by rewrite Hc3, Hrun. }
  assert (expert_mode app4 = false /\ dependencies_ok app4 = true /\
          overwrite_original app4 = false /\
          decompiled_dir app4 = Some (work_path w2) /\
          xml_root app4 = Some (run_root r) /\
          effects app4
            = (pre ++ [RanApktoolDecode;
                       CalledModel (run_calls r)])%list)
    as (Hx4 & Hd4 & Ho4 & Hdd4 & Hr4 & Hf4).
  { rewrite E4. field. by rewrite Hx3, Hd3, Ho3, Hdd3, Hf3, <- app_assoc. }
  (* save *)
  assert (app5 = set_state
                   (did app4 (WroteStrings
                      (work_path w2 ++ "/res/values-he-rIL/strings.xml")))
                   SAVED) as E5.
  { subst app5. unfold click.
    assert (btn app4 step5_btn = NORMAL) as ->.
    { rewrite E4. apply set_state_enables; [|done..]. by field. }
    cbn [command run_stage].
    unfold run_step5_save_translated, _worker_save_translated.
    by rewrite Hdd4, (nonempty_truthy _ Hp2), Ho4, Hwrite. }
  assert (expert_mode app5 = false /\ dependencies_ok app5 = true /\
          decompiled_dir app5 = Some (work_path w2) /\
          xml_root app5 = Some (run_root r) /\
          effects app5
            = (pre ++ [RanApktoolDecode;
                       CalledModel (run_calls r);
                       WroteStrings
                         (work_path w2 ++ "/res/values-he-rIL/strings.xml")])%list)
    as (Hx5 & Hd5 & Hdd5 & Hr5 & Hf5).
  { rewrite E5. field. by rewrite Hx4, Hd4, Hdd4, Hr4, Hf4, <- app_assoc. }
  (* recompile *)
  assert (app6 = set_state
                   (did (set_unsigned_apk_path app5 (work_path w6)) RanApktoolBuild)
                   RECOMPILED) as E6.
  { subst app6. unfold click.
    assert (btn app5 step6_btn = NORMAL) as ->.
    { rewrite E5. apply set_state_enables; [|done..]. by field. }
    cbn [command run_stage]. unfold run_step6_recompile, _worker_recompile.
    by rewrite Hd5, Hdd5, (nonempty_truthy _ Hp2), Hcmd6. }
  assert (expert_mode app6 = false /\ dependencies_ok app6 = true /\
          unsigned_apk_path app6 = Some (work_path w6) /\
          xml_root app6 = Some (run_root r) /\
          effects app6
            = (pre ++ [RanApktoolDecode;
                       CalledModel (run_calls r);
                       WroteStrings
                         (work_path w2 ++ "/res/values-he-rIL/strings.xml");
                       RanApktoolBuild])%list)
    as (Hx6 & Hd6 & Hu6 & Hr6 & Hf6).
  { rewrite E6. field. by rewrite Hx5, Hd5, Hr5, Hf5, <- app_assoc. }
  (* sign *)
  assert (app7 = set_state
                   (if workdir_exists w7
                    then did (did app6 RanApksigner) RemovedWorkDir
                    else did app6 RanApksigner) INITIAL)
    as E7.
  { subst app7. unfold click.
    assert (btn app6 step7_btn = NORMAL) as ->.
    { rewrite E6. apply set_state_enables; [|done..]. by field. }
    cbn [command run_stage]. unfold run_step7_sign, _worker_sign.
    rewrite Hd6, Hu6, (nonempty_truthy _ Hp6), Hun, Hks, Hcmd7.
    assert (workdir_exists w7 && negb (rmtree_ok w7) = false) as ->; [|done].
    destruct (workdir_exists w7); [by rewrite Hrm7|done]. }
  split; [|split; [done|split; [done|split]]].
  - rewrite E7, E6, E5, E4, E3, E2, E1. by field.
  - rewrite E7. destruct (workdir_exists w7); field; exact Hr6.
  - rewrite E7. subst pre. destruct (workdir_exists w7); field;
      rewrite Hf6, <- ?app_assoc; cbn [app]; rewrite <- ?app_assoc;
      reflexivity.
Qed.

End Workflow.

Section WorkflowOnSample.
#[local] Existing Instance FlatXml.flat.

Lemma full_workflow_returns_to_initial_witness :
  let w := Samples.good_world in
  let s7 :=
    click_and_wait step7_btn w (click_and_wait step6_btn w
      (click_and_wait step5_btn w (click_and_wait step4a_btn w
        (click_and_wait step3_btn w
          (click_and_wait step2_btn Samples.fresh_disk
            (click_and_wait step1_btn Samples.fresh_disk
               (quiet (initial_app true)))))))) in
  current_state (session_app s7) = Some INITIAL /\
  xml_root (session_app s7) = Some Samples.table2 /\
  effects (session_app s7)
    = [CopiedApk "demo.apk"; RanApktoolDecode; CalledModel 1;
       WroteStrings "work/demo/res/values-he-rIL/strings.xml";
       RanApktoolBuild; RanApksigner; RemovedWorkDir].
Proof.
  intros w s7.
  assert (translate_run (model_api w) 0 Samples.table2
          = ((translate_run Samples.echo 0 Samples.table2).1, Completed)) as Hrun
    by (vm_compute; reflexivity).
  pose proof (full_workflow_returns_to_initial Samples.fresh_disk
                Samples.fresh_disk w w w w w
                Samples.table2
                (translate_run Samples.echo 0 Samples.table2).1
                ltac:(discriminate) ltac:(discriminate) eq_refl eq_refl
                ltac:(discriminate) ltac:(discriminate)
                eq_refl ltac:(discriminate) eq_refl eq_refl eq_refl Hrun
                eq_refl eq_refl ltac:(discriminate) eq_refl eq_refl eq_refl
                ltac:(reflexivity))
    as (Hstates & _ & _ & Hroot & Heff).
  split; [|split].
  - apply (f_equal (fun l => default None (l !! 6))) in Hstates.
    exact Hstates.
  - etrans; [exact Hroot|]. vm_compute. reflexivity.
  - etrans; [exact Heff|]. vm_compute. reflexivity.
Defined.

End WorkflowOnSample.

(** * Where a run stops and what it shows *)

Section StopFacts.
Context `{ET : ElementTree}.

Lemma batch_loop_stop (api : Api) (strs : list nat) (snips : list string)
    (total : nat) (starts : list nat) (r r' : Run) (e : Ending) :
  batch_loop api strs snips total starts r = (r', e) ->
  exists m,
    m <= length starts /\
    translated_count r'
      = translated_count r + length (concat (map (batch_slice strs) (take m starts))) /\
    progress r'
      = (progress r ++
         map (fun j =>
                (translated_count r
                 + length (concat (map (batch_slice strs) (take (S j) starts))),
                 total))
           (seq 0 m))%list /\
    match e with
    | Completed => m = length starts
    | NoStrings => False
    | ApiError i _ => starts !! m = Some i
    | Mismatch i => starts !! m = Some i
    end.
Proof.
  revert r. induction starts as [|i starts IH]; intros r Hrun.
  - injection Hrun as <- <-. exists 0. cbn. rewrite app_nil_r.
    repeat split; lia.
  - cbn [batch_loop] in Hrun.
    destruct (PyStr.contains _ _).
    { injection Hrun as <- <-. exists 0. cbn. rewrite app_nil_r.
      repeat split; try lia; done. }
    destruct (_update_tags_from_response _ _ _) as [[|] root'].
    2:{ injection Hrun as <- <-. exists 0. cbn. rewrite app_nil_r.
        repeat split; try lia; done. }
    apply IH in Hrun as (m & Hm & Hcount & Hprog & He).
    cbn [translated_count progress] in *.
    exists (S m). split; [cbn; lia|]. split; [|split].
    + rewrite Hcount. cbn [take map concat]. rewrite length_app. lia.
    + rewrite Hprog, <- app_assoc. f_equal.
      cbn [seq map take concat]. rewrite app_nil_r. f_equal.
      rewrite <- seq_shift, map_map. apply map_ext. intros j.
      cbn [take map concat]. rewrite length_app. f_equal. lia.
    + destruct e; cbn; try done; lia.
Qed.

Lemma slices_before (strs : list nat) (m : nat) :
  m <= (length strs + BATCH_SIZE - 1) / BATCH_SIZE ->
  concat (map (batch_slice strs) (take m (range_step (length strs) BATCH_SIZE)))
  = take (m * BATCH_SIZE) strs.
Proof.
  intros Hm. unfold range_step.
  rewrite <- fmap_take, take_seq, Nat.min_l by lia.
  apply concat_batch_slices.
Qed.

(** X20.  A run that stops at a batch has counted the records of the
    batches before it and no other: the position [i] it stops at is a
    whole number of hundreds below the number of translatable records,
    and the count is [i].  A run that completes has counted them all. *)
Theorem run_counts_whole_batches (api : Api) (calls : nat)
    (xml_root : list Element) :
  let total := length (_get_translatable_strings xml_root) in
  let run := translate_run api calls xml_root in
  match run.2 with
  | Completed => translated_count run.1 = total
  | NoStrings => total = 0 /\ translated_count run.1 = 0
  | ApiError i _ | Mismatch i =>
      translated_count run.1 = i /\ i < total /\ i mod BATCH_SIZE = 0
  end.
Proof.
  intros total run. subst run.
  destruct (translate_run_cases api calls xml_root) as [[Hnone ->]|[Hsome ->]].
  { cbn. subst total. by rewrite Hnone. }
  fold total.
  destruct (batch_loop _ _ _ _ _ _) as [r e] eqn:Hrun.
  apply batch_loop_stop in Hrun as (m & Hm & Hcount & _ & He).
  cbn [fst snd translated_count start_run] in *.
  assert (length (range_step total BATCH_SIZE)
          = (total + BATCH_SIZE - 1) / BATCH_SIZE) as Hlen
    by (unfold range_step; by rewrite length_map, length_seq).
  rewrite slices_before in Hcount by (subst total; lia).
  rewrite length_take in Hcount.
  assert (forall i, range_step total BATCH_SIZE !! m = Some i ->
            translated_count r = i /\ i < total /\ i mod BATCH_SIZE = 0) as Hstop.
  { intros i Hi.
    pose proof (range_step_bound total i
                  ltac:(by eapply list_elem_of_lookup_2)) as Hlt.
    apply range_step_lookup in Hi as ->.
    split; [subst total; lia|]. split; [done|].
    apply Nat.Div0.mod_mul. }
  destruct e; [|done| |].
  - subst m. rewrite Hcount, Hlen.
    pose proof (batch_count_covers total). subst total. lia.
  - by apply Hstop.
  - by apply Hstop.
Qed.

(** X21.  What the progress bar is given never goes back and never
    passes its maximum: the first value shown is 0, each later value is
    greater than the one before, and every value is at most the number of
    translatable records, which is the maximum shown with it. *)
Theorem progress_only_grows (api : Api) (calls : nat) (xml_root : list Element)
    (k v t : nat) :
  let total := length (_get_translatable_strings xml_root) in
  let shown := progress (translate_run api calls xml_root).1 in
  shown !! k = Some (v, t) ->
  t = total /\ v <= total /\
  (k = 0 -> v = 0) /\
  forall v' t', shown !! S k = Some (v', t') -> v < v'.
Proof.
  intros total shown. subst shown.
  destruct (translate_run_cases api calls xml_root) as [[Hnone ->]|[Hsome ->]].
  { by cbn. }
  fold total.
  destruct (batch_loop _ _ _ _ _ _) as [r e] eqn:Hrun.
  apply batch_loop_stop in Hrun as (m & Hm & _ & Hprog & _).
  cbn [fst translated_count progress start_run] in *.
  assert (length (range_step total BATCH_SIZE)
          = (total + BATCH_SIZE - 1) / BATCH_SIZE) as Hlen
    by (unfold range_step; by rewrite length_map, length_seq).
  assert (forall j, j <= m ->
            (([(0, total)] ++
              map (fun j => (0 + length (concat (map (batch_slice
                     (_get_translatable_strings xml_root))
                     (take (S j) (range_step total BATCH_SIZE)))), total))
                (seq 0 m))%list !! j
            = Some (Nat.min (j * BATCH_SIZE) total, total))) as Hshown.
  { intros [|j] Hj; [done|].
    rewrite lookup_app_r by (cbn; lia). cbn [length].
    replace (S j - 1) with j by lia.
    match goal with |- context [map ?f ?l] => change (map f l) with (f <$> l) end.
    rewrite list_lookup_fmap, lookup_seq_lt by lia. cbn [fmap option_fmap option_map].
    rewrite slices_before by (subst total; lia).
    rewrite length_take. subst total. do 2 f_equal. }
  rewrite Hprog. intros Hk.
  assert (k <= m) as Hkm.
  { apply lookup_lt_Some in Hk. rewrite length_app, length_map, length_seq in Hk.
    cbn in Hk. lia. }
  rewrite (Hshown k Hkm) in Hk.
  assert (v = Nat.min (k * BATCH_SIZE) total /\ t = total) as [-> ->]
    by (split; congruence).
  clear Hk.
  split; [done|]. split; [lia|]. split; [intros ->; cbn; lia|].
  intros v' t' Hk'.
  assert (S k <= m) as Hkm'.
  { apply lookup_lt_Some in Hk'. rewrite length_app, length_map, length_seq in Hk'.
    cbn in Hk'. lia. }
  rewrite (Hshown (S k) Hkm') in Hk'.
  assert (v' = Nat.min (S k * BATCH_SIZE) total) as -> by congruence.
  clear Hk'.
  assert (k * BATCH_SIZE < total).
  { assert (S k <= (total + BATCH_SIZE - 1) / BATCH_SIZE) as Hc by lia.
    apply (range_step_bound total (k * BATCH_SIZE)).
    unfold range_step. apply list_elem_of_fmap. exists k. split; [done|].
    apply elem_of_seq. lia. }
  unfold BATCH_SIZE in *. lia.
Qed.

End StopFacts.

Section StopOnSample.
#[local] Existing Instance FlatXml.flat.

Lemma progress_only_grows_witness :
  let shown := progress (translate_run Samples.fails_after_first 0 Samples.table101).1 in
  shown !! 1 = Some (100, 101) /\
  (101 = length (_get_translatable_strings Samples.table101) /\
   100 <= length (_get_translatable_strings Samples.table101) /\
   (1 = 0 -> 100 = 0) /\
   forall v' t', shown !! 2 = Some (v', t') -> 100 < v').
Proof.
  intros shown.
  assert (shown !! 1 = Some (100, 101)) as H by (vm_compute; reflexivity).
  split; [exact H|].
  exact (progress_only_grows Samples.fails_after_first 0 Samples.table101
           1 100 101 H).
Defined.

End StopOnSample.

(** * What the stages check for themselves *)

Section StageGuards.
Context `{ET : ElementTree}.

(** X22.  The expert mode opens the gate, not the stages: in an
    application that holds no package, no directory, no tree and no
    unsigned package, every stage but the first returns at its own check
    and changes nothing, whatever the world would answer. *)
Theorem stages_need_their_data (st : Stage) (w : World) (app : App) :
  st <> Select ->
  apk_path app = None -> decompiled_dir app = None ->
  xml_root app = None -> unsigned_apk_path app = None ->
  run_stage st w app = app.
Proof.
  intros Hst Ha Hd Hx Hu. destruct st; [done|..]; cbn [run_stage];
    unfold run_step2_decompile, run_step3_extract_strings, run_step4_translate,
      run_step5_save_translated, run_step6_recompile, run_step7_sign;
    rewrite ?Ha, ?Hd, ?Hx, ?Hu; cbn [PyStr.truthy negb orb];
    by repeat (destruct (negb _)).
Qed.

End StageGuards.

Section StageGuardsOnSample.
#[local] Existing Instance FlatXml.flat.

Lemma stages_need_their_data_witness :
  let app := toggle_expert_mode (initial_app true) in
  btn app step5_btn = NORMAL /\
  click step5_btn Samples.good_world app = app.
Proof.
  intros app. split; [reflexivity|].
  unfold click. change (btn app step5_btn) with NORMAL. cbv beta iota.
  apply (stages_need_their_data Save Samples.good_world app);
    [discriminate | reflexivity..].
Defined.

End StageGuardsOnSample.

(** * An echoing remote side *)

Lemma lstrip_length (s : string) : String.length (PyStr.lstrip s) <= String.length s.
Proof.
  induction s as [|c s IH]; [done|]. cbn.
  destruct (PyStr.is_space c); cbn; lia.
Qed.

Lemma rstrip_length (s : string) : String.length (PyStr.rstrip s) <= String.length s.
Proof.
  induction s as [|c s IH]; [done|]. cbn.
  destruct (PyStr.rstrip s); [destruct (PyStr.is_space c)|]; cbn in *; lia.
Qed.

Lemma lstrip_idem (s : string) : PyStr.lstrip (PyStr.lstrip s) = PyStr.lstrip s.
Proof.
  induction s as [|c s IH]; [done|]. cbn.
  destruct (PyStr.is_space c) eqn:E; [done|]. cbn. by rewrite E.
Qed.

Lemma rstrip_idem (s : string) : PyStr.rstrip (PyStr.rstrip s) = PyStr.rstrip s.
Proof.
  induction s as [|c s IH]; [done|]. cbn [PyStr.rstrip].
  destruct (PyStr.rstrip s) as [|d r] eqn:E.
  - destruct (PyStr.is_space c) eqn:Ec; [done|]. cbn. by rewrite Ec.
  - cbn [PyStr.rstrip]. cbn [PyStr.rstrip] in IH.
    destruct (PyStr.rstrip r) as [|d' r'] eqn:Er.
    + destruct (PyStr.is_space d); [done|]. by injection IH as ->.
    + by rewrite IH.
Qed.

(** A text that [lstrip] leaves alone is empty or starts with a character
    that is no white space. *)
Lemma lstrip_fixed_head (c : ascii) (s : string) :
  PyStr.lstrip (String c s) = String c s -> PyStr.is_space c = false.
Proof.
  cbn. destruct (PyStr.is_space c); [|done]. intros H.
  pose proof (lstrip_length s) as Hlen. rewrite H in Hlen. cbn in Hlen. lia.
Qed.

Lemma rstrip_keeps_head (c : ascii) (s : string) :
  PyStr.is_space c = false ->
  exists r, PyStr.rstrip (String c s) = String c r.
Proof.
  intros Hc. cbn. destruct (PyStr.rstrip s); [rewrite Hc|]; by eexists.
Qed.

Lemma strip_idem (s : string) : PyStr.strip (PyStr.strip s) = PyStr.strip s.
Proof.
  unfold PyStr.strip.
  assert (PyStr.lstrip (PyStr.rstrip (PyStr.lstrip s))
          = PyStr.rstrip (PyStr.lstrip s)) as ->; [|apply rstrip_idem].
  pose proof (lstrip_idem s) as Hfix.
  destruct (PyStr.lstrip s) as [|c t]; [done|].
  apply lstrip_fixed_head in Hfix.
  destruct (rstrip_keeps_head c t Hfix) as [r ->]. cbn. by rewrite Hfix.
Qed.

Lemma stripped_head (s : string) :
  s <> "" -> PyStr.strip s = s ->
  exists c t, s = String c t /\ PyStr.is_space c = false.
Proof.
  intros Hne Hs. destruct s as [|c t]; [done|]. exists c, t. split; [done|].
  unfold PyStr.strip in Hs. cbn [PyStr.lstrip] in Hs.
  destruct (PyStr.is_space c); [|done].
  pose proof (rstrip_length (PyStr.lstrip t)) as H1.
  pose proof (lstrip_length t) as H2.
  rewrite Hs in H1. cbn in H1. lia.
Qed.

Lemma stripped_rstrip (s : string) :
  s <> "" -> PyStr.strip s = s -> PyStr.rstrip s = s.
Proof.
  intros Hne Hs. destruct (stripped_head s Hne Hs) as (c & t & -> & Hc).
  unfold PyStr.strip in Hs. cbn [PyStr.lstrip] in Hs. by rewrite Hc in Hs.
Qed.

Lemma rstrip_app (y b : string) :
  b <> "" -> PyStr.rstrip b = b -> PyStr.rstrip (y ++ b) = y ++ b.
Proof.
  intros Hne Hb. induction y as [|d y IH]; [done|].
  change (String d y ++ b) with (String d (y ++ b)).
  cbn [PyStr.rstrip]. rewrite IH.
  destruct (y ++ b) eqn:E; [|done].
  destruct y; [by cbn in E | done].
Qed.

Lemma join_stripped (sep : string) (frags : list string) :
  frags <> [] ->
  Forall (fun f => f <> "" /\ PyStr.strip f = f) frags ->
  PyStr.join sep frags <> "" /\
  PyStr.strip (PyStr.join sep frags) = PyStr.join sep frags.
Proof.
  intros Hne Hall.
  assert (PyStr.join sep frags <> "" /\
          PyStr.rstrip (PyStr.join sep frags) = PyStr.join sep frags) as [Hj Hr].
  { induction frags as [|f frags IH]; [done|].
    apply Forall_cons in Hall as [[Hf Hs] Hall].
    destruct frags as [|g frags].
    - split; [done | by apply stripped_rstrip].
    - destruct (IH ltac:(done) Hall) as [Hne' Hr'].
      change (PyStr.join sep (f :: g :: frags))
        with (f ++ sep ++ PyStr.join sep (g :: frags)).
      split; [by destruct f|].
      rewrite string_app_assoc. by apply rstrip_app. }
  split; [done|].
  destruct frags as [|f frags]; [done|].
  apply Forall_cons in Hall as [[Hf Hs] _].
  destruct (stripped_head f Hf Hs) as (c & t & -> & Hc).
  unfold PyStr.strip.
  assert (PyStr.lstrip (PyStr.join sep (String c t :: frags))
          = PyStr.join sep (String c t :: frags)) as ->; [|done].
  rewrite join_cons_char. cbn [PyStr.lstrip]. by rewrite Hc.
Qed.

Lemma split_join_clean (frags : list string) :
  frags <> [] ->
  Forall (fun f => PyStr.contains XML_SEPARATOR f = false /\
                   PyStr.endswith f separator_head = false) frags ->
  PyStr.split XML_SEPARATOR (PyStr.join XML_SEPARATOR frags) = frags.
Proof.
  intros Hne Hall. unfold PyStr.split.
  induction frags as [|f frags IH]; [done|].
  apply Forall_cons in Hall as [[Hin Hend] Hall].
  assert (separator_starts_inside f = false) as Hf
    by (by rewrite separator_starts_inside_iff, Hin, Hend).
  destruct frags as [|g frags].
  - by apply split_go_last.
  - change (PyStr.join XML_SEPARATOR (f :: g :: frags))
      with (f ++ XML_SEPARATOR ++ PyStr.join XML_SEPARATOR (g :: frags)).
    rewrite split_go_piece by done. f_equal. by apply IH.
Qed.

Section Echo.
Context `{ET : ElementTree}.

Lemma update_zipped_same (root : list Element) (pairs : list (nat * string)) :
  (forall idx frag e,
     (idx, frag) ∈ pairs -> root !! idx = Some e -> update_tag frag e = e) ->
  update_zipped root pairs = root.
Proof.
  revert root. induction pairs as [|[idx frag] pairs IH]; intros root Hsame; [done|].
  unfold update_zipped in *. cbn [foldl fst snd].
  assert (alter (update_tag frag) idx root = root) as ->.
  { apply list_eq. intros j. destruct (decide (j = idx)) as [->|Hj].
    - rewrite list_lookup_alter_eq. destruct (root !! idx) as [e|] eqn:E; [|done].
      cbn. f_equal. apply (Hsame idx frag e); [by left | done].
    - by rewrite list_lookup_alter_ne. }
  apply IH. intros idx' frag' e Hin. apply Hsame. by right.
Qed.

Lemma echo_batch_loop (api : Api) (xml_root : list Element) (total : nat)
    (starts : list nat) (r : Run) :
  let strs := _get_translatable_strings xml_root in
  let snips := all_xml_snippets xml_root strs in
  (forall n batch, api n batch = Returns batch) ->
  (forall idx e, idx ∈ strs -> xml_root !! idx = Some e ->
     exists e', fromstring (PyStr.strip (tostring e)) = Some e' /\ text e' = text e) ->
  (forall f, f ∈ snips ->
     f <> "" /\ PyStr.contains XML_SEPARATOR f = false /\
     PyStr.endswith f separator_head = false) ->
  (forall i, PyStr.contains "ERROR_" (payload snips i) = false) ->
  (forall i, i ∈ starts -> i < length strs) ->
  run_root r = xml_root ->
  exists r',
    batch_loop api strs snips total starts r = (r', Completed) /\
    run_root r' = xml_root /\
    run_calls r' = run_calls r + length starts /\
    run_slept r' = run_slept r.
Proof.
  intros strs snips Hecho Hparse Hclean Hmark.
  revert r. induction starts as [|i starts IH]; intros r Hstarts Hroot.
  { exists r. cbn. repeat split; [done | lia]. }
  assert (i < length strs) as Hi by (apply Hstarts; by left).
  set (frags := batch_slice snips i).
  assert (length frags = length (batch_slice strs i)) as Hlen.
  { subst frags snips. unfold batch_slice, all_xml_snippets.
    by rewrite !length_take, !length_drop, length_map. }
  assert (frags <> []) as Hne.
  { intros E. rewrite E in Hlen. symmetry in Hlen.
    by apply (batch_slice_nonempty strs i Hi), nil_length_inv. }
  assert (forall f, f ∈ frags -> f ∈ snips) as Hsub.
  { intros f Hf. subst frags. unfold batch_slice in Hf.
    eapply elem_of_sublist; [exact Hf|].
    etrans; [apply sublist_take | apply sublist_drop]. }
  assert (forall f, f ∈ snips -> PyStr.strip f = f) as Hstripped.
  { intros f Hf. subst snips. unfold all_xml_snippets in Hf.
    apply list_elem_of_fmap in Hf as (idx & -> & _). apply strip_idem. }
  destruct (join_stripped XML_SEPARATOR frags Hne) as [Hjne Hjstrip].
  { apply Forall_forall. intros f Hf. split.
    - by apply Hclean, Hsub.
    - by apply Hstripped, Hsub. }
  assert (translate_text_with_ai api (run_calls r) (PyStr.join XML_SEPARATOR frags)
          = mkAdapterRun (PyStr.join XML_SEPARATOR frags) 1 0) as Hadapter.
  { unfold translate_text_with_ai.
    assert ((PyStr.join XML_SEPARATOR frags =? "")%string
            || PyStr.isspace (PyStr.join XML_SEPARATOR frags) = false) as ->.
    { apply orb_false_intro; [by apply String.eqb_neq|].
      unfold PyStr.isspace. apply andb_false_intro2.
      destruct (stripped_head _ Hjne Hjstrip) as (c & t & -> & Hc).
      cbn. by rewrite Hc. }
    unfold API_MAX_RETRIES. cbn [seq attempt_loop]. by rewrite Hecho, Hjstrip. }
  assert (_update_tags_from_response (run_root r) (batch_slice strs i)
            (PyStr.join XML_SEPARATOR frags) = (true, xml_root)) as Hup.
  { unfold _update_tags_from_response.
    rewrite split_join_clean; [|done|].
    2:{ apply Forall_forall. intros f Hf. by apply Hclean, Hsub. }
    rewrite Hlen, Nat.eqb_refl. cbn [negb]. f_equal.
    rewrite Hroot. apply update_zipped_same.
    intros idx frag e Hin He.
    apply list_elem_of_lookup in Hin as [p Hp].
    apply lookup_zip_with_Some in Hp as (idx' & frag' & [= <- <-] & Hidx & Hfrag).
    subst frags snips. unfold batch_slice, all_xml_snippets in Hidx, Hfrag.
    apply lookup_take_Some in Hidx as [Hidx _].
    apply lookup_take_Some in Hfrag as [Hfrag _].
    rewrite lookup_drop in Hidx. rewrite lookup_drop in Hfrag.
    rewrite list_lookup_fmap, Hidx in Hfrag. injection Hfrag as <-.
    assert (idx ∈ strs) as Hmem by (by eapply list_elem_of_lookup_2).
    unfold element_at. rewrite He. cbn [default].
    destruct (Hparse idx e Hmem He) as (e' & Hread & Htext).
    unfold update_tag, id. rewrite strip_idem, Hread, Htext. by destruct e. }
  cbn [batch_loop]. fold snips. fold frags. rewrite Hadapter.
  cbn [returned attempts slept run_root run_calls run_slept run_sent
         translated_count progress].
  specialize (Hmark i). unfold payload in Hmark. fold frags in Hmark.
  rewrite Hmark, Hup.
  edestruct IH as (r' & Hrun & Hroot' & Hcalls & Hslept);
    [intros j Hj; apply Hstarts; by right | | ].
  2:{ rewrite Hrun. exists r'. split; [done|]. split; [done|].
      cbn [run_calls run_slept length] in *. split; lia. }
  done.
Qed.

(** X23.  A remote side that sends every batch back as it came changes
    nothing: when the parser reads back from each serialized record the
    text the record has, no serialized record is empty or holds the
    separator (or ends with its first four characters), and no batch text
    holds [ERROR_], the run completes with one call for each batch and no
    cooldown, and the tree is the tree it started from. *)
Theorem echo_run_changes_nothing (api : Api) (calls : nat)
    (xml_root : list Element) :
  let strs := _get_translatable_strings xml_root in
  let snips := all_xml_snippets xml_root strs in
  (forall n batch, api n batch = Returns batch) ->
  (forall idx e, idx ∈ strs -> xml_root !! idx = Some e ->
     exists e', fromstring (PyStr.strip (tostring e)) = Some e' /\ text e' = text e) ->
  (forall f, f ∈ snips ->
     f <> "" /\ PyStr.contains XML_SEPARATOR f = false /\
     PyStr.endswith f separator_head = false) ->
  (forall i, PyStr.contains "ERROR_" (payload snips i) = false) ->
  strs <> [] ->
  exists r,
    translate_run api calls xml_root = (r, Completed) /\
    run_root r = xml_root /\
    run_calls r = calls + (length strs + BATCH_SIZE - 1) / BATCH_SIZE /\
    run_slept r = 0.
Proof.
  intros strs snips Hecho Hparse Hclean Hmark Hne.
  destruct (translate_run_cases api calls xml_root) as [[Hnone _]|[_ ->]]; [done|].
  destruct (echo_batch_loop api xml_root (length strs)
              (range_step (length strs) BATCH_SIZE)
              (start_run xml_root calls (length strs))
              Hecho Hparse Hclean Hmark)
    as (r & Hrun & Hroot & Hcalls & Hslept).
  - intros i Hi. by apply range_step_bound.
  - done.
  - exists r. split; [exact Hrun|]. split; [done|].
    unfold range_step in Hcalls. rewrite length_map, length_seq in Hcalls.
    by split.
Qed.

End Echo.

Section EchoOnSample.
#[local] Existing Instance FlatXml.flat.

Lemma echo_run_changes_nothing_witness :
  exists r,
    translate_run Samples.echo 0 Samples.table2 = (r, Completed) /\
    run_root r = Samples.table2 /\
    run_calls r = 1 /\
    run_slept r = 0.
Proof.
  apply (echo_run_changes_nothing Samples.echo 0 Samples.table2).
  - done.
  - intros idx e Hidx He.
    apply list_elem_of_In in Hidx. vm_compute in Hidx.
    destruct Hidx as [<-|[<-|[]]]; injection He as <-; eexists;
      (split; [vm_compute; reflexivity | reflexivity]).
  - intros f Hf. apply list_elem_of_In in Hf. vm_compute in Hf.
    destruct Hf as [<-|[<-|[]]]; by vm_compute.
  - intros i. unfold payload, batch_slice.
    set (snips := all_xml_snippets _ _). vm_compute in snips. subst snips.
    destruct i as [|[|[|i]]]; vm_compute; reflexivity.
  - discriminate.
Defined.

End EchoOnSample.

(** * C2: the batches of a run and the place of a fragment *)

Section Positions.
Context `{ET : ElementTree}.

(** The batches the loop has applied: each was sent as the text of its
    records' fragments, its answer had as many fragments as it had
    records, and each record has the outcome of the fragment at its own
    place. *)
Lemma batch_loop_positions (api : Api) (strs : list nat) (snips : list string)
    (total : nat) (starts : list nat) (r r' : Run) (e : Ending) :
  batch_loop api strs snips total starts r = (r', e) ->
  (forall i, i ∈ starts -> NoDup (batch_slice strs i)) ->
  (forall k1 k2 i1 i2 idx,
     k1 <> k2 -> starts !! k1 = Some i1 -> starts !! k2 = Some i2 ->
     idx ∈ batch_slice strs i1 -> idx ∉ batch_slice strs i2) ->
  exists m,
    m <= length starts /\
    translated_count r'
      = translated_count r + length (concat (map (batch_slice strs) (take m starts))) /\
    forall k i, k < m -> starts !! k = Some i ->
      exists c resp,
        run_sent r' !! (length (run_sent r) + k) = Some (payload snips i) /\
        resp = returned (translate_text_with_ai api c (payload snips i)) /\
        length (PyStr.split XML_SEPARATOR resp) = length (batch_slice strs i) /\
        forall j idx, batch_slice strs i !! j = Some idx ->
          exists frag,
            PyStr.split XML_SEPARATOR resp !! j = Some frag /\
            run_root r' !! idx = update_tag frag <$> run_root r !! idx.
Proof.
  revert r. induction starts as [|i starts IH]; intros r Hrun Hnd Hdisj.
  { injection Hrun as <- <-. exists 0. cbn. split; [lia|]. split; [lia|].
    intros k i Hk. lia. }
  cbn [batch_loop] in Hrun. fold (payload snips i) in Hrun.
  destruct (PyStr.contains _ _).
  { injection Hrun as <- <-. exists 0. cbn. split; [lia|]. split; [lia|].
    intros k i' Hk. lia. }
  destruct (_update_tags_from_response _ _ _) as [[|] root'] eqn:Hup.
  2:{ injection Hrun as <- <-. exists 0. cbn. split; [lia|]. split; [lia|].
      intros k i' Hk. lia. }
  cbn [run_root run_calls run_slept run_sent translated_count progress] in *.
  apply update_response_true in Hup as [Hlen ->].
  pose proof Hrun as Hsent. apply batch_loop_trace in Hsent as (n & _ & Hsent & _).
  pose proof Hrun as Hrest.
  apply IH in Hrun as (m & Hm & Hcount & Hpos).
  2:{ intros j Hj. apply Hnd. by right. }
  2:{ intros k1 k2 i1 i2 idx Hne H1 H2. apply (Hdisj (S k1) (S k2)); [lia|done..]. }
  cbn [run_root run_calls run_slept run_sent translated_count progress] in *.
  exists (S m). split; [cbn; lia|]. split.
  { rewrite Hcount. cbn [take map concat]. rewrite length_app. lia. }
  intros [|k] i' Hk Hi'.
  - injection Hi' as <-.
    exists (run_calls r), (returned (translate_text_with_ai api (run_calls r) (payload snips i))).
    split; [|split; [done|split; [done|]]].
    + rewrite Hsent, Nat.add_0_r, <- app_assoc.
      rewrite lookup_app_r by lia. by rewrite Nat.sub_diag.
    + intros j idx Hj.
      destruct (PyStr.split XML_SEPARATOR _ !! j) as [frag|] eqn:Hf.
      2:{ apply lookup_ge_None in Hf. apply lookup_lt_Some in Hj. lia. }
      exists frag. split; [done|].
      rewrite (batch_loop_frame _ _ _ _ _ _ _ _ idx Hrest).
      * cbn [run_root]. eapply update_zipped_at; [|done..].
        apply Hnd. by left.
      * intros i2 Hi2. apply list_elem_of_lookup in Hi2 as [k2 Hk2].
        apply (Hdisj 0 (S k2) i i2); [lia|done..|].
        by eapply list_elem_of_lookup_2.
  - cbn [lookup] in Hi'.
    destruct (Hpos k i' ltac:(lia) Hi') as (c & resp & Hs & Hr & Hl & Hfrag).
    exists c, resp. split; [|split; [done|split; [done|]]].
    + rewrite <- Hs. rewrite length_app. cbn [length]. f_equal. lia.
    + intros j idx Hj. destruct (Hfrag j idx Hj) as (frag & Hf & Hroot).
      exists frag. split; [done|]. rewrite Hroot. f_equal.
      apply update_zipped_other.
      apply (Hdisj (S k) 0 i' i); [lia|done..|].
      by eapply list_elem_of_lookup_2.
Qed.

(** Two batches of a list without repetition share no record. *)
Lemma batches_disjoint (strs : list nat) (k1 k2 i1 i2 idx : nat) :
  NoDup strs -> k1 <> k2 ->
  range_step (length strs) BATCH_SIZE !! k1 = Some i1 ->
  range_step (length strs) BATCH_SIZE !! k2 = Some i2 ->
  idx ∈ batch_slice strs i1 -> idx ∉ batch_slice strs i2.
Proof.
  intros Hnd Hne H1 H2 Hin1 Hin2.
  apply range_step_lookup in H1 as ->. apply range_step_lookup in H2 as ->.
  unfold batch_slice in *.
  apply elem_of_take in Hin1 as (p1 & Hp1 & Hlt1).
  apply elem_of_take in Hin2 as (p2 & Hp2 & Hlt2).
  rewrite lookup_drop in Hp1, Hp2.
  pose proof (NoDup_lookup _ _ _ _ Hnd Hp1 Hp2) as Heq.
  unfold BATCH_SIZE in *. nia.
Qed.

(** C2.  The batches of a run are slices of at most 100 positions whose
    concatenation in order is the list of translatable records, itself
    the extraction order with nothing repeated or left out.  For every
    batch the run has applied, the text the adapter was given is that of
    the batch's fragments in order, fragment [j] being the serialized
    record [j] of the batch; the adapter's answer had as many fragments as
    the batch has records; and record [j] of the batch now holds the
    outcome of fragment [j] of the answer, whatever keys the fragments
    carry. *)
Theorem batches_partition_and_apply_by_position (api : Api) (calls : nat)
    (xml_root : list Element) :
  let strs := _get_translatable_strings xml_root in
  let snips := all_xml_snippets xml_root strs in
  let starts := range_step (length strs) BATCH_SIZE in
  let run := translate_run api calls xml_root in
  concat (map (batch_slice strs) starts) = strs /\
  strs `sublist_of` seq 0 (length xml_root) /\
  NoDup strs /\
  Forall (fun i => 0 < length (batch_slice strs i) <= BATCH_SIZE) starts /\
  forall k i, starts !! k = Some i -> i < translated_count run.1 ->
    exists c resp,
      run_sent run.1 !! k = Some (PyStr.join XML_SEPARATOR (batch_slice snips i)) /\
      resp = returned (translate_text_with_ai api c
                         (PyStr.join XML_SEPARATOR (batch_slice snips i))) /\
      length (PyStr.split XML_SEPARATOR resp) = length (batch_slice strs i) /\
      forall j idx, batch_slice strs i !! j = Some idx ->
        batch_slice snips i !! j
          = Some (PyStr.strip (tostring (element_at xml_root idx))) /\
        exists frag,
          PyStr.split XML_SEPARATOR resp !! j = Some frag /\
          run_root run.1 !! idx = update_tag frag <$> xml_root !! idx.
Proof.
  intros strs snips starts run.
  split; [apply concat_batches|].
  split; [apply translatable_sublist|].
  split; [apply translatable_NoDup|].
  split.
  { apply Forall_forall. intros i Hi.
    apply range_step_bound in Hi.
    pose proof (batch_slice_nonempty strs i Hi) as Hne.
    pose proof (batch_slice_length strs i).
    destruct (batch_slice strs i); [done | simpl in *; lia]. }
  intros k i Hk Hcount.
  destruct (translate_run_cases api calls xml_root) as [[Hnone Hrun]|[Hsome Hrun]].
  { subst run. rewrite Hrun in Hcount. cbn in Hcount. lia. }
  fold strs snips starts in Hrun.
  destruct (batch_loop api strs snips (length strs) starts
              (start_run xml_root calls (length strs))) as [r' e] eqn:Hloop.
  subst run. rewrite Hrun in Hcount |- *. cbn [fst] in *.
  destruct (batch_loop_positions _ _ _ _ _ _ _ _ Hloop) as (m & Hm & Hcnt & Hpos).
  { intros j _. apply batch_NoDup. }
  { intros k1 k2 i1 i2 idx. apply batches_disjoint, translatable_NoDup. }
  assert (k < m) as Hkm.
  { cbn [start_run translated_count] in Hcnt.
    subst starts. unfold range_step in Hm. rewrite length_map, length_seq in Hm.
    rewrite slices_before, length_take in Hcnt by done.
    apply range_step_lookup in Hk. unfold BATCH_SIZE in *. nia. }
  destruct (Hpos k i Hkm Hk) as (c & resp & Hsent & Hresp & Hlen & Hfrag).
  exists c, resp. split; [exact Hsent|]. split; [exact Hresp|]. split; [exact Hlen|].
  intros j idx Hj. split; [|by apply Hfrag].
  subst snips. unfold all_xml_snippets, batch_slice in *.
  match goal with |- context [map ?f ?l] => change (map f l) with (f <$> l) end.
  rewrite <- fmap_drop, <- fmap_take, list_lookup_fmap, Hj. done.
Qed.

End Positions.

Section PositionOnSample.
#[local] Existing Instance FlatXml.flat.

(** The two fragments of the answer carry the key of the other record:
    each record gets the text of the fragment at its place. *)
Lemma batches_partition_and_apply_by_position_witness :
  let run := translate_run (Samples.always Samples.swapped_keys) 0 Samples.table3 in
  _get_translatable_strings Samples.table3 = [0; 2] /\
  run.2 = Completed /\
  PyStr.split XML_SEPARATOR Samples.swapped_keys
    = ["<string name=" ++ FlatXml.DQ ++ "bye" ++ FlatXml.DQ ++ ">Shalom</string>";
       "<string name=" ++ FlatXml.DQ ++ "hello" ++ FlatXml.DQ ++ ">Lehitraot</string>"] /\
  (exists frag,
     PyStr.split XML_SEPARATOR Samples.swapped_keys !! 0 = Some frag /\
     run_root run.1 !! 0 = update_tag frag <$> Samples.table3 !! 0) /\
  run_root run.1 !! 0
    = Some (mkElement "string" [("name", "hello")] (Some "Shalom")
              (Some (LF ++ "    ")) []) /\
  run_root run.1 !! 2
    = Some (mkElement "string" [("name", "bye")] (Some "Lehitraot")
              (Some (LF ++ "    ")) []).
Proof.
  intros run.
  destruct (batches_partition_and_apply_by_position
              (Samples.always Samples.swapped_keys) 0 Samples.table3)
    as (_ & _ & _ & _ & Hpos).
  destruct (Hpos 0 0 eq_refl ltac:(vm_compute; lia))
    as (c & resp & _ & Hresp & _ & Hfrag).
  assert (resp = Samples.swapped_keys) as -> by (rewrite Hresp; vm_compute; reflexivity).
  destruct (Hfrag 0 0 eq_refl) as [_ H0].
  split; [reflexivity|]. split; [vm_compute; reflexivity|].
  split; [vm_compute; reflexivity|]. split; [exact H0|].
  split; vm_compute; reflexivity.
Defined.

End PositionOnSample.

(** * The data of a state when workers overlap *)

Lemma fields_grow_refl (app : App) : fields_grow app app.
Proof. by repeat split. Qed.

Lemma fields_grow_with_state (app app' : App) (s : AppState) :
  fields_grow app app' ->
  holds_its_data (with_state app s) -> holds_its_data (with_state app' s).
Proof.
  intros (Ha & Hd & Hx & Ho & Hu) H.
  by apply (holds_its_data_mono (with_state app s)).
Qed.

Lemma fields_grow_holds (app app' : App) :
  fields_grow app app' -> current_state app' = current_state app ->
  holds_its_data app -> holds_its_data app'.
Proof.
  intros (Ha & Hd & Hx & Ho & Hu) Hs H.
  by apply (holds_its_data_mono app).
Qed.

Lemma update_ui_fields (app : App) : fields_grow app (_update_ui_for_state app).
Proof. rewrite update_ui_with_btn. by repeat split. Qed.

Lemma set_state_fields (app : App) (s : AppState) :
  fields_grow app (set_state app s).
Proof.
  unfold set_state. rewrite update_ui_with_btn. by repeat split.
Qed.

Section SessionData.
Context `{ET : ElementTree}.

Lemma handler_fields (st : Stage) (w : World) (app : App) :
  fields_grow app (handler st w app).1 /\
  (holds_its_data app -> holds_its_data (handler st w app).1) /\
  ((handler Save w app).2 = true -> is_Some (decompiled_dir app)).
Proof.
  split; [|split].
  - destruct st; cbn [handler]; unfold run_step1_select_apk; cbv zeta;
      stage_cases; cbn [fst];
      first [ apply fields_grow_refl
            | by (unfold set_state; rewrite update_ui_with_btn;
                  repeat split; cbn; eauto)
            | by (repeat split; cbn; eauto) ].
  - intros H. destruct st; cbn [handler];
      [exact (stage_holds_its_data Select w app H)|..];
      stage_cases; cbn [fst]; exact H.
  - cbn [handler]. destruct (PyStr.truthy (decompiled_dir app)) eqn:E; [|done].
    intros _. by apply truthy_is_Some.
Qed.

Lemma toggle_fields (app : App) : fields_grow app (toggle_expert_mode app).
Proof.
  unfold toggle_expert_mode. rewrite update_ui_with_btn. by repeat split.
Qed.

Lemma on_thread_fields (st : Stage) (w : World) (app : App) :
  fields_grow app (on_thread st w app).1.
Proof.
  destruct st; cbn [on_thread]; cbv zeta; stage_cases; cbn [fst];
    first [ apply fields_grow_refl | by (repeat split; cbn; eauto) ].
Qed.

Lemma on_thread_backed (st : Stage) (w : World) (app : App)
    (new_state : AppState) :
  (st = Save -> is_Some (decompiled_dir app)) ->
  (on_thread st w app).2 = Some (cb_set_state new_state) ->
  holds_its_data (with_state (on_thread st w app).1 new_state).
Proof.
  intros Hsave.
  destruct st; cbn [on_thread]; cbv zeta; stage_cases; cbn [fst snd];
    intros [= <-]; unfold holds_its_data; cbn; eauto.
Qed.

Lemma interleaved_holds_its_data (s : Session) :
  Interleaved s -> session_holds_its_data s.
Proof.
  induction 1 as [deps|b w s _ (Happ & Hcb & Hsave)|k w s _ (Happ & Hcb & Hsave)
                  |s _ (Happ & Hcb & Hsave)|s _ (Happ & Hcb & Hsave)
                  |s _ (Happ & Hcb & Hsave)|found s _ (Happ & Hcb & Hsave)];
    unfold session_holds_its_data.
  - cbn [quiet session_app threads callbacks].
    split; [apply holds_its_data_set_state; done|].
    split; [by intros ? ?%elem_of_nil | by intros ?%elem_of_nil].
  - unfold press. destruct (btn (session_app s) b); [|done].
    destruct (handler_fields (command b) w (session_app s)) as (Hgrow & Hkeep & Hst).
    cbn [session_app threads callbacks].
    split; [by apply Hkeep|]. split.
    + intros ns Hin. eapply fields_grow_with_state; [exact Hgrow|]. by apply Hcb.
    + intros Hin. apply Hgrow.
      destruct (handler (command b) w (session_app s)).2 eqn:Hstarted;
        [|by apply Hsave].
      apply elem_of_app in Hin as [Hin|Hin]; [by apply Hsave|].
      apply list_elem_of_singleton in Hin. rewrite <- Hin in *. by apply Hst.
  - unfold work. destruct (threads s !! k) as [st|] eqn:Hk; [|done].
    pose proof (on_thread_fields st w (session_app s)) as Hgrow.
    cbn [session_app threads callbacks].
    split; [|split].
    + eapply fields_grow_holds; [exact Hgrow| |exact Happ].
      apply on_thread_keeps_ui.
    + intros ns Hin. apply elem_of_app in Hin as [Hin|Hin].
      * eapply fields_grow_with_state; [exact Hgrow|]. by apply Hcb.
      * destruct (on_thread st w (session_app s)).2 as [c|] eqn:Hc;
          [|by apply elem_of_nil in Hin].
        apply list_elem_of_singleton in Hin. subst c.
        apply on_thread_backed; [|done].
        intros ->. apply Hsave. by eapply list_elem_of_lookup_2.
    + intros Hin. apply Hgrow, Hsave.
      eapply elem_of_sublist; [exact Hin|]. apply sublist_delete.
  - unfold main_loop. destruct (callbacks s) as [|c rest] eqn:Hq.
    { rewrite <- Hq in *. done. }
    cbn [session_app threads callbacks].
    assert (fields_grow (session_app s) (run_callback c (session_app s))) as Hgrow.
    { destruct c; cbn [run_callback];
        [apply set_state_fields | apply update_ui_fields | by repeat split]. }
    split; [|split].
    + destruct c; cbn [run_callback].
      * apply holds_its_data_set_state, Hcb. by left.
      * by apply holds_its_data_update_ui.
      * exact Happ.
    + intros ns Hin. eapply fields_grow_with_state; [exact Hgrow|].
      apply Hcb. by right.
    + intros Hin. by apply Hgrow, Hsave.
  - cbn [session_app threads callbacks].
    split; [by apply holds_its_data_update_ui|]. split.
    + intros ns Hin. eapply fields_grow_with_state; [|by apply Hcb].
      apply toggle_fields.
    + intros Hin. by apply toggle_fields, Hsave.
  - cbn [session_app threads callbacks].
    split; [by apply (holds_its_data_mono (session_app s))|]. split.
    + intros ns Hin. by apply Hcb.
    + done.
  - cbn [session_app threads callbacks].
    split; [by apply (holds_its_data_mono (session_app s))|]. split.
    + intros ns Hin. by apply Hcb.
    + done.
Qed.

(** X24.  The state is backed by the data of its stage in every session,
    also when clicks come while workers run and callbacks wait: a worker
    assigns its field before it hands [set_state] over, and no field that
    was assigned is ever unset. *)
Theorem every_session_is_backed_by_data (s : Session) :
  Interleaved s ->
  exists st,
    current_state (session_app s) = Some st /\
    (st = APK_SELECTED -> is_Some (apk_path (session_app s))) /\
    (st = DECOMPILED \/ st = SAVED -> is_Some (decompiled_dir (session_app s))) /\
    (st = STRINGS_EXTRACTED \/ st = TRANSLATION_COMPLETE ->
     is_Some (xml_root (session_app s))) /\
    (st = RECOMPILED -> is_Some (unsigned_apk_path (session_app s))).
Proof.
  intros [H _]%interleaved_holds_its_data. unfold holds_its_data in H.
  destruct (current_state (session_app s)) as [st|]; [|done].
  exists st. split; [done|].
  destruct st; repeat split; try (intros [|]); try done; by destruct H.
Qed.

End SessionData.

Section SessionDataOnSample.
#[local] Existing Instance FlatXml.flat.

(** A file is selected while the translate worker runs. *)
Lemma every_session_is_backed_by_data_witness :
  let s :=
    main_loop (work 0 Samples.good_world
      (press step1_btn Samples.good_world
         (press step4a_btn Samples.good_world (quiet Samples.extracted)))) in
  exists st,
    current_state (session_app s) = Some st /\
    (st = APK_SELECTED -> is_Some (apk_path (session_app s))) /\
    (st = DECOMPILED \/ st = SAVED -> is_Some (decompiled_dir (session_app s))) /\
    (st = STRINGS_EXTRACTED \/ st = TRANSLATION_COMPLETE ->
     is_Some (xml_root (session_app s))) /\
    (st = RECOMPILED -> is_Some (unsigned_apk_path (session_app s))).
Proof.
  apply every_session_is_backed_by_data.
  apply il_main_loop, il_work, il_press, il_press, reachable_interleaved.
  apply sample_sessions_reachable.
Defined.

End SessionDataOnSample.
